(** * Regression detector (ci/scripts/regression_detector.py)

    A shallow embedding of the performance-regression detector and the
    properties of its metric store, baseline, classifier, batch driver and
    report generator.

    Numbers are the ones the script computes with: Python [float] is IEEE
    binary64, embedded as Rocq's primitive [float]; Python [int] is an
    unbounded integer, embedded as [Z]; [bool] is the subclass of [int] it
    is in Python. Exceptions are values of [exn] carried by [result]. The
    SQLite tables of [DB_SCHEMA] are lists of rows; the statements the script
    runs on them are written out as list operations. *)

From Stdlib Require Import ZArith QArith Qpower Qabs Floats List String Ascii Bool Lia Lqa.
From Stdlib Require Import Permutation Sorted.
Import ListNotations.

Set Warnings "-inexact-float,-register-all".

Local Open Scope Z_scope.

(* ================================================================= *)
(** ** Python values and exceptions *)

(** What [json.load] can return: the values a metrics payload holds. *)
Inductive pyval : Type :=
| PyNone
| PyBool (b : bool)
| PyInt (z : Z)
| PyFloat (f : float)
| PyStr (s : string)
| PyList (l : list pyval)
| PyDict (kv : list (string * pyval)).

(** The exceptions the script can meet. [OtherError] stands for those of
    every other class, told apart by their message: the ones raised while
    opening or parsing an artifact, by a value of the wrong type, or by
    [sqlite3] for a parameter it cannot bind. *)
Inductive exn : Type :=
| ZeroDivisionError
| OverflowError
| IntegrityError (msg : string)
| KeyError (key : string)
| AttributeError (msg : string)
| OtherError (msg : string).

Inductive result (A : Type) : Type :=
| Ok (a : A)
| Raise (e : exn).
Arguments Ok {A} a.
Arguments Raise {A} e.

Definition bind {A B : Type} (r : result A) (k : A -> result B) : result B :=
  match r with
  | Ok a => k a
  | Raise e => Raise e
  end.

Notation "x <- r ;; k" := (bind r (fun x => k))
  (at level 61, r at next level, right associativity).

(** [isinstance(value, (int, float))]: [bool] is a subclass of [int]. *)
Definition is_number (v : pyval) : bool :=
  match v with
  | PyInt _ | PyFloat _ | PyBool _ => true
  | _ => false
  end.

Definition int_of_bool (b : bool) : Z := if b then 1 else 0.

(* ================================================================= *)
(** ** Exact values of numbers

    Python compares an [int] with a [float] by their exact mathematical
    values, without converting the [int]. [xreal] is the exact value of a
    number: a rational, an infinity, or not a number. *)

Inductive xreal : Type :=
| XNaN
| XInf (neg : bool)
| XFin (q : Q).

(** The comparison of two exact values; none when one is not a number. *)
Definition x_compare (a b : xreal) : option comparison :=
  match a, b with
  | XNaN, _ | _, XNaN => None
  | XInf s1, XInf s2 =>
      Some match s1, s2 with
           | true, true | false, false => Eq
           | true, false => Lt
           | false, true => Gt
           end
  | XInf s, XFin _ => Some (if s then Lt else Gt)
  | XFin _, XInf s => Some (if s then Gt else Lt)
  | XFin p, XFin q => Some (Qcompare p q)
  end.

Definition x_lt (a b : xreal) : bool :=
  match x_compare a b with
  | Some Lt => true
  | _ => false
  end.

Definition x_le (a b : xreal) : bool :=
  match x_compare a b with
  | Some (Lt | Eq) => true
  | _ => false
  end.

Definition sf_exact (x : spec_float) : xreal :=
  match x with
  | S754_nan => XNaN
  | S754_infinity s => XInf s
  | S754_zero _ => XFin 0
  | S754_finite s m e =>
      let v := (inject_Z (Zpos m) * Qpower 2 e)%Q in
      XFin (if s then Qopp v else v)
  end.

Definition float_exact (f : float) : xreal := sf_exact (Prim2SF f).

Definition int_exact (z : Z) : xreal := XFin (inject_Z z).

(* ================================================================= *)
(** ** Arithmetic and comparison as Python performs them *)

(** [float(z)] for an [int]: the nearest binary64 value, ties to even;
    [OverflowError] when that is not finite. *)
Definition int_to_float (z : Z) : result float :=
  match binary_normalize prec emax z 0 false with
  | S754_infinity _ => Raise OverflowError
  | sf => Ok (SF2Prim sf)
  end.

(** [float(value)] for a value that passed [is_number]. *)
Definition py_float (v : pyval) : result float :=
  match v with
  | PyFloat f => Ok f
  | PyInt z => int_to_float z
  | PyBool b => int_to_float (int_of_bool b)
  | _ => Raise (OtherError "float() argument must be a string or a real number")
  end.

(** [value > f] for a number [value] and a float [f]. *)
Definition py_gt (v : pyval) (f : float) : bool :=
  match v with
  | PyFloat x => PrimFloat.ltb f x
  | PyInt z => x_lt (float_exact f) (int_exact z)
  | PyBool b => x_lt (float_exact f) (int_exact (int_of_bool b))
  | _ => false
  end.

(** [value < f], used to state what an improvement is. *)
Definition py_lt (v : pyval) (f : float) : bool :=
  match v with
  | PyFloat x => PrimFloat.ltb x f
  | PyInt z => x_lt (int_exact z) (float_exact f)
  | PyBool b => x_lt (int_exact (int_of_bool b)) (float_exact f)
  | _ => false
  end.

(** [value - f]: the number is converted to [float] first. *)
Definition py_sub (v : pyval) (f : float) : result float :=
  x <- py_float v ;; Ok (x - f)%float.

(** [x / y] on floats raises on a zero divisor of either sign. *)
Definition py_div (x y : float) : result float :=
  if PrimFloat.eqb y 0%float then Raise ZeroDivisionError else Ok (x / y)%float.

(* ================================================================= *)
(** ** Regression findings and the single-metric policy *)

(** The dictionary [check_regression] appends for a regression. *)
Record regression : Type := {
  test : string;
  metric : string;
  baseline : float;
  new : pyval;
  regression_pct : float
}.

(** Lines 91-99 of [check_regression]: the comparison of one new value with
    an established baseline. *)
Definition classify (test_name metric_name : string) (baseline : float)
    (new_value : pyval) (threshold : float) : result (option regression) :=
  if py_gt new_value (baseline * (1 + threshold))%float then
    d <- py_sub new_value baseline ;;
    regression <- py_div d baseline ;;
    Ok (Some {| test := test_name;
                metric := metric_name;
                baseline := baseline;
                new := new_value;
                regression_pct := (regression * 100)%float |})
  else Ok None.

(* ================================================================= *)
(** ** Ordering rows and values

    Insertion of [x] into a list that is walked as long as [go h x] holds
    for its head [h]; sorting is insertion of each element, last first. *)

Section InsertionSort.

Context {A : Type}.
Variable go : A -> A -> bool.

Fixpoint insert_by (x : A) (l : list A) : list A :=
  match l with
  | [] => [x]
  | h :: t => if go h x then h :: insert_by x t else x :: l
  end.

Definition sort_by (l : list A) : list A := fold_right insert_by [] l.

End InsertionSort.

(* ================================================================= *)
(** ** The metric store

    [DB_SCHEMA]: the table [benchmarks], with [UNIQUE(test_name,
    commit_hash)] and an integer primary key, and the table [metrics], whose
    [benchmark_id] refers to [benchmarks.id]. The functions of the detector
    work on the store as the open connection sees it, its own writes
    included, committed or not; [main] keeps track of what is committed. *)

Record benchmark_row : Type := {
  b_id : Z;
  b_test_name : string;
  b_commit_hash : string;
  b_timestamp : float;
  b_metrics_json : pyval
}.

Record metric_row : Type := {
  m_benchmark_id : Z;
  m_metric_name : string;
  m_value : float;
  m_unit : option string
}.

Record database : Type := {
  benchmarks : list benchmark_row;
  metrics : list metric_row
}.

(** [executescript(DB_SCHEMA)] on a new file. *)
Definition empty_database : database := {| benchmarks := []; metrics := [] |}.

(** What SQLite keeps of a float bound to a [REAL NOT NULL] column: a NaN
    is bound as NULL, which the constraint refuses; a value with no
    fractional part is kept as an integer and read back as a float, which
    loses the sign of a zero. *)
Definition sqlite_real (f : float) : option float :=
  if PrimFloat.is_nan f then None
  else if PrimFloat.is_zero f then Some 0%float
  else Some f.

(** The rowid SQLite gives a row inserted without one: one more than the
    largest in the table. It is chosen before [OR REPLACE] deletes the row
    in conflict. *)
Definition new_rowid (rows : list benchmark_row) : Z :=
  1 + fold_right Z.max 0 (map b_id rows).

Definition same_key (test_name commit_hash : string) (b : benchmark_row) : bool :=
  String.eqb (b_test_name b) test_name && String.eqb (b_commit_hash b) commit_hash.

(** [INSERT OR REPLACE INTO benchmarks (test_name, commit_hash, timestamp,
    metrics_json) VALUES (?, ?, ?, ?)], with [cursor.lastrowid]. *)
Definition insert_or_replace (db : database) (test_name commit_hash : string)
    (timestamp : float) (metrics_json : pyval)
  : result (database * Z) :=
  match sqlite_real timestamp with
  | None => Raise (IntegrityError "NOT NULL constraint failed: benchmarks.timestamp")
  | Some ts =>
      let benchmark_id := new_rowid (benchmarks db) in
      let row := {| b_id := benchmark_id;
                    b_test_name := test_name;
                    b_commit_hash := commit_hash;
                    b_timestamp := ts;
                    b_metrics_json := metrics_json |} in
      Ok ({| benchmarks :=
               filter (fun b => negb (same_key test_name commit_hash b)) (benchmarks db)
               ++ [row];
             metrics := metrics db |},
          benchmark_id)
  end.

(** The loop of [add_measurement] over [metrics.items()]: one [INSERT INTO
    metrics] per numeric entry. An exception leaves the rows written so far. *)
Fixpoint insert_metrics (rows : list metric_row) (benchmark_id : Z)
    (items : list (string * pyval)) : list metric_row * result unit :=
  match items with
  | [] => (rows, Ok tt)
  | (metric_name, value) :: rest =>
      if is_number value then
        match py_float value with
        | Raise e => (rows, Raise e)
        | Ok x =>
            match sqlite_real x with
            | None =>
                (rows, Raise (IntegrityError "NOT NULL constraint failed: metrics.value"))
            | Some v =>
                insert_metrics
                  (rows ++ [{| m_benchmark_id := benchmark_id;
                               m_metric_name := metric_name;
                               m_value := v;
                               m_unit := None |}])
                  benchmark_id rest
            end
        end
      else insert_metrics rows benchmark_id rest
  end.

(** [add_measurement(test_name, commit_hash, metrics)]; [timestamp] is what
    [time.time()] returns. The store comes back also when an exception is
    raised, with what was written before it. *)
Definition add_measurement (db : database) (timestamp : float)
    (test_name commit_hash : string) (metrics_arg : list (string * pyval))
  : database * result unit :=
  match insert_or_replace db test_name commit_hash timestamp (PyDict metrics_arg) with
  | Raise e => (db, Raise e)
  | Ok (db1, benchmark_id) =>
      let (rows, r) := insert_metrics (metrics db1) benchmark_id metrics_arg in
      ({| benchmarks := benchmarks db1; metrics := rows |}, r)
  end.

(** [metrics JOIN benchmarks ON metrics.benchmark_id = benchmarks.id]. *)
Definition join_on (db : database) : list (metric_row * benchmark_row) :=
  flat_map
    (fun m => map (fun b => (m, b))
                  (filter (fun b => b_id b =? m_benchmark_id m) (benchmarks db)))
    (metrics db).

(** [WHERE test_name = ? AND metric_name = ?]. *)
Definition where_clause (test_name metric_name : string)
    (r : metric_row * benchmark_row) : bool :=
  String.eqb (b_test_name (snd r)) test_name
  && String.eqb (m_metric_name (fst r)) metric_name.

(** The rows of the query before they are ordered, each as (timestamp,
    value). *)
Definition joined (db : database) (test_name metric_name : string)
  : list (float * float) :=
  map (fun r => (b_timestamp (snd r), m_value (fst r)))
      (filter (where_clause test_name metric_name) (join_on db)).

(** [ORDER BY timestamp DESC]: a row goes behind the rows that are newer
    and in front of the ones that are not. SQL leaves the order of rows with
    equal timestamps open. SQLite's sorter keeps rows of equal keys in the
    order the join produces them, which for this query is the order of the
    [metrics] table; so rows with equal timestamps stay in the order they
    were inserted. *)
Definition newer (h r : float * float) : bool :=
  PrimFloat.ltb (fst r) (fst h).

Definition order_by_timestamp_desc (l : list (float * float)) : list (float * float) :=
  sort_by newer l.

(** [LIMIT ?]: a negative limit is no limit in SQLite. *)
Definition limit {A : Type} (n : Z) (l : list A) : list A :=
  if n <? 0 then l else firstn (Z.to_nat n) l.

(** The query of [get_baseline] with [fetchall] and the list comprehension:
    the values of the [window] most recent samples, most recent first. *)
Definition history (db : database) (test_name metric_name : string) (window : Z)
  : list float :=
  map snd (limit window (order_by_timestamp_desc (joined db test_name metric_name))).

(* ================================================================= *)
(** ** The baseline *)

(** [sorted(data)]: ascending by [<], stable: a value goes behind the
    values below it. *)
Definition sorted (data : list float) : list float := sort_by PrimFloat.ltb data.

(** [statistics.median] of the Python standard library. *)
Definition median (data : list float) : result float :=
  let data := sorted data in
  let n := List.length data in
  if Nat.eqb n 0 then Raise (OtherError "no median for empty data")
  else if Nat.eqb (n mod 2) 1 then Ok (nth (n / 2) data 0%float)
  else
    let i := (n / 2)%nat in
    Ok ((nth (i - 1) data 0 + nth i data 0) / 2)%float.

(** The end of [get_baseline]: [None] for no values, their median otherwise. *)
Definition baseline_of (values : list float) : result (option float) :=
  match values with
  | [] => Ok None
  | _ => m <- median values ;; Ok (Some m)
  end.

Definition get_baseline (db : database) (test_name metric_name : string) (window : Z)
  : result (option float) :=
  baseline_of (history db test_name metric_name window).

(* ================================================================= *)
(** ** The batch check *)

Fixpoint check_loop (db : database) (test_name : string) (threshold : float)
    (items : list (string * pyval)) (regressions : list regression)
  : result (list regression) :=
  match items with
  | [] => Ok regressions
  | (metric_name, new_value) :: rest =>
      if negb (is_number new_value) then
        check_loop db test_name threshold rest regressions
      else
        b <- get_baseline db test_name metric_name 5 ;;
        match b with
        | None => check_loop db test_name threshold rest regressions
        | Some baseline =>
            r <- classify test_name metric_name baseline new_value threshold ;;
            match r with
            | None => check_loop db test_name threshold rest regressions
            | Some reg => check_loop db test_name threshold rest (regressions ++ [reg])
            end
        end
  end.

(** [check_regression(test_name, metrics, threshold)]. *)
Definition check_regression (db : database) (test_name : string)
    (metrics_arg : list (string * pyval)) (threshold : float)
  : result (list regression) :=
  check_loop db test_name threshold metrics_arg [].

(* ================================================================= *)
(** ** Formatting numbers

    [format(x, '.{d}f')]: the exact value of the binary64 number rounded to
    [d] decimals, ties to even. *)

Definition nl : string := String (ascii_of_nat 10) EmptyString.

Definition digit (r : Z) : ascii := ascii_of_nat (48 + Z.to_nat r).

Fixpoint dec_digits (fuel : nat) (n : Z) (acc : string) : string :=
  match fuel with
  | O => acc
  | S k =>
      let acc' := String (digit (n mod 10)) acc in
      if n <? 10 then acc' else dec_digits k (n / 10) acc'
  end.

(** [str(n)] for a natural number. *)
Definition str_int (n : Z) : string :=
  dec_digits (S (Z.to_nat (Z.log2 n))) n EmptyString.

(** The [d] digits of [r], which is below [10^d]. *)
Fixpoint frac_digits (d : nat) (r : Z) : string :=
  match d with
  | O => EmptyString
  | S k => (frac_digits k (r / 10) ++ String (digit (r mod 10)) EmptyString)%string
  end.

Definition round_half_even (num den : Z) : Z :=
  let q := num / den in
  match Z.compare (2 * (num mod den)) den with
  | Lt => q
  | Gt => q + 1
  | Eq => if Z.even q then q else q + 1
  end.

(** [m * 2^e * 10^d] rounded to an integer. *)
Definition scaled (m : positive) (e : Z) (d : nat) : Z :=
  if 0 <=? e then Zpos m * 2 ^ e * 10 ^ Z.of_nat d
  else round_half_even (Zpos m * 10 ^ Z.of_nat d) (2 ^ (- e)).

Definition fixed (d : nat) (n : Z) : string :=
  (str_int (n / 10 ^ Z.of_nat d)
   ++ match d with
      | O => EmptyString
      | S _ => "." ++ frac_digits d (n mod 10 ^ Z.of_nat d)
      end)%string.

Definition sign_str (s : bool) : string := if s then "-"%string else EmptyString.

Definition format_f (d : nat) (x : float) : string :=
  match Prim2SF x with
  | S754_nan => "nan"%string
  | S754_infinity s => (sign_str s ++ "inf")%string
  | S754_zero s => (sign_str s ++ fixed d 0)%string
  | S754_finite s m e => (sign_str s ++ fixed d (scaled m e d))%string
  end.

(** [format(v, '.{d}f')] for the value of a finding: an [int] or a [bool]
    is converted to [float] first. *)
Definition format_value (d : nat) (v : pyval) : result string :=
  match v with
  | PyFloat _ | PyInt _ | PyBool _ => x <- py_float v ;; Ok (format_f d x)
  | _ => Raise (OtherError "Unknown format code 'f'")
  end.

(* ================================================================= *)
(** ** The report *)

Definition success_marker : string :=
  ("# ✅ No Performance Regressions Detected" ++ nl)%string.

Definition report_title : string :=
  ("# ❌ Performance Regressions Detected" ++ nl ++ nl)%string.

Definition report_header : string :=
  ("| Test | Metric | Baseline | New | Regression |" ++ nl)%string.

Definition report_rule : string :=
  ("|------|--------|----------|-----|------------|" ++ nl)%string.

Definition failure_marker : string := (nl ++ "**REGRESSION**")%string.

(** The f-string of one table row. *)
Definition report_row (reg : regression) : result string :=
  new_s <- format_value 3 (new reg) ;;
  Ok ("| " ++ test reg ++ " | " ++ metric reg ++ " | "
      ++ format_f 3 (baseline reg) ++ " | "
      ++ new_s ++ " | +" ++ format_f 1 (regression_pct reg) ++ "% |" ++ nl)%string.

(** The [for reg in regressions] loop: [f] is what was written so far. *)
Fixpoint write_rows (f : string) (regressions : list regression) : string * result unit :=
  match regressions with
  | [] => (f, Ok tt)
  | reg :: rest =>
      match report_row reg with
      | Raise e => (f, Raise e)
      | Ok row => write_rows (f ++ row)%string rest
      end
  end.

(** [generate_report(regressions, output_file)]: the content of the file,
    which [open(output_file, 'w')] truncated, when the [with] block is left. *)
Definition generate_report (regressions : list regression) : string * result unit :=
  match regressions with
  | [] => (success_marker, Ok tt)
  | _ =>
      let f := (report_title ++ report_header ++ report_rule)%string in
      match write_rows f regressions with
      | (f, Raise e) => (f, Raise e)
      | (f, Ok _) => ((f ++ failure_marker)%string, Ok tt)
      end
  end.

(* ================================================================= *)
(** ** The batch driver [main]

    An artifact is a file the glob matched, taken by what [json.load] makes
    of it and by what the body of the loop does with that. [Unreadable e]:
    opening or parsing the file raises [e], or the value is one on which the
    body raises [e] before it reaches the detector: a value that is not an
    object, or one whose ['benchmarks'] cannot be iterated.
    [GoogleBenchmark entries]: a value with ['benchmarks'], whose elements
    are [entries] in the order the loop meets them. [Custom test_name
    metrics_field]: any other object, with what it holds under
    ['test_name'] and under ['metrics'], if anything.

    A test name is bound to [benchmarks.test_name], a [TEXT NOT NULL]
    column: a string as it is, an [int] or a [bool] as the decimal text of
    the integer when that fits 64 bits, [null] as NULL, which the constraint
    refuses ([NameNull] also stands for a NaN, which is bound as NULL); an
    array or an object cannot be bound, and [sqlite3] raises. Any other
    float as a name is left out: SQLite keeps it as text in a rendering of
    its own. *)

Inductive name_value : Type :=
| NameStr (s : string)
| NameInt (z : Z)
| NameBool (b : bool)
| NameNull
| NameOther (e : exn).

Record benchmark_object : Type := {
  e_name : option name_value;
  e_real_time : option pyval;
  e_cpu_time : option pyval;
  e_iterations : option pyval
}.

(** An element of [data['benchmarks']]: an object, or a value on which
    [benchmark['name']] raises [e]. *)
Inductive entry : Type :=
| Object (o : benchmark_object)
| NotObject (e : exn).

Inductive artifact_data : Type :=
| Unreadable (e : exn)
| GoogleBenchmark (entries : list entry)
| Custom (test_name : option name_value) (metrics_field : option pyval).

Record artifact : Type := {
  path : string;
  stem : string;
  data : artifact_data
}.

Record arguments : Type := {
  arg_baseline : string;
  arg_new : string;
  arg_threshold : float;
  arg_output : string;
  arg_commit : string
}.

(** [dict.get(key, default)] on a key that may be absent. *)
Definition get_default {A : Type} (field : option A) (default : A) : A :=
  match field with
  | Some v => v
  | None => default
  end.

(** [str(z)] for an [int]. *)
Definition str_z (z : Z) : string :=
  if z <? 0 then ("-" ++ str_int (- z))%string else str_int z.

(** The text SQLite compares and keeps for a test name, or the exception
    of the statement the name is bound to. *)
Definition bind_text (name : name_value) : result string :=
  match name with
  | NameStr s => Ok s
  | NameInt z =>
      if (- 2 ^ 63 <=? z) && (z <? 2 ^ 63) then Ok (str_z z)
      else Raise (OtherError "Python int too large to convert to SQLite INTEGER")
  | NameBool b => Ok (str_z (int_of_bool b))
  | NameNull => Raise (IntegrityError "NOT NULL constraint failed: benchmarks.test_name")
  | NameOther e => Raise e
  end.

(** A finding holds the test name as the artifact gave it, and the report
    shows its [str]: for a [bool] that is not the text SQLite keeps. *)
Definition shown_as (name : name_value) (reg : regression) : regression :=
  match name with
  | NameBool b =>
      {| test := if b then "True" else "False";
         metric := metric reg;
         baseline := baseline reg;
         new := new reg;
         regression_pct := regression_pct reg |}
  | _ => reg
  end.

(** [type(v).__name__]. *)
Definition type_name (v : pyval) : string :=
  match v with
  | PyNone => "NoneType"
  | PyBool _ => "bool"
  | PyInt _ => "int"
  | PyFloat _ => "float"
  | PyStr _ => "str"
  | PyList _ => "list"
  | PyDict _ => "dict"
  end.

(** What changes while the files are processed: the store as the open
    connection sees it; the store as of the last [commit()], which is what
    [close()] leaves on disk, since closing discards the writes that were
    not committed; the number of calls of [time.time()] so far; and
    [all_regressions]. *)
Record run_state : Type := {
  st_db : database;
  st_committed : database;
  st_ticks : nat;
  st_regressions : list regression
}.

(** The state after [RegressionDetector(args.baseline)] opened [db]. *)
Definition start (db : database) : run_state :=
  {| st_db := db; st_committed := db; st_ticks := 0; st_regressions := [] |}.

Section Run.

Variable args : arguments.

(** [time n] is what the [n]-th call of [time.time()] returns. *)
Variable time : nat -> float.

(** [detector.add_measurement(test_name, args.commit, metrics)], then
    [detector.check_regression(test_name, metrics, args.threshold)] and
    [all_regressions.extend(regressions)], for a name and a value of
    ['metrics'] as the artifact holds them. [add_measurement] calls
    [time.time()] first. With a name that cannot be bound, [INSERT OR
    REPLACE] raises and nothing is written. With metrics that are not an
    object the record is written and [metrics.items()] raises. The last
    line of [add_measurement] commits what the connection wrote so far,
    the writes of earlier calls that raised included. *)
Definition ingest (st : run_state) (name : name_value) (metrics_value : pyval)
  : run_state * result unit :=
  let now := time (st_ticks st) in
  let failed db e :=
    ({| st_db := db;
        st_committed := st_committed st;
        st_ticks := S (st_ticks st);
        st_regressions := st_regressions st |}, Raise e) in
  match bind_text name with
  | Raise e => failed (st_db st) e
  | Ok test_name =>
      match metrics_value with
      | PyDict metrics_arg =>
          let (db, r) :=
            add_measurement (st_db st) now test_name (arg_commit args) metrics_arg in
          match r with
          | Raise e => failed db e
          | Ok _ =>
              match check_regression db test_name metrics_arg (arg_threshold args) with
              | Raise e =>
                  ({| st_db := db;
                      st_committed := db;
                      st_ticks := S (st_ticks st);
                      st_regressions := st_regressions st |}, Raise e)
              | Ok regressions =>
                  ({| st_db := db;
                      st_committed := db;
                      st_ticks := S (st_ticks st);
                      st_regressions :=
                        st_regressions st ++ map (shown_as name) regressions |},
                   Ok tt)
              end
          end
      | _ =>
          match insert_or_replace (st_db st) test_name (arg_commit args) now
                                  metrics_value with
          | Raise e => failed (st_db st) e
          | Ok (db, _) =>
              failed db
                (AttributeError ("'" ++ type_name metrics_value
                                 ++ "' object has no attribute 'items'"))
          end
      end
  end.

(** The loop over [data['benchmarks']]. *)
Fixpoint process_entries (st : run_state) (entries : list entry)
  : run_state * result unit :=
  match entries with
  | [] => (st, Ok tt)
  | NotObject e :: _ => (st, Raise e)
  | Object benchmark :: rest =>
      match e_name benchmark with
      | None => (st, Raise (KeyError "name"))
      | Some test_name =>
          let metrics_arg :=
            [("real_time"%string, get_default (e_real_time benchmark) (PyInt 0));
             ("cpu_time"%string, get_default (e_cpu_time benchmark) (PyInt 0));
             ("iterations"%string, get_default (e_iterations benchmark) (PyInt 0))] in
          match ingest st test_name (PyDict metrics_arg) with
          | (st1, Raise e) => (st1, Raise e)
          | (st1, Ok _) => process_entries st1 rest
          end
      end
  end.

(** The body of the [try] for one file. *)
Definition process_file (st : run_state) (json_file : artifact)
  : run_state * result unit :=
  match data json_file with
  | Unreadable e => (st, Raise e)
  | GoogleBenchmark entries => process_entries st entries
  | Custom test_name metrics_field =>
      ingest st (get_default test_name (NameStr (stem json_file)))
             (get_default metrics_field (PyDict []))
  end.

(** [str(e)] for the message on the diagnostic stream. *)
Definition exn_str (e : exn) : string :=
  match e with
  | ZeroDivisionError => "float division by zero"
  | OverflowError => "int too large to convert to float"
  | IntegrityError msg => msg
  | KeyError key => ("'" ++ key ++ "'")%string
  | AttributeError msg => msg
  | OtherError msg => msg
  end.

(** [for json_file in new_files: try: ... except Exception as e: print(...,
    file=sys.stderr); continue]. The second component is [sys.stderr]. *)
Fixpoint process_files (st : run_state) (stderr : list string)
    (new_files : list artifact) : run_state * list string :=
  match new_files with
  | [] => (st, stderr)
  | json_file :: rest =>
      match process_file st json_file with
      | (st1, Raise e) =>
          process_files st1
            (stderr ++ [("Error processing " ++ path json_file ++ ": " ++ exn_str e)%string])
            rest
      | (st1, Ok _) => process_files st1 stderr rest
      end
  end.

(** What a run leaves behind: the value [main] returns, which [sys.exit]
    makes the exit code, or the exception it lets through; the store on
    disk once the connection is closed; the two streams; the file at
    [args.output], [None] when there is none. *)
Record outcome : Type := {
  exit_code : result Z;
  out_db : database;
  stdout : list string;
  stderr : list string;
  output_file : option string
}.

(** [main()]: [db] is the store [RegressionDetector(args.baseline)] opens,
    [new_files] what the glob matches, [old_output] the file at
    [args.output] before the run. [detector.close()] does not commit: the
    store that stays is the one of the last commit. *)
Definition main (db : database) (new_files : list artifact)
    (old_output : option string) : outcome :=
  match new_files with
  | [] =>
      {| exit_code := Ok 0;
         out_db := db;
         stdout := [("Warning: No benchmark files found matching " ++ arg_new args)%string];
         stderr := [];
         output_file := old_output |}
  | _ =>
      let (st, err) := process_files (start db) [] new_files in
      let all_regressions := st_regressions st in
      match generate_report all_regressions with
      | (f, Raise e) =>
          {| exit_code := Raise e;
             out_db := st_committed st;
             stdout := [];
             stderr := err;
             output_file := Some f |}
      | (f, Ok _) =>
          match all_regressions with
          | _ :: _ =>
              {| exit_code := Ok 1;
                 out_db := st_committed st;
                 stdout := [("❌ Found " ++ str_int (Z.of_nat (List.length all_regressions))
                             ++ " performance regressions")%string];
                 stderr := err;
                 output_file := Some f |}
          | [] =>
              {| exit_code := Ok 0;
                 out_db := st_committed st;
                 stdout := ["✅ No performance regressions detected"%string];
                 stderr := err;
                 output_file := Some f |}
          end
      end
  end.

End Run.

(* ================================================================= *)
(** * Vocabulary of the properties *)

Definition not_nan (x : float) : Prop := PrimFloat.is_nan x = false.

Definition fle (a b : float) : Prop := PrimFloat.leb a b = true.

Definition ascending (l : list float) : Prop := StronglySorted fle l.

(** The median in the words of the specification: of the samples in
    ascending order, the middle one, or for an even count the mean of the
    two middle ones. *)
Definition middle (s : list float) : float :=
  let n := List.length s in
  if Nat.even n then ((nth (n / 2 - 1) s 0 + nth (n / 2) s 0) / 2)%float
  else nth (n / 2) s 0%float.

Definition statistical_median (samples : list float) (m : float) : Prop :=
  exists s, Permutation samples s /\ ascending s /\ m = middle s.

(** The Benchmark Records of a (test, commit) pair. *)
Definition records (db : database) (test_name commit_hash : string)
  : list benchmark_row :=
  filter (same_key test_name commit_hash) (benchmarks db).

Definition key (b : benchmark_row) : string * string :=
  (b_test_name b, b_commit_hash b).

(** The Metric Samples [add_measurement] writes for a payload under a
    rowid. *)
Definition samples_of (benchmark_id : Z) (payload : list (string * pyval))
  : list metric_row :=
  fst (insert_metrics [] benchmark_id payload).

(** A store as the script leaves it: the constraints of [DB_SCHEMA] hold
    ([UNIQUE(test_name, commit_hash)], the primary key, [NOT NULL] on the
    timestamp), and every sample was written under a rowid that was given
    out before. *)
Definition store_ok (db : database) : Prop :=
  NoDup (map key (benchmarks db))
  /\ NoDup (map b_id (benchmarks db))
  /\ Forall (fun b => not_nan (b_timestamp b)) (benchmarks db)
  /\ Forall (fun m => m_benchmark_id m < new_rowid (benchmarks db)) (metrics db).

(** One call of [add_measurement]: what [time.time()] gave, and the
    arguments. *)
Record write : Type := {
  w_time : float;
  w_test : string;
  w_commit : string;
  w_metrics : list (string * pyval)
}.

Definition record_all (db : database) (writes : list write) : database :=
  fold_left
    (fun db w => fst (add_measurement db (w_time w) (w_test w) (w_commit w) (w_metrics w)))
    writes db.

(** Rows of the query, most recent first. *)
Definition newest_first (l : list (float * float)) : Prop :=
  StronglySorted (fun a b => fle (fst b) (fst a)) l.

(** A store with seven samples of one metric, written at times 1 to 7. *)
Definition example_writes : list write :=
  map (fun p => {| w_time := fst (fst p);
                   w_test := "BM_Sort";
                   w_commit := snd (fst p);
                   w_metrics := [("real_time"%string, PyFloat (snd p))] |})
      [(1, "c1"%string, 500); (2, "c2"%string, 400); (3, "c3"%string, 100);
       (4, "c4"%string, 90); (5, "c5"%string, 110); (6, "c6"%string, 95);
       (7, "c7"%string, 105)]%float.

Definition example_store : database := record_all empty_database example_writes.

(** A finding whose new value [format] can render: a float, or a bool or
    an int in the range of float. *)
Definition formattable (reg : regression) : Prop :=
  exists x, py_float (new reg) = Ok x.

Definition example_args : arguments :=
  {| arg_baseline := "perf.db";
     arg_new := "results/*.json";
     arg_threshold := 0.05;
     arg_output := "report.md";
     arg_commit := "HEAD" |}.

(** A clock that starts at 1000 and advances by one second per call. *)
Definition example_time (n : nat) : float :=
  SF2Prim (binary_normalize prec emax (1000 + Z.of_nat n) 0 false).

(** A later state of a run keeps the findings of an earlier one and may
    add findings that can be rendered. *)
Definition extends (st st' : run_state) : Prop :=
  exists extra,
    st_regressions st' = st_regressions st ++ extra /\ Forall formattable extra.

(** Three artifacts: a first measurement, a file that does not parse, and
    a later measurement that is a regression. *)
Definition example_first : artifact :=
  {| path := "results/a.json"; stem := "a";
     data := GoogleBenchmark
               [Object {| e_name := Some (NameStr "BM_Sort");
                          e_real_time := Some (PyInt 100);
                          e_cpu_time := None;
                          e_iterations := None |}] |}.

Definition example_broken : artifact :=
  {| path := "results/b.json"; stem := "b";
     data := Unreadable (OtherError "Expecting value: line 1 column 1 (char 0)") |}.

Definition example_later : artifact :=
  {| path := "results/c.json"; stem := "c";
     data := Custom (Some (NameStr "BM_Sort"))
                    (Some (PyDict [("real_time"%string, PyInt 150)])) |}.

Definition is_digit (c : ascii) : bool :=
  (48 <=? nat_of_ascii c)%nat && (nat_of_ascii c <=? 57)%nat.

Fixpoint all_digits (s : string) : bool :=
  match s with
  | EmptyString => true
  | String c rest => is_digit c && all_digits rest
  end.

(** The table row of a finding, from its rendered numbers. *)
Definition row_text (reg : regression) (b n p : string) : string :=
  ("| " ++ test reg ++ " | " ++ metric reg ++ " | " ++ b ++ " | " ++ n
   ++ " | +" ++ p ++ "% |" ++ nl)%string.

(** The rows one after the other. *)
Definition join_rows (rows : list string) : string :=
  fold_right String.append EmptyString rows.

(** A bool read as the int it is. *)
Definition as_int (v : pyval) : pyval :=
  match v with
  | PyBool b => PyInt (int_of_bool b)
  | _ => v
  end.

Definition payload_as_int (items : list (string * pyval)) : list (string * pyval) :=
  map (fun kv => (fst kv, as_int (snd kv))) items.

Definition finding_as_int (reg : regression) : regression :=
  {| test := test reg;
     metric := metric reg;
     baseline := baseline reg;
     new := as_int (new reg);
     regression_pct := regression_pct reg |}.

Definition map_result {A B : Type} (f : A -> B) (r : result A) : result B :=
  match r with
  | Ok a => Ok (f a)
  | Raise e => Raise e
  end.

(** The number one in binary64: 2^52 * 2^-52. *)
Definition sf_one : spec_float := S754_finite false 4503599627370496 (-52).

(* ----------------------------------------------------------------- *)
(** ** Vocabulary of the properties of the store and the run *)

(** The entries of a payload that pass the test for numbers. *)
Definition numeric_items (items : list (string * pyval)) : list (string * pyval) :=
  filter (fun kv => is_number (snd kv)) items.

(** A number SQLite accepts in [metrics.value]: it converts to a float that
    is not a NaN. *)
Definition storable (v : pyval) : Prop :=
  exists x y, py_float v = Ok x /\ sqlite_real x = Some y.

(** The store knows no record of the test. *)
Definition unknown_test (db : database) (test_name : string) : Prop :=
  forall b, In b (benchmarks db) -> b_test_name b <> test_name.

(** The rows of the query that one metric row contributes. *)
Definition matches (rows : list benchmark_row) (test_name metric_name : string)
    (m : metric_row) : list (float * float) :=
  if String.eqb (m_metric_name m) metric_name then
    map (fun b => (b_timestamp b, m_value m))
        (filter (fun b => (b_id b =? m_benchmark_id m)
                          && String.eqb (b_test_name b) test_name) rows)
  else [].

(** [s] holds [token] somewhere: what a [grep] for the token finds. *)
Definition contains (token s : string) : Prop :=
  exists pre post, s = (pre ++ token ++ post)%string.

(** The token of the failure marker that automation greps for. *)
Definition failure_token : string := "**REGRESSION**".

(* ----------------------------------------------------------------- *)
(** ** Vocabulary of the properties of the query *)

(** A Metric Sample of a test and a metric, in the words of the
    specification: a row of [metrics] with the name of the metric whose
    record is a record of the test. [ts] is the timestamp of the record and
    [v] the value of the sample. *)
Definition is_sample_of (db : database) (test_name metric_name : string)
    (ts v : float) : Prop :=
  exists m b,
    In m (metrics db) /\ In b (benchmarks db)
    /\ m_benchmark_id m = b_id b
    /\ b_test_name b = test_name
    /\ m_metric_name m = metric_name
    /\ b_timestamp b = ts
    /\ m_value m = v.

(** The rows of [metrics] that are samples of the test and the metric. *)
Definition sample_rows (db : database) (test_name metric_name : string)
  : list metric_row :=
  filter (fun m =>
            String.eqb (m_metric_name m) metric_name
            && existsb (fun b => (b_id b =? m_benchmark_id m)
                                 && String.eqb (b_test_name b) test_name)
                       (benchmarks db))
         (metrics db).

(** The rows with a given timestamp, in the order of the list. *)
Definition at_time (ts : float) (l : list (float * float)) : list (float * float) :=
  filter (fun r => PrimFloat.eqb (fst r) ts) l.

(** The store without the record of a (test, commit) pair. *)
Definition without (db : database) (test_name commit_hash : string) : database :=
  {| benchmarks := filter (fun b => negb (same_key test_name commit_hash b)) (benchmarks db);
     metrics := metrics db |}.

(** A store with six samples of one metric, 1 to 6 in the order they were
    written, all with the same timestamp. *)
Definition example_ties : database :=
  record_all empty_database
    (map (fun p => {| w_time := 1;
                      w_test := "BM_Sort";
                      w_commit := fst p;
                      w_metrics := [("real_time"%string, PyFloat (snd p))] |})
         [("c1"%string, 1); ("c2"%string, 2); ("c3"%string, 3);
          ("c4"%string, 4); ("c5"%string, 5); ("c6"%string, 6)]%float).

(** An artifact of two entries: a measurement that is a regression against
    [example_store], and an entry without a name. *)
Definition example_partial : artifact :=
  {| path := "results/p.json"; stem := "p";
     data := GoogleBenchmark
               [Object {| e_name := Some (NameStr "BM_Sort");
                          e_real_time := Some (PyInt 150);
                          e_cpu_time := None;
                          e_iterations := None |};
                Object {| e_name := None;
                          e_real_time := Some (PyInt 1);
                          e_cpu_time := None;
                          e_iterations := None |}] |}.

(** An artifact whose metrics are an array. *)
Definition example_array : artifact :=
  {| path := "results/q.json"; stem := "q";
     data := Custom (Some (NameStr "BM_Sort")) (Some (PyList [PyInt 1; PyInt 2])) |}.

(** At most one Benchmark Record per (test, commit). *)
Definition one_record_per_pair (db : database) : Prop :=
  forall t c, (List.length (records db t c) <= 1)%nat.

(** The number a string of digits denotes, read from the left; [acc] is
    the number read so far. *)
Fixpoint digits_value (s : string) (acc : Z) : Z :=
  match s with
  | EmptyString => acc
  | String c rest => digits_value rest (10 * acc + (Z.of_nat (nat_of_ascii c) - 48))
  end.

(** [s] is the decimal numeral of [n] / 10^[d], [n] not negative, with
    exactly [d] digits behind the point, and a minus sign in front when
    [neg]. *)
Definition numeral (d : nat) (neg : bool) (n : Z) (s : string) : Prop :=
  exists whole frac,
    s = ((if neg then "-" else "") ++ whole ++ "." ++ frac)%string
    /\ whole <> EmptyString
    /\ all_digits whole = true
    /\ String.length frac = d
    /\ all_digits frac = true
    /\ digits_value (whole ++ frac) 0 = n.

(** The rational a numeral denotes. *)
Definition decimal_value (d : nat) (neg : bool) (n : Z) : Q :=
  let q := (inject_Z n / inject_Z (10 ^ Z.of_nat d))%Q in
  if neg then (- q)%Q else q.

(** Half a unit of the last of [d] decimals. *)
Definition half_unit (d : nat) : Q := (1 / inject_Z (2 * 10 ^ Z.of_nat d))%Q.

(** A finding with a negative baseline and a new value above it. *)
Definition example_negative : regression :=
  {| test := "t"; metric := "m"; baseline := (-100);
     new := PyFloat 50; regression_pct := (-150) |}.

(** A store with three samples of -100. *)
Definition example_below_zero : database :=
  record_all empty_database
    (map (fun p => {| w_time := fst p;
                      w_test := "t";
                      w_commit := snd p;
                      w_metrics := [("m"%string, PyFloat (-100))] |})
         [(1, "c1"%string); (2, "c2"%string); (3, "c3"%string)]%float).

(* ================================================================= *)
(** * Properties *)

(* ----------------------------------------------------------------- *)
(** ** Binary64 comparison is the comparison of exact values *)

Lemma digits2_pos_size (m : positive) : digits2_pos m = Pos.size m.
Proof. induction m; simpl; congruence. Qed.

Lemma digits2_bounds (m : positive) :
  2 ^ (Zpos (digits2_pos m) - 1) <= Zpos m < 2 ^ Zpos (digits2_pos m).
Proof.
  rewrite digits2_pos_size.
  pose proof (Pos.size_gt m) as Hgt.
  pose proof (Pos.size_le m) as Hle.
  assert (Hp : Zpos (2 ^ Pos.size m) = 2 ^ Zpos (Pos.size m)) by apply Pos2Z.inj_pow.
  split.
  - assert (2 ^ Zpos (Pos.size m) = 2 * 2 ^ (Zpos (Pos.size m) - 1)) as E.
    { rewrite <- Z.pow_succ_r by lia. f_equal. lia. }
    lia.
  - lia.
Qed.

(** A canonical mantissa has at most [prec] digits, and exactly [prec] above
    the smallest exponent. *)
Lemma bounded_digits (m : positive) (e : Z) :
  bounded prec emax m e = true ->
  emin <= e /\ Zpos (digits2_pos m) <= prec /\ (emin < e -> Zpos (digits2_pos m) = prec).
Proof.
  unfold bounded, canonical_mantissa, fexp, SpecFloat.emin, emin, prec, emax.
  intros H. apply andb_prop in H as [H _]. apply Z.eqb_eq in H. lia.
Qed.

Lemma Qpower_2_pos (e : Z) : (0 < Qpower 2 e)%Q.
Proof. apply Qpower_0_lt. reflexivity. Qed.

(** Two scaled integers compare as the integers brought to the smaller
    exponent. *)
Lemma Qcompare_scale (a b e1 e2 : Z) :
  e1 <= e2 ->
  Qcompare (inject_Z a * Qpower 2 e1) (inject_Z b * Qpower 2 e2)
  = Z.compare a (b * 2 ^ (e2 - e1)).
Proof.
  intros Hle.
  assert (E : (inject_Z b * Qpower 2 e2 == inject_Z (b * 2 ^ (e2 - e1)) * Qpower 2 e1)%Q).
  { replace e2 with ((e2 - e1) + e1) at 1 by lia.
    rewrite Qpower_plus by discriminate.
    rewrite inject_Z_mult, Zpower_Qpower by lia.
    change (inject_Z 2) with 2%Q.
    generalize (2 ^ (e2 - e1))%Q (2 ^ e1)%Q (inject_Z b). intros; ring. }
  rewrite E.
  pose proof (Qpower_2_pos e1) as Hpos.
  destruct (Z.compare_spec a (b * 2 ^ (e2 - e1))) as [H|H|H].
  - apply -> Qeq_alt. rewrite H. reflexivity.
  - apply -> Qlt_alt. apply Qmult_lt_compat_r; [assumption|].
    rewrite <- Zlt_Qlt. assumption.
  - apply -> Qgt_alt. apply Qmult_lt_compat_r; [assumption|].
    rewrite <- Zlt_Qlt. assumption.
Qed.

Lemma Qcompare_opp (p q : Q) : Qcompare (- p) (- q) = Qcompare q p.
Proof.
  unfold Qcompare. simpl.
  rewrite !Z.mul_opp_l. apply Z.compare_opp.
Qed.

Lemma Qcompare_finite_pos (m1 m2 : positive) (e1 e2 : Z) :
  bounded prec emax m1 e1 = true ->
  bounded prec emax m2 e2 = true ->
  Qcompare (inject_Z (Zpos m1) * Qpower 2 e1) (inject_Z (Zpos m2) * Qpower 2 e2)
  = match Z.compare e1 e2 with
    | Lt => Lt
    | Gt => Gt
    | Eq => Pos.compare_cont Eq m1 m2
    end.
Proof.
  intros B1 B2.
  apply bounded_digits in B1 as (L1 & D1 & N1).
  apply bounded_digits in B2 as (L2 & D2 & N2).
  pose proof (digits2_bounds m1) as [Lo1 Hi1].
  pose proof (digits2_bounds m2) as [Lo2 Hi2].
  unfold prec in *.
  destruct (Z.compare_spec e1 e2) as [E|E|E].
  - subst e2. rewrite Qcompare_scale by lia.
    rewrite Z.sub_diag, Z.mul_1_r. reflexivity.
  - rewrite Qcompare_scale by lia.
    apply Z.compare_lt_iff.
    rewrite (N2 ltac:(lia)) in Lo2.
    assert (Zpos m1 < 2 ^ 53).
    { eapply Z.lt_le_trans; [exact Hi1|]. apply Z.pow_le_mono_r; lia. }
    assert (2 ^ 1 <= 2 ^ (e2 - e1)) by (apply Z.pow_le_mono_r; lia).
    change (2 ^ (53 - 1)) with 4503599627370496 in Lo2.
    change (2 ^ 53) with 9007199254740992 in *. change (2 ^ 1) with 2 in *.
    nia.
  - rewrite <- Qcompare_antisym, Qcompare_scale by lia.
    replace Gt with (CompOpp Lt) by reflexivity. f_equal.
    apply Z.compare_lt_iff.
    rewrite (N1 ltac:(lia)) in Lo1.
    assert (Zpos m2 < 2 ^ 53).
    { eapply Z.lt_le_trans; [exact Hi2|]. apply Z.pow_le_mono_r; lia. }
    assert (2 ^ 1 <= 2 ^ (e1 - e2)) by (apply Z.pow_le_mono_r; lia).
    change (2 ^ (53 - 1)) with 4503599627370496 in Lo1.
    change (2 ^ 53) with 9007199254740992 in *. change (2 ^ 1) with 2 in *.
    nia.
Qed.

Lemma Qscaled_pos (m : positive) (e : Z) : (0 < inject_Z (Zpos m) * Qpower 2 e)%Q.
Proof.
  apply Qmult_lt_0_compat; [reflexivity | apply Qpower_2_pos].
Qed.

Lemma Qcompare_0_pos (v : Q) : (0 < v)%Q -> Qcompare 0 v = Lt.
Proof. intros. apply -> Qlt_alt. assumption. Qed.

Lemma Qcompare_0_neg (v : Q) : (0 < v)%Q -> Qcompare 0 (- v) = Gt.
Proof. intros. apply -> Qgt_alt. lra. Qed.

Lemma Qcompare_pos_0 (v : Q) : (0 < v)%Q -> Qcompare v 0 = Gt.
Proof. intros. apply -> Qgt_alt. assumption. Qed.

Lemma Qcompare_neg_0 (v : Q) : (0 < v)%Q -> Qcompare (- v) 0 = Lt.
Proof. intros. apply -> Qlt_alt. lra. Qed.

Lemma Qcompare_neg_pos (v w : Q) : (0 < v)%Q -> (0 < w)%Q -> Qcompare (- v) w = Lt.
Proof. intros. apply -> Qlt_alt. lra. Qed.

Lemma Qcompare_pos_neg (v w : Q) : (0 < v)%Q -> (0 < w)%Q -> Qcompare v (- w) = Gt.
Proof. intros. apply -> Qgt_alt. lra. Qed.

Lemma sf_compare_exact (x y : spec_float) :
  valid_binary x = true -> valid_binary y = true ->
  SFcompare x y = x_compare (sf_exact x) (sf_exact y).
Proof.
  intros Vx Vy.
  destruct x as [sx|sx| |sx mx ex], y as [sy|sy| |sy my ey];
    cbn [SFcompare sf_exact x_compare valid_binary] in *; try reflexivity.
  - (* zero, finite *)
    f_equal. pose proof (Qscaled_pos my ey) as H.
    destruct sy; symmetry.
    + apply Qcompare_0_neg, H.
    + apply Qcompare_0_pos, H.
  - (* finite, zero *)
    f_equal. pose proof (Qscaled_pos mx ex) as H.
    destruct sx; symmetry.
    + apply Qcompare_neg_0, H.
    + apply Qcompare_pos_0, H.
  - (* finite, finite *)
    f_equal.
    pose proof (Qscaled_pos mx ex) as Hx. pose proof (Qscaled_pos my ey) as Hy.
    destruct sx, sy.
    + rewrite Qcompare_opp, (Qcompare_finite_pos my mx ey ex) by assumption.
      rewrite (Z.compare_antisym ey ex), (ZC4 mx my).
      destruct (ey ?= ex); simpl; rewrite ?CompOpp_involutive; reflexivity.
    + symmetry. apply Qcompare_neg_pos; assumption.
    + symmetry. apply Qcompare_pos_neg; assumption.
    + rewrite Qcompare_finite_pos by assumption. reflexivity.
Qed.

(* ----------------------------------------------------------------- *)
(** ** The order of exact values *)

Ltac x_cases :=
  unfold x_lt, x_le, x_compare;
  repeat match goal with
         | a : xreal |- _ => destruct a as [|[|]|?]
         end;
  repeat match goal with
         | |- context [Qcompare ?p ?q] => destruct (Qcompare_spec p q)
         | H : context [Qcompare ?p ?q] |- _ => destruct (Qcompare_spec p q)
         end;
  try discriminate; try reflexivity; try congruence; try lra.

Lemma x_lt_le (a b : xreal) : x_lt a b = true -> x_le a b = true.
Proof. x_cases. Qed.

Lemma x_lt_false_le (a b : xreal) :
  a <> XNaN -> b <> XNaN -> x_lt a b = false -> x_le b a = true.
Proof. x_cases. Qed.

Lemma x_le_trans (a b c : xreal) :
  x_le a b = true -> x_le b c = true -> x_le a c = true.
Proof. x_cases. Qed.

Lemma x_lt_le_trans (a b c : xreal) :
  x_lt a b = true -> x_le b c = true -> x_lt a c = true.
Proof. x_cases. Qed.

Lemma x_lt_asym (a b : xreal) : x_lt a b = true -> x_lt b a = false.
Proof. x_cases. Qed.

Lemma x_le_refl (a : xreal) : a <> XNaN -> x_le a a = true.
Proof. x_cases. Qed.

(* ----------------------------------------------------------------- *)
(** ** The order of binary64 numbers *)

Lemma ltb_exact (x y : float) :
  PrimFloat.ltb x y = x_lt (float_exact x) (float_exact y).
Proof.
  rewrite FloatAxioms.ltb_spec. unfold SFltb, x_lt, float_exact.
  rewrite sf_compare_exact by apply Prim2SF_valid. reflexivity.
Qed.

Lemma leb_exact (x y : float) :
  PrimFloat.leb x y = x_le (float_exact x) (float_exact y).
Proof.
  rewrite FloatAxioms.leb_spec. unfold SFleb, x_le, float_exact.
  rewrite sf_compare_exact by apply Prim2SF_valid. reflexivity.
Qed.

Lemma eqb_exact (x y : float) :
  PrimFloat.eqb x y
  = match x_compare (float_exact x) (float_exact y) with
    | Some Eq => true
    | _ => false
    end.
Proof.
  rewrite FloatAxioms.eqb_spec. unfold SFeqb, float_exact.
  rewrite sf_compare_exact by apply Prim2SF_valid. reflexivity.
Qed.

Lemma is_nan_exact (x : float) :
  PrimFloat.is_nan x = false <-> float_exact x <> XNaN.
Proof.
  unfold PrimFloat.is_nan. rewrite eqb_exact.
  destruct (float_exact x) as [| |q] eqn:E; cbn [x_compare].
  - split; [discriminate | congruence].
  - split; [discriminate | destruct neg; reflexivity].
  - split; [discriminate|]. intros _.
    destruct (Qcompare_spec q q); try reflexivity; lra.
Qed.

Lemma leb_refl (x : float) : PrimFloat.is_nan x = false -> PrimFloat.leb x x = true.
Proof. rewrite leb_exact, is_nan_exact. apply x_le_refl. Qed.

Lemma leb_trans (x y z : float) :
  PrimFloat.leb x y = true -> PrimFloat.leb y z = true -> PrimFloat.leb x z = true.
Proof. rewrite !leb_exact. apply x_le_trans. Qed.

Lemma ltb_leb (x y : float) : PrimFloat.ltb x y = true -> PrimFloat.leb x y = true.
Proof. rewrite ltb_exact, leb_exact. apply x_lt_le. Qed.

Lemma ltb_false_leb (x y : float) :
  PrimFloat.is_nan x = false -> PrimFloat.is_nan y = false ->
  PrimFloat.ltb x y = false -> PrimFloat.leb y x = true.
Proof. rewrite ltb_exact, leb_exact, !is_nan_exact. apply x_lt_false_le. Qed.
(* ----------------------------------------------------------------- *)
(** ** Insertion sort *)

Section InsertionSortFacts.

Context {A : Type}.
Variable go : A -> A -> bool.
Variable D : A -> Prop.
Variable R : A -> A -> Prop.
Hypothesis go_true : forall h x, D h -> D x -> go h x = true -> R h x.
Hypothesis go_false : forall h x, D h -> D x -> go h x = false -> R x h.
Hypothesis R_trans : forall a b c, R a b -> R b c -> R a c.

Lemma insert_by_perm (x : A) (l : list A) : Permutation (x :: l) (insert_by go x l).
Proof.
  induction l as [|h t IH]; simpl.
  - apply Permutation_refl.
  - destruct (go h x).
    + eapply perm_trans; [apply perm_swap|]. apply perm_skip, IH.
    + apply Permutation_refl.
Qed.

Lemma sort_by_perm (l : list A) : Permutation l (sort_by go l).
Proof.
  induction l as [|x t IH]; simpl.
  - apply perm_nil.
  - eapply perm_trans; [apply perm_skip, IH | apply insert_by_perm].
Qed.

Lemma sort_by_length (l : list A) : List.length (sort_by go l) = List.length l.
Proof. symmetry. apply Permutation_length, sort_by_perm. Qed.

Lemma insert_by_sorted (x : A) (l : list A) :
  D x -> Forall D l -> StronglySorted R l -> StronglySorted R (insert_by go x l).
Proof.
  intros Dx Dl Sl. induction l as [|h t IH]; simpl.
  - constructor; constructor.
  - inversion Dl as [|? ? Dh Dt]; subst.
    inversion Sl as [|? ? St Ht]; subst.
    destruct (go h x) eqn:G.
    + constructor; [apply IH; assumption|].
      eapply Permutation_Forall; [apply insert_by_perm|].
      constructor; [apply go_true; assumption | assumption].
    + constructor; [assumption|].
      assert (Rxh : R x h) by (apply go_false; assumption).
      constructor; [assumption|].
      eapply Forall_impl; [|exact Ht]. intros a Ha. eapply R_trans; eassumption.
Qed.

Lemma sort_by_sorted (l : list A) : Forall D l -> StronglySorted R (sort_by go l).
Proof.
  induction l as [|x t IH]; simpl; intros Dl.
  - constructor.
  - inversion Dl; subst. apply insert_by_sorted; [assumption | | apply IH; assumption].
    eapply Permutation_Forall; [apply sort_by_perm | assumption].
Qed.

End InsertionSortFacts.

Lemma sorted_perm (data : list float) : Permutation data (sorted data).
Proof. apply sort_by_perm. Qed.

Lemma sorted_ascending (data : list float) :
  Forall not_nan data -> ascending (sorted data).
Proof.
  apply sort_by_sorted.
  - intros h x _ _. apply ltb_leb.
  - intros h x Hh Hx. apply ltb_false_leb; assumption.
  - intros a b c. apply leb_trans.
Qed.

(* ----------------------------------------------------------------- *)
(** ** The baseline is the median *)

Lemma odd_test (n : nat) : Nat.eqb (n mod 2) 1 = negb (Nat.even n).
Proof.
  rewrite <- Nat.negb_odd, negb_involutive.
  destruct (Nat.odd n) eqn:E.
  - apply Nat.odd_spec in E. destruct E as [k ->].
    apply Nat.eqb_eq. rewrite Nat.add_comm, Nat.mul_comm. 
    rewrite Nat.Div0.mod_add. reflexivity.
  - apply Nat.eqb_neq. intros H.
    assert (Nat.odd n = true); [|congruence].
    apply Nat.odd_spec. exists (n / 2)%nat.
    pose proof (Nat.div_mod_eq n 2). lia.
Qed.

Lemma median_middle (data : list float) :
  data <> [] -> median data = Ok (middle (sorted data)).
Proof.
  intros Hne. unfold median, middle.
  destruct (Nat.eqb (List.length (sorted data)) 0) eqn:E.
  - apply Nat.eqb_eq in E. unfold sorted in E. rewrite sort_by_length in E.
    destruct data; [congruence | discriminate].
  - rewrite odd_test. destruct (Nat.even (List.length (sorted data))); reflexivity.
Qed.

(** C2. The baseline of a non-empty sequence is its statistical median,
    the mean of the two middle values for an even count:
    [10, 12, 11, 9, 13] gives 11 and [5, 7] gives 6; one sample is its own
    baseline; duplicates count as often as they occur; no samples give no
    baseline. *)
Theorem baseline_is_statistical_median :
  baseline_of [] = Ok None
  /\ (forall x, baseline_of [x] = Ok (Some x))
  /\ baseline_of [10; 12; 11; 9; 13]%float = Ok (Some 11%float)
  /\ baseline_of [5; 7]%float = Ok (Some 6%float)
  /\ baseline_of [1; 1; 1; 5]%float = Ok (Some 1%float)
  /\ (forall samples,
        samples <> [] -> Forall not_nan samples ->
        exists m, baseline_of samples = Ok (Some m) /\ statistical_median samples m).
Proof.
  split; [reflexivity|].
  split; [intros x; reflexivity|].
  split; [vm_compute; reflexivity|].
  split; [vm_compute; reflexivity|].
  split; [vm_compute; reflexivity|].
  intros samples Hne Hnan.
  exists (middle (sorted samples)). split.
  - unfold baseline_of. destruct samples as [|x t]; [congruence|].
    rewrite median_middle by discriminate. reflexivity.
  - exists (sorted samples). split; [apply sorted_perm|].
    split; [apply sorted_ascending; assumption | reflexivity].
Qed.

Lemma baseline_is_statistical_median_witness :
  exists m, baseline_of [3; 1; 2]%float = Ok (Some m)
            /\ statistical_median [3; 1; 2]%float m.
Proof.
  apply baseline_is_statistical_median.
  - discriminate.
  - repeat constructor.
Defined.

(* ----------------------------------------------------------------- *)
(** ** Rounding does not go below a representable value *)

Lemma shr_1_m (r : shr_record) : 0 <= shr_m r -> shr_m (shr_1 r) = shr_m r / 2.
Proof.
  destruct r as [m r s]. cbn [shr_m shr_1]. intros Hm.
  destruct m as [|p|p]; [reflexivity | | lia].
  destruct p as [p|p|]; cbn [shr_m].
  - rewrite Pos2Z.inj_xI. apply Z.div_unique with 1; lia.
  - rewrite Pos2Z.inj_xO. apply Z.div_unique with 0; lia.
  - reflexivity.
Qed.

Lemma pow2_double (k : positive) : 2 ^ Zpos k~0 = 2 ^ Zpos k * 2 ^ Zpos k.
Proof. rewrite Pos2Z.inj_xO, <- Z.pow_add_r by lia. f_equal. lia. Qed.

Lemma pow2_double_succ (k : positive) : 2 ^ Zpos k~1 = 2 * (2 ^ Zpos k * 2 ^ Zpos k).
Proof.
  rewrite Pos2Z.inj_xI, Z.add_comm, Z.pow_add_r by lia.
  change (2 ^ 1) with 2. f_equal.
  rewrite <- Z.pow_add_r by lia. f_equal. lia.
Qed.

Lemma iter_shr_1_m (k : positive) (r : shr_record) :
  0 <= shr_m r -> shr_m (iter_pos shr_1 k r) = shr_m r / 2 ^ Zpos k.
Proof.
  assert (P : forall j, 0 < 2 ^ Zpos j) by (intros; apply Z.pow_pos_nonneg; lia).
  revert r. induction k as [k IH|k IH|]; intros r Hm; cbn [iter_pos].
  - assert (H1 : 0 <= shr_m (shr_1 r)).
    { rewrite shr_1_m by assumption. apply Z.div_pos; lia. }
    assert (H2 : 0 <= shr_m (iter_pos shr_1 k (shr_1 r))).
    { rewrite IH by assumption. apply Z.div_pos; [assumption | apply P]. }
    rewrite IH, IH, shr_1_m by assumption.
    pose proof (P k).
    rewrite !Z.div_div by lia. rewrite pow2_double_succ. reflexivity.
  - assert (H2 : 0 <= shr_m (iter_pos shr_1 k r)).
    { rewrite IH by assumption. apply Z.div_pos; [assumption | apply P]. }
    rewrite IH, IH by assumption.
    pose proof (P k).
    rewrite !Z.div_div by lia. rewrite pow2_double. reflexivity.
  - rewrite shr_1_m by assumption. reflexivity.
Qed.

Lemma round_nearest_even_range (m : Z) (l : location) :
  m <= round_nearest_even m l <= m + 1.
Proof.
  unfold round_nearest_even. destruct l as [|[| |]]; try lia.
  destruct (Z.even m); lia.
Qed.

Lemma Qle_scaled_cases (a b : positive) (ea eb : Z) :
  (inject_Z (Zpos a) * Qpower 2 ea <= inject_Z (Zpos b) * Qpower 2 eb)%Q ->
  (ea <= eb -> Zpos a <= Zpos b * 2 ^ (eb - ea))
  /\ (eb <= ea -> Zpos a * 2 ^ (ea - eb) <= Zpos b).
Proof.
  intros H. pose proof (proj1 (Qle_alt _ _) H) as C. split; intros Hle.
  - rewrite Qcompare_scale in C by assumption.
    apply Z.compare_le_iff. exact C.
  - rewrite <- Qcompare_antisym, Qcompare_scale in C by assumption.
    apply Z.compare_ge_iff.
    destruct (Zpos b ?= Zpos a * 2 ^ (ea - eb)); simpl in *; congruence.
Qed.

Lemma pow2_split (a b : Z) : 0 <= a -> 0 <= b -> 2 ^ (a + b) = 2 ^ a * 2 ^ b.
Proof. intros. apply Z.pow_add_r; assumption. Qed.

Lemma pow2_pos (a : Z) : 0 <= a -> 0 < 2 ^ a.
Proof. intros. apply Z.pow_pos_nonneg; lia. Qed.

Lemma pow2_mono (a b : Z) : 0 <= a <= b -> 2 ^ a <= 2 ^ b.
Proof. intros. apply Z.pow_le_mono_r; lia. Qed.

(** The digits and exponent of a larger value are not smaller. *)
Lemma magnitude_mono (my m : positive) (ey e : Z) :
  (inject_Z (Zpos my) * Qpower 2 ey <= inject_Z (Zpos m) * Qpower 2 e)%Q ->
  Zpos (digits2_pos my) + ey <= Zpos (digits2_pos m) + e.
Proof.
  intros H. apply Qle_scaled_cases in H as [H1 H2].
  pose proof (digits2_bounds my) as [Ly Uy].
  pose proof (digits2_bounds m) as [L U].
  set (dy := Zpos (digits2_pos my)) in *. set (d := Zpos (digits2_pos m)) in *.
  assert (0 < dy) by (unfold dy; lia). assert (0 < d) by (unfold d; lia).
  destruct (Z.le_gt_cases (dy + ey) (d + e)) as [|C]; [assumption | exfalso].
  destruct (Z.le_gt_cases ey e) as [Hle|Hgt].
  - specialize (H1 Hle).
    assert (Zpos m * 2 ^ (e - ey) < 2 ^ d * 2 ^ (e - ey)).
    { apply Z.mul_lt_mono_pos_r; [apply pow2_pos; lia | assumption]. }
    rewrite <- pow2_split in H3 by lia.
    assert (2 ^ (d + (e - ey)) <= 2 ^ (dy - 1)) by (apply pow2_mono; lia).
    lia.
  - specialize (H2 ltac:(lia)).
    assert (2 ^ (dy - 1) * 2 ^ (ey - e) <= Zpos my * 2 ^ (ey - e)).
    { apply Z.mul_le_mono_nonneg_r; [apply Z.lt_le_incl, pow2_pos; lia | assumption]. }
    rewrite <- pow2_split in H3 by lia.
    assert (2 ^ d <= 2 ^ (dy - 1 + (ey - e))) by (apply pow2_mono; lia).
    lia.
Qed.

(** What remains of a value after its mantissa is shifted to the exponent
    of its format is not below a representable value that the value is not
    below. *)
Lemma truncation_ge (my m : positive) (ey e : Z) :
  bounded prec emax my ey = true ->
  (inject_Z (Zpos my) * Qpower 2 ey <= inject_Z (Zpos m) * Qpower 2 e)%Q ->
  let f := fexp prec emax (Zpos (digits2_pos m) + e) in
  ey <= f
  /\ (f <= e -> Zpos my <= Zpos m * 2 ^ (e - ey))
  /\ (e < f -> Zpos my <= Zpos m / 2 ^ (f - e) * 2 ^ (f - ey)).
Proof.
  intros B H f.
  pose proof (magnitude_mono my m ey e H) as Mag.
  apply Qle_scaled_cases in H as [H1 H2].
  pose proof (digits2_bounds my) as [Ly Uy].
  pose proof (digits2_bounds m) as [L U].
  assert (Hc := B). apply bounded_digits in B as (Emin & Dy & Ny).
  unfold bounded, canonical_mantissa in Hc. apply andb_prop in Hc as [Hc _].
  apply Z.eqb_eq in Hc.
  unfold fexp, SpecFloat.emin, FloatOps.prec, FloatOps.emax in *.
  set (dy := Zpos (digits2_pos my)) in *. set (d := Zpos (digits2_pos m)) in *.
  assert (0 < dy) by (unfold dy; lia). assert (0 < d) by (unfold d; lia).
  assert (Hf : ey <= f) by (unfold f; lia).
  split; [exact Hf|]. split.
  - intros Hfe. apply H1. lia.
  - intros Hef.
    destruct (Z.eq_dec f ey) as [E|NE].
    + rewrite E, Z.sub_diag, Z.mul_1_r.
      apply Z.div_le_lower_bound; [apply pow2_pos; lia|].
      rewrite Z.mul_comm. apply H2. lia.
    + assert (Ef : f = d + e - 53) by (unfold f in *; lia).
      assert (Hn : f - e = d - 53) by lia. rewrite Hn.
      assert (Q52 : 2 ^ 52 <= Zpos m / 2 ^ (d - 53)).
      { apply Z.div_le_lower_bound; [apply pow2_pos; lia|].
        rewrite <- pow2_split by lia. replace (d - 53 + 52) with (d - 1) by lia.
        assumption. }
      assert (My : Zpos my < 2 ^ 53).
      { eapply Z.lt_le_trans; [exact Uy | apply pow2_mono; lia]. }
      assert (T : 2 ^ 1 <= 2 ^ (f - ey)) by (apply pow2_mono; lia).
      change (2 ^ 1) with 2 in T. change (2 ^ 53) with (2 ^ 52 * 2) in My.
      assert (0 < 2 ^ 52) by reflexivity.
      nia.
Qed.

(** A mantissa of at most [2^prec] at an exponent of the format is brought
    to the format without loss. *)
Lemma renormalise (p : positive) (f : Z) :
  SpecFloat.emin prec emax <= f -> Zpos p <= 2 ^ prec ->
  exists q e2,
    shr_fexp prec emax (Zpos p) f loc_Exact
    = ({| shr_m := Zpos q; shr_r := shr_r (fst (shr_fexp prec emax (Zpos p) f loc_Exact));
          shr_s := shr_s (fst (shr_fexp prec emax (Zpos p) f loc_Exact)) |}, e2)
    /\ f <= e2 /\ Zpos q * 2 ^ (e2 - f) = Zpos p.
Proof.
  intros Hf Hp. unfold shr_fexp, shr. cbn [Zdigits2 shr_record_of_loc].
  pose proof (digits2_bounds p) as [L U].
  unfold fexp, SpecFloat.emin, FloatOps.prec, FloatOps.emax in *.
  set (d := Zpos (digits2_pos p)) in *.
  assert (0 < d) by (unfold d; lia).
  assert (Hd : d <= 54).
  { destruct (Z.le_gt_cases d 54); [assumption | exfalso].
    assert (2 ^ 54 <= 2 ^ (d - 1)) by (apply pow2_mono; lia).
    assert (2 ^ 53 < 2 ^ 54) by reflexivity. lia. }
  destruct (Z.max (d + f - 53) (3 - 1024 - 53) - f) as [|k|k] eqn:N.
  - exists p, f. cbn [fst shr_r shr_s]. rewrite Z.sub_diag, Z.mul_1_r.
    repeat split; lia.
  - assert (Hk : Zpos k = 1) by lia. injection Hk as ->.
    assert (Ed : d = 54) by lia.
    assert (Ep : Zpos p = 2 ^ 53).
    { rewrite Ed in L. change (2 ^ (54 - 1)) with (2 ^ 53) in L. lia. }
    cbn [iter_pos]. injection Ep as ->. cbn.
    eexists _, (f + 1). split; [reflexivity|].
    split; [lia|]. replace (f + 1 - f) with 1 by lia. reflexivity.
  - exists p, f. cbn [fst shr_r shr_s]. rewrite Z.sub_diag, Z.mul_1_r.
    repeat split; lia.
Qed.

Lemma x_le_scaled (my q : positive) (ey e2 : Z) :
  ey <= e2 -> Zpos my <= Zpos q * 2 ^ (e2 - ey) ->
  x_le (XFin (inject_Z (Zpos my) * Qpower 2 ey)) (XFin (inject_Z (Zpos q) * Qpower 2 e2)) = true.
Proof.
  intros He H. unfold x_le, x_compare. rewrite Qcompare_scale by assumption.
  apply Z.compare_le_iff in H.
  destruct (Zpos my ?= Zpos q * 2 ^ (e2 - ey)); congruence.
Qed.

(** Rounding a positive value to binary64 does not go below a binary64
    number that the value is not below. *)
Lemma binary_round_aux_ge (my m : positive) (ey e : Z) :
  bounded prec emax my ey = true ->
  (inject_Z (Zpos my) * Qpower 2 ey <= inject_Z (Zpos m) * Qpower 2 e)%Q ->
  x_le (XFin (inject_Z (Zpos my) * Qpower 2 ey))
       (sf_exact (binary_round_aux prec emax false (Zpos m) e loc_Exact)) = true.
Proof.
  intros B H.
  destruct (truncation_ge my m ey e B H) as (Hf & Hstay & Hshift).
  pose proof (bounded_digits my ey B) as (Emin & _ & _).
  pose proof (digits2_bounds m) as [L U].
  unfold binary_round_aux.
  set (f := fexp prec emax (Zpos (digits2_pos m) + e)) in *.
  assert (Efirst :
    exists m1 r1 s1 e1,
      shr_fexp prec emax (Zpos m) e loc_Exact
      = ({| shr_m := m1; shr_r := r1; shr_s := s1 |}, e1)
      /\ ey <= e1 /\ SpecFloat.emin prec emax <= e1
      /\ 0 <= m1 < 2 ^ prec
      /\ Zpos my <= m1 * 2 ^ (e1 - ey)).
  { unfold shr_fexp, shr. cbn [Zdigits2 shr_record_of_loc]. fold f.
    assert (Hd : Zpos (digits2_pos m) - prec <= f - e).
    { unfold f, fexp. lia. }
    assert (Hfmin : SpecFloat.emin prec emax <= f) by (unfold f, fexp; lia).
    destruct (f - e) as [|k|k] eqn:N.
    - exists (Zpos m), false, false, e. split; [reflexivity|].
      repeat split; try lia; try (apply Hstay; lia);
        try (eapply Z.lt_le_trans; [exact U | apply pow2_mono; unfold prec in *; lia]).
    - destruct (iter_pos shr_1 k {| shr_m := Zpos m; shr_r := false; shr_s := false |})
        as [m1 r1 s1] eqn:It.
      assert (Em1 : m1 = Zpos m / 2 ^ Zpos k).
      { pose proof (iter_shr_1_m k {| shr_m := Zpos m; shr_r := false; shr_s := false |}) as I.
        rewrite It in I. apply I. cbn. lia. }
      exists m1, r1, s1, (e + Zpos k). split; [reflexivity|].
      assert (e + Zpos k = f) as -> by lia.
      assert (Pk : 0 < 2 ^ Zpos k) by (apply pow2_pos; lia).
      split; [assumption|].
      split; [assumption|].
      split; [split|].
      + rewrite Em1. apply Z.div_pos; lia.
      + rewrite Em1. apply Z.div_lt_upper_bound; [assumption|].
        rewrite Z.mul_comm, <- pow2_split by (unfold prec; lia).
        eapply Z.lt_le_trans; [exact U | apply pow2_mono; unfold prec in *; lia].
      + rewrite Em1. apply Hshift. lia.
    - exists (Zpos m), false, false, e. split; [reflexivity|].
      repeat split; try lia; try (apply Hstay; lia);
        try (eapply Z.lt_le_trans; [exact U | apply pow2_mono; unfold prec in *; lia]). }
  destruct Efirst as (m1 & r1 & s1 & e1 & -> & He1 & Hmin & Hm1 & Hge).
  pose proof (round_nearest_even_range m1
                (loc_of_shr_record {| shr_m := m1; shr_r := r1; shr_s := s1 |})) as R.
  cbn [shr_m].
  set (m2 := round_nearest_even m1 _) in *.
  assert (P : 0 < 2 ^ (e1 - ey)) by (apply pow2_pos; lia).
  destruct m2 as [|p|p] eqn:E2; [exfalso; nia | | exfalso; lia].
  destruct (renormalise p e1 Hmin ltac:(lia)) as (q & e2 & -> & He2 & Hq).
  cbn [shr_m].
  destruct (e2 <=? emax - prec); cbn [sf_exact]; [|reflexivity].
  apply x_le_scaled; [lia|].
  replace (e2 - ey) with ((e2 - e1) + (e1 - ey)) by lia.
  rewrite pow2_split, Z.mul_assoc, Hq by lia. nia.
Qed.

Lemma Prim2SF_one : Prim2SF 1 = sf_one.
Proof. vm_compute. reflexivity. Qed.

Lemma Prim2SF_zero : Prim2SF 0 = S754_zero false.
Proof. vm_compute. reflexivity. Qed.

Lemma sf_one_value : (inject_Z (Zpos 4503599627370496) * Qpower 2 (-52) == 1)%Q.
Proof. vm_compute. reflexivity. Qed.

Lemma x_le_fin (p q : Q) : x_le (XFin p) (XFin q) = true <-> (p <= q)%Q.
Proof.
  unfold x_le, x_compare. rewrite Qle_alt.
  destruct (Qcompare p q); split; intros; congruence.
Qed.

Lemma scaled_mul (a b : positive) (ea eb : Z) :
  (inject_Z (Zpos (a * b)) * Qpower 2 (ea + eb)
   == (inject_Z (Zpos a) * Qpower 2 ea) * (inject_Z (Zpos b) * Qpower 2 eb))%Q.
Proof.
  rewrite Pos2Z.inj_mul, inject_Z_mult, Qpower_plus by discriminate.
  generalize (Qpower 2 ea) (Qpower 2 eb) (inject_Z (Zpos a)) (inject_Z (Zpos b)).
  intros; ring.
Qed.

(** The product of a non-negative number and a number that is at least one
    is not a number, or not below the first. *)
Lemma SFmul_ge (B C : spec_float) :
  valid_binary B = true ->
  x_le (XFin 0) (sf_exact B) = true ->
  x_le (sf_exact sf_one) (sf_exact C) = true ->
  sf_exact (SF64mul B C) = XNaN \/ x_le (sf_exact B) (sf_exact (SF64mul B C)) = true.
Proof.
  intros V HB HC.
  destruct C as [sc|sc| |sc mc ec]; cbn [sf_exact sf_one] in HC.
  - apply x_le_fin in HC. rewrite sf_one_value in HC. exfalso. lra.
  - destruct sc; [discriminate|].
    destruct B as [sb|sb| |sb mb eb]; cbn [sf_exact] in *.
    + left. reflexivity.
    + destruct sb; [discriminate | right; reflexivity].
    + discriminate.
    + destruct sb; [|right; reflexivity].
      apply x_le_fin in HB. pose proof (Qscaled_pos mb eb). exfalso.
      revert HB H. generalize (inject_Z (Zpos mb) * Qpower 2 eb)%Q. intros; lra.
  - discriminate.
  - pose proof (Qscaled_pos mc ec) as Pc.
    destruct sc.
    { apply x_le_fin in HC. rewrite sf_one_value in HC. exfalso.
      revert HC Pc. generalize (inject_Z (Zpos mc) * Qpower 2 ec)%Q. intros; lra. }
    apply x_le_fin in HC. rewrite sf_one_value in HC.
    destruct B as [sb|sb| |sb mb eb]; cbn [sf_exact] in *.
    + right. reflexivity.
    + destruct sb; [discriminate | right; reflexivity].
    + discriminate.
    + pose proof (Qscaled_pos mb eb) as Pb.
      destruct sb.
      { apply x_le_fin in HB. exfalso.
        revert HB Pb. generalize (inject_Z (Zpos mb) * Qpower 2 eb)%Q. intros; lra. }
      right. unfold SF64mul, SFmul. cbn [xorb].
      apply binary_round_aux_ge; [exact V|].
      rewrite scaled_mul.
      revert HC Pb. generalize (inject_Z (Zpos mc) * Qpower 2 ec)%Q
                               (inject_Z (Zpos mb) * Qpower 2 eb)%Q.
      intros c b HC Pb. nra.
Qed.

Lemma mul_ge (b c : float) :
  PrimFloat.leb 0 b = true -> PrimFloat.leb 1 c = true ->
  PrimFloat.is_nan (b * c) = true \/ PrimFloat.leb b (b * c) = true.
Proof.
  rewrite !leb_exact. unfold float_exact at 1 2 3 4.
  rewrite Prim2SF_zero, Prim2SF_one. cbn [sf_exact].
  intros HB HC.
  destruct (SFmul_ge (Prim2SF b) (Prim2SF c) (Prim2SF_valid b) HB HC) as [N|L].
  - left. destruct (PrimFloat.is_nan (b * c)) eqn:E; [reflexivity|].
    apply is_nan_exact in E. exfalso. apply E.
    unfold float_exact. rewrite mul_spec. exact N.
  - right. unfold float_exact at 2. rewrite mul_spec. exact L.
Qed.

Lemma shl_align_value (mx : positive) (ex ex' : Z) :
  (inject_Z (Zpos (fst (shl_align mx ex ex'))) * Qpower 2 (snd (shl_align mx ex ex'))
   == inject_Z (Zpos mx) * Qpower 2 ex)%Q.
Proof.
  unfold shl_align. destruct (ex' - ex) as [|d|d] eqn:E; cbn [fst snd]; try reflexivity.
  apply Qeq_alt. rewrite Qcompare_scale by lia.
  apply Z.compare_eq_iff.
  change (Pos.iter xO mx d) with (shift_pos d mx).
  rewrite shift_pos_correct. change (Z.pow_pos 2 d) with (2 ^ Zpos d).
  replace (ex - ex') with (Zpos d) by lia. ring.
Qed.

Lemma binary_round_ge (my m : positive) (ey e : Z) :
  bounded prec emax my ey = true ->
  (inject_Z (Zpos my) * Qpower 2 ey <= inject_Z (Zpos m) * Qpower 2 e)%Q ->
  x_le (XFin (inject_Z (Zpos my) * Qpower 2 ey))
       (sf_exact (binary_round prec emax false m e)) = true.
Proof.
  intros B H. unfold binary_round.
  pose proof (shl_align_value m e (fexp prec emax (Zpos (digits2_pos m) + e))) as V.
  destruct (shl_align m e _) as [mz ez]. cbn [fst snd] in V.
  apply binary_round_aux_ge; [exact B|]. rewrite V. exact H.
Qed.

(** Adding a non-negative number to one gives at least one. *)
Lemma SFadd_one_ge (T : spec_float) :
  x_le (XFin 0) (sf_exact T) = true ->
  x_le (sf_exact sf_one) (sf_exact (SF64add sf_one T)) = true.
Proof.
  intros HT.
  destruct T as [st|st| |st mt et]; cbn [sf_exact] in HT.
  - cbn. reflexivity.
  - destruct st; [discriminate | reflexivity].
  - discriminate.
  - destruct st.
    { apply x_le_fin in HT. pose proof (Qscaled_pos mt et) as P. exfalso.
      revert HT P. generalize (inject_Z (Zpos mt) * Qpower 2 et)%Q. intros; lra. }
    unfold SF64add, SFadd, sf_one. cbn [cond_Zopp].
    set (ez := Z.min (-52) et).
    pose proof (shl_align_value 4503599627370496 (-52) ez) as V1.
    assert (S1 : snd (shl_align 4503599627370496 (-52) ez) = ez).
    { unfold shl_align. destruct (ez - -52) as [|d|d] eqn:E; cbn [snd]; lia. }
    rewrite S1 in V1.
    set (pa := fst (shl_align 4503599627370496 (-52) ez)) in *.
    set (pb := fst (shl_align mt et ez)).
    change (Zpos pa + Zpos pb) with (Zpos (pa + pb)).
    cbn [binary_normalize sf_exact].
    apply binary_round_ge; [vm_compute; reflexivity|].
    rewrite <- V1. apply Qmult_le_compat_r; [|apply Qlt_le_weak, Qpower_2_pos].
    rewrite <- Zle_Qle. lia.
Qed.

Lemma add_one_ge (t : float) :
  PrimFloat.leb 0 t = true -> PrimFloat.leb 1 (1 + t) = true.
Proof.
  rewrite !leb_exact. unfold float_exact.
  rewrite add_spec, Prim2SF_zero, Prim2SF_one. cbn [sf_exact].
  apply SFadd_one_ge.
Qed.

(* ----------------------------------------------------------------- *)
(** ** The single-metric policy *)

Lemma x_lt_le_not_gt (a b c : xreal) :
  x_lt a b = true -> x_le b c = true -> x_lt c a = false.
Proof. x_cases. Qed.

(** A value below [b] is not above anything that [b] does not exceed. *)
Lemma py_lt_not_gt (v : pyval) (b c : float) :
  py_lt v b = true -> PrimFloat.leb b c = true -> py_gt v c = false.
Proof.
  rewrite leb_exact.
  destruct v; simpl; try reflexivity; rewrite ?ltb_exact;
    intros H1 H2; eapply x_lt_le_not_gt; eassumption.
Qed.

(** For a non-negative baseline and threshold, a value below the baseline
    is not above baseline * (1 + threshold). *)
Lemma below_baseline_not_flagged (v : pyval) (b t : float) :
  PrimFloat.leb 0 b = true -> PrimFloat.leb 0 t = true ->
  py_lt v b = true -> py_gt v (b * (1 + t)) = false.
Proof.
  intros Hb Ht Hv.
  destruct (mul_ge b (1 + t) Hb (add_one_ge t Ht)) as [N|L].
  - assert (E : float_exact (b * (1 + t)) = XNaN).
    { destruct (float_exact (b * (1 + t))) eqn:F; [reflexivity | |];
        exfalso; assert (PrimFloat.is_nan (b * (1 + t)) = false) as C
          by (apply is_nan_exact; rewrite F; discriminate);
        rewrite C in N; discriminate. }
    destruct v; simpl; try reflexivity; rewrite ?ltb_exact, E; reflexivity.
  - eapply py_lt_not_gt; eassumption.
Qed.

Lemma classify_rule (test_name metric_name : string) (b : float) (v : pyval)
    (t x : float) :
  py_float v = Ok x -> PrimFloat.eqb b 0 = false ->
  classify test_name metric_name b v t
  = if py_gt v (b * (1 + t))%float
    then Ok (Some {| test := test_name; metric := metric_name; baseline := b;
                     new := v; regression_pct := ((x - b) / b * 100)%float |})
    else Ok None.
Proof.
  intros Hx Hb. unfold classify, py_sub, py_div. rewrite Hx. simpl.
  rewrite Hb. reflexivity.
Qed.

(** C1, as the code has it. For a baseline other than zero and a new value
    that is a float, a bool or an int in the range of float, a finding is
    produced exactly when new_value > baseline * (1 + threshold), and its
    delta is (new_value - baseline) / baseline * 100. With baseline 100 and
    threshold 0.05, 105.0 gives no finding and 105.01 gives one with delta
    5.0100000000000051. A new value below the baseline gives no finding
    when the baseline and the threshold are not negative, and more
    generally whenever baseline * (1 + threshold), as computed, is not
    below the baseline. *)
Theorem classify_threshold :
  (forall test_name metric_name b v t x,
      py_float v = Ok x -> PrimFloat.eqb b 0 = false ->
      classify test_name metric_name b v t
      = if py_gt v (b * (1 + t))%float
        then Ok (Some {| test := test_name; metric := metric_name; baseline := b;
                         new := v; regression_pct := ((x - b) / b * 100)%float |})
        else Ok None)
  /\ classify "t" "m" 100 (PyFloat 105) 0.05 = Ok None
  /\ (exists pct,
        classify "t" "m" 100 (PyFloat 105.01) 0.05
        = Ok (Some {| test := "t"; metric := "m"; baseline := 100;
                      new := PyFloat 105.01; regression_pct := pct |})
        /\ pct = 5.0100000000000051%float
        /\ PrimFloat.ltb (PrimFloat.abs (pct - 5.01)) 1e-12 = true)
  /\ (forall test_name metric_name b v t,
        PrimFloat.leb 0 b = true -> PrimFloat.leb 0 t = true ->
        py_lt v b = true ->
        classify test_name metric_name b v t = Ok None)
  /\ (forall test_name metric_name b v t,
        py_lt v b = true -> PrimFloat.leb b (b * (1 + t)) = true ->
        classify test_name metric_name b v t = Ok None).
Proof.
  split; [exact classify_rule|].
  split; [vm_compute; reflexivity|].
  split.
  { eexists. split; [vm_compute; reflexivity|].
    split; [reflexivity | vm_compute; reflexivity]. }
  split.
  - intros test_name metric_name b v t Hb Ht Hlt.
    unfold classify. rewrite (below_baseline_not_flagged v b t Hb Ht Hlt). reflexivity.
  - intros test_name metric_name b v t Hlt Hle.
    unfold classify. rewrite (py_lt_not_gt v b _ Hlt Hle). reflexivity.
Qed.

Lemma classify_threshold_witness :
  classify "BM_Sort" "real_time" 100 (PyInt 80) 0.05 = Ok None.
Proof.
  apply (proj1 (proj2 (proj2 (proj2 classify_threshold))));
    vm_compute; reflexivity.
Defined.

(** C1 as stated fails: below a negative baseline the bound
    baseline * (1 + threshold) lies under the baseline, and a new value
    between the two is flagged although it is below the baseline. *)
Lemma improvement_flagged_for_negative_baseline :
  py_lt (PyFloat (-102)) (-100) = true
  /\ classify "t" "m" (-100) (PyFloat (-102)) 0.05
     = Ok (Some {| test := "t"; metric := "m"; baseline := (-100);
                   new := PyFloat (-102); regression_pct := 2 |}).
Proof. split; vm_compute; reflexivity. Qed.

(* ----------------------------------------------------------------- *)
(** ** A baseline of zero *)

(** C4 fails on the code: with a baseline of zero and a positive new value
    the comparison holds and the delta divides by the baseline. The store
    below holds two samples of 0 and a new one of 1, so the median of the
    history is 0. *)
Theorem zero_baseline_raises :
  classify "BM_Sort" "real_time" 0 (PyInt 1) 0.05 = Raise ZeroDivisionError
  /\ let metrics0 := [("real_time"%string, PyInt 0)] in
     let metrics1 := [("real_time"%string, PyInt 1)] in
     let db1 := fst (add_measurement empty_database 1 "BM_Sort" "c1" metrics0) in
     let db2 := fst (add_measurement db1 2 "BM_Sort" "c2" metrics0) in
     let db3 := fst (add_measurement db2 3 "BM_Sort" "c3" metrics1) in
     get_baseline db3 "BM_Sort" "real_time" 5 = Ok (Some 0%float)
     /\ check_regression db3 "BM_Sort" metrics1 0.05 = Raise ZeroDivisionError.
Proof. repeat split; vm_compute; reflexivity. Qed.

(* ----------------------------------------------------------------- *)
(** ** The metric store: one record per test and commit *)

Lemma same_key_iff (t c : string) (b : benchmark_row) :
  same_key t c b = true <-> key b = (t, c).
Proof.
  unfold same_key, key. rewrite andb_true_iff, !String.eqb_eq.
  split; [intros [-> ->]; reflexivity | intros [= -> ->]; split; reflexivity].
Qed.

Lemma new_rowid_gt (rows : list benchmark_row) (b : benchmark_row) :
  In b rows -> b_id b < new_rowid rows.
Proof.
  unfold new_rowid. induction rows as [|h t IH]; cbn [In map fold_right]; [tauto|].
  intros [->|H]; [lia | specialize (IH H); lia].
Qed.

Lemma new_rowid_app (rows : list benchmark_row) (b : benchmark_row) :
  new_rowid (rows ++ [b]) = 1 + Z.max (b_id b) (new_rowid rows - 1).
Proof.
  unfold new_rowid. induction rows as [|h t IH]; cbn [app map fold_right]; lia.
Qed.

Lemma sqlite_real_not_nan (f v : float) : sqlite_real f = Some v -> not_nan v.
Proof.
  unfold sqlite_real, not_nan.
  destruct (PrimFloat.is_nan f) eqn:N; [discriminate|].
  destruct (PrimFloat.is_zero f); intros [= <-]; [reflexivity | assumption].
Qed.

Lemma sqlite_real_some (f : float) : not_nan f -> exists v, sqlite_real f = Some v.
Proof.
  unfold sqlite_real, not_nan. intros ->.
  destruct (PrimFloat.is_zero f); eexists; reflexivity.
Qed.

(** The loop appends to the table: what it writes does not depend on the
    rows already there. *)
Lemma insert_metrics_app (rows : list metric_row) (rid : Z)
    (items : list (string * pyval)) :
  insert_metrics rows rid items
  = (rows ++ samples_of rid items, snd (insert_metrics [] rid items)).
Proof.
  unfold samples_of. revert rows.
  assert (G : forall rows acc,
             insert_metrics (rows ++ acc) rid items
             = (rows ++ fst (insert_metrics acc rid items),
                snd (insert_metrics acc rid items))).
  { induction items as [|[name value] rest IH]; intros rows acc; simpl.
    - reflexivity.
    - destruct (is_number value); [|apply IH].
      destruct (py_float value) as [x|e]; [|reflexivity].
      destruct (sqlite_real x) as [v|]; [|reflexivity].
      rewrite <- app_assoc. apply IH. }
  intros rows. rewrite <- (app_nil_r rows) at 1. apply G.
Qed.

Lemma samples_of_id (rid : Z) (items : list (string * pyval)) (m : metric_row) :
  In m (samples_of rid items) -> m_benchmark_id m = rid.
Proof.
  unfold samples_of.
  assert (G : forall acc,
             Forall (fun m => m_benchmark_id m = rid) acc ->
             Forall (fun m => m_benchmark_id m = rid) (fst (insert_metrics acc rid items))).
  { induction items as [|[name value] rest IH]; intros acc Hacc; simpl.
    - assumption.
    - destruct (is_number value); [|apply IH; assumption].
      destruct (py_float value) as [x|e]; [|assumption].
      destruct (sqlite_real x) as [v|]; [|assumption].
      apply IH. apply Forall_app. split; [assumption|].
      constructor; [reflexivity | constructor]. }
  intros H. specialize (G [] (Forall_nil _)).
  rewrite Forall_forall in G. apply G, H.
Qed.

(** The store after [add_measurement], when the timestamp is a number. *)
Lemma add_measurement_db (db : database) (ts v : float) (t c : string)
    (payload : list (string * pyval)) :
  sqlite_real ts = Some v ->
  let rid := new_rowid (benchmarks db) in
  fst (add_measurement db ts t c payload)
  = {| benchmarks :=
         filter (fun b => negb (same_key t c b)) (benchmarks db)
         ++ [{| b_id := rid; b_test_name := t; b_commit_hash := c;
                b_timestamp := v; b_metrics_json := PyDict payload |}];
       metrics := metrics db ++ samples_of rid payload |}.
Proof.
  intros Hts rid. unfold add_measurement, insert_or_replace. rewrite Hts.
  cbn [benchmarks metrics]. rewrite insert_metrics_app. reflexivity.
Qed.

Lemma add_measurement_nan (db : database) (ts : float) (t c : string)
    (payload : list (string * pyval)) :
  sqlite_real ts = None -> fst (add_measurement db ts t c payload) = db.
Proof.
  intros Hts. unfold add_measurement, insert_or_replace. rewrite Hts. reflexivity.
Qed.

(** Deleting rows keeps a column free of duplicates. *)
Lemma filter_keeps_unique {K : Type} (column : benchmark_row -> K)
    (keep : benchmark_row -> bool) (rows : list benchmark_row) :
  NoDup (map column rows) -> NoDup (map column (filter keep rows)).
Proof.
  intros Hnd. induction rows as [|row rest IH]; cbn [filter map]; [constructor|].
  cbn [map] in Hnd. apply NoDup_cons_iff in Hnd as [Hfresh Hrest].
  destruct (keep row); cbn [map]; [|apply IH, Hrest].
  apply NoDup_cons; [|apply IH, Hrest].
  intros Hin. apply Hfresh.
  apply in_map_iff in Hin as (other & Hcol & Hother).
  apply in_map_iff. exists other. split; [exact Hcol|].
  apply filter_In in Hother. apply Hother.
Qed.

Lemma NoDup_snoc {A : Type} (l : list A) (x : A) :
  NoDup l -> ~ In x l -> NoDup (l ++ [x]).
Proof.
  intros Hl Hx. apply NoDup_app; [assumption | repeat constructor; auto | ].
  intros a Ha [<-|[]]. contradiction.
Qed.

Lemma store_ok_add (db : database) (ts : float) (t c : string)
    (payload : list (string * pyval)) :
  store_ok db -> store_ok (fst (add_measurement db ts t c payload)).
Proof.
  intros (Hkey & Hid & Hts & Hm).
  destruct (sqlite_real ts) as [v|] eqn:E.
  2:{ rewrite add_measurement_nan by assumption. repeat split; assumption. }
  rewrite (add_measurement_db _ _ v) by assumption.
  set (rows := filter (fun b => negb (same_key t c b)) (benchmarks db)).
  assert (Hsub : forall b, In b rows -> In b (benchmarks db) /\ key b <> (t, c)).
  { intros b Hb. apply filter_In in Hb as [Hb Hk]. split; [assumption|].
    intros K. apply same_key_iff in K. rewrite K in Hk. discriminate. }
  unfold store_ok. cbn [benchmarks metrics].
  split; [|split; [|split]].
  - rewrite map_app. apply NoDup_snoc; [apply filter_keeps_unique; assumption|].
    simpl. intros Hin. apply in_map_iff in Hin as (b & Hb & Hi).
    apply Hsub in Hi. tauto.
  - rewrite map_app. apply NoDup_snoc; [apply filter_keeps_unique; assumption|].
    cbn [map b_id]. intros Hin. apply in_map_iff in Hin as (b & Hb & Hi).
    apply Hsub in Hi as [Hi _]. apply new_rowid_gt in Hi. lia.
  - apply Forall_app. split.
    + rewrite Forall_forall in *. intros b Hb. apply Hts, Hsub, Hb.
    + constructor; [|constructor]. simpl. eapply sqlite_real_not_nan; eassumption.
  - rewrite new_rowid_app. cbn [b_id].
    apply Forall_app. split.
    + eapply Forall_impl; [|exact Hm]. cbv beta. intros m Hlt. lia.
    + apply Forall_forall. intros m Hin. apply samples_of_id in Hin. lia.
Qed.

Lemma store_ok_empty : store_ok empty_database.
Proof. repeat split; constructor. Qed.

Lemma store_ok_record_all (writes : list write) (db : database) :
  store_ok db -> store_ok (record_all db writes).
Proof.
  revert db. induction writes as [|w rest IH]; intros db H; simpl.
  - assumption.
  - apply IH, store_ok_add, H.
Qed.

Lemma unique_column_at_most_one {A B : Type} (f : A -> B) (p : A -> bool) (l : list A) :
  NoDup (map f l) ->
  (forall a b, p a = true -> p b = true -> f a = f b) ->
  (List.length (filter p l) <= 1)%nat.
Proof.
  intros Hnd Hp. induction l as [|h t IH]; simpl; [lia|].
  inversion Hnd as [|? ? Hn Ht]; subst.
  destruct (p h) eqn:Ph; [|apply IH; assumption].
  assert (E : filter p t = []).
  { destruct (filter p t) as [|x r] eqn:F; [reflexivity|]. exfalso.
    assert (Hx : In x (filter p t)) by (rewrite F; left; reflexivity).
    apply filter_In in Hx as [Hx Px]. apply Hn.
    rewrite (Hp h x Ph Px). apply in_map, Hx. }
  rewrite E. simpl. lia.
Qed.

Lemma records_le1 (db : database) (t c : string) :
  store_ok db -> (List.length (records db t c) <= 1)%nat.
Proof.
  intros (Hkey & _). unfold records.
  apply (unique_column_at_most_one key); [assumption|].
  intros a b Ha Hb. apply same_key_iff in Ha, Hb. congruence.
Qed.

Lemma in_join_on (db : database) (m : metric_row) (b : benchmark_row) :
  In (m, b) (join_on db)
  <-> In m (metrics db) /\ In b (benchmarks db) /\ b_id b = m_benchmark_id m.
Proof.
  unfold join_on. rewrite in_flat_map. split.
  - intros (m' & Hm & Hin). apply in_map_iff in Hin as (b' & [= <- <-] & Hb).
    apply filter_In in Hb as [Hb E]. apply Z.eqb_eq in E. tauto.
  - intros (Hm & Hb & E). exists m. split; [assumption|].
    apply in_map_iff. exists b. split; [reflexivity|].
    apply filter_In. split; [assumption | apply Z.eqb_eq, E].
Qed.

Lemma filter_none {A : Type} (p : A -> bool) (l : list A) :
  (forall a, In a l -> p a = false) -> filter p l = [].
Proof.
  induction l as [|h t IH]; simpl; intros H; [reflexivity|].
  rewrite (H h (or_introl eq_refl)). apply IH. intros a Ha. apply H. right. assumption.
Qed.

(** After a write with a timestamp that is a number, the pair has the one
    record of that write, and the join shows that record with the samples
    of that write and no others. *)
Lemma add_measurement_record (db : database) (ts : float) (t c : string)
    (payload : list (string * pyval)) :
  store_ok db -> not_nan ts ->
  let db' := fst (add_measurement db ts t c payload) in
  exists row,
    records db' t c = [row]
    /\ sqlite_real ts = Some (b_timestamp row)
    /\ b_metrics_json row = PyDict payload
    /\ (forall m b, In (m, b) (join_on db') -> same_key t c b = true ->
                    b = row /\ In m (samples_of (b_id row) payload))
    /\ (forall m, In m (samples_of (b_id row) payload) -> In (m, row) (join_on db')).
Proof.
  intros Hok Hts db'.
  destruct (sqlite_real_some ts Hts) as [v Hv].
  pose proof (add_measurement_db db ts v t c payload Hv) as E.
  cbv zeta in E. fold db' in E.
  set (rid := new_rowid (benchmarks db)) in E.
  set (row := {| b_id := rid; b_test_name := t; b_commit_hash := c;
                 b_timestamp := v; b_metrics_json := PyDict payload |}) in E.
  assert (Hrow : same_key t c row = true).
  { apply same_key_iff. reflexivity. }
  exists row. split; [|split; [assumption|split; [reflexivity|split]]].
  - unfold records. rewrite E. cbn [benchmarks].
    rewrite filter_app. cbn [filter]. rewrite Hrow.
    rewrite filter_none; [reflexivity|].
    intros a Ha. apply filter_In in Ha as [_ Ha].
    destruct (same_key t c a); [discriminate | reflexivity].
  - intros m b Hin Hk. apply in_join_on in Hin as (Hm & Hb & Hid).
    rewrite E in Hm, Hb. cbn [benchmarks metrics] in Hm, Hb.
    apply in_app_or in Hb as [Hb|[<-|[]]].
    { apply filter_In in Hb as [_ Hb]. rewrite Hk in Hb. discriminate. }
    split; [reflexivity|].
    apply in_app_or in Hm as [Hm|Hm]; [|assumption]. exfalso.
    destruct Hok as (_ & _ & _ & Hlt). rewrite Forall_forall in Hlt.
    specialize (Hlt m Hm). unfold row in Hid. cbn [b_id] in Hid.
    unfold rid in Hid. cbv beta in Hlt. lia.
  - intros m Hm. apply in_join_on. rewrite E. cbn [benchmarks metrics].
    split; [apply in_or_app; right; assumption|].
    split; [apply in_or_app; right; left; reflexivity|].
    symmetry. apply samples_of_id in Hm. assumption.
Qed.


(* ----------------------------------------------------------------- *)
(** ** History: the most recent samples, most recent first *)

Lemma joined_timestamps (db : database) (t n : string) :
  store_ok db -> Forall (fun r => not_nan (fst r)) (joined db t n).
Proof.
  intros (_ & _ & Hts & _). unfold joined.
  apply Forall_forall. intros r Hr.
  apply in_map_iff in Hr as ([m b] & <- & Hin).
  apply filter_In in Hin as [Hin _]. apply in_join_on in Hin as (_ & Hb & _).
  rewrite Forall_forall in Hts. apply Hts, Hb.
Qed.

Lemma order_by_timestamp_desc_perm (l : list (float * float)) :
  Permutation l (order_by_timestamp_desc l).
Proof. apply sort_by_perm. Qed.

Lemma order_by_timestamp_desc_sorted (l : list (float * float)) :
  Forall (fun r => not_nan (fst r)) l -> newest_first (order_by_timestamp_desc l).
Proof.
  apply sort_by_sorted.
  - intros h x _ _ G. apply ltb_leb, G.
  - intros h x Hh Hx G. apply ltb_false_leb; assumption.
  - intros a b c Hab Hbc. unfold fle in *. eapply leb_trans; eassumption.
Qed.

Lemma StronglySorted_app_inv {A : Type} (R : A -> A -> Prop) (l1 l2 : list A) :
  StronglySorted R (l1 ++ l2) -> forall a b, In a l1 -> In b l2 -> R a b.
Proof.
  induction l1 as [|h t IH]; simpl; intros S a b Ha Hb; [contradiction|].
  inversion S as [|? ? St Hh]; subst.
  destruct Ha as [<-|Ha].
  - rewrite Forall_forall in Hh. apply Hh, in_or_app. right. assumption.
  - apply IH; assumption.
Qed.

Lemma limit_firstn {A : Type} (n : Z) (l : list A) :
  0 <= n -> limit n l = firstn (Z.to_nat n) l.
Proof. intros H. unfold limit. destruct (Z.ltb_spec n 0); [lia | reflexivity]. Qed.

(** A negative limit returns every row. *)
Lemma limit_negative {A : Type} (n : Z) (l : list A) : n < 0 -> limit n l = l.
Proof. intros H. unfold limit. destruct (Z.ltb_spec n 0); [reflexivity | lia]. Qed.

Lemma baseline_of_ok (values : list float) : exists b, baseline_of values = Ok b.
Proof.
  destruct values as [|x t]; [eexists; reflexivity|].
  unfold baseline_of. rewrite median_middle by discriminate. eexists; reflexivity.
Qed.


(* ----------------------------------------------------------------- *)
(** ** The batch driver *)

Lemma classify_formattable (tn mn : string) (b : float) (v : pyval) (t : float)
    (reg : regression) :
  classify tn mn b v t = Ok (Some reg) -> formattable reg.
Proof.
  unfold classify, py_sub, py_div, formattable.
  destruct (py_gt v _); [|discriminate].
  destruct (py_float v) as [x|e] eqn:E; [|discriminate]. simpl.
  destruct (PrimFloat.eqb b 0); [discriminate|].
  intros [= <-]. simpl. exists x. assumption.
Qed.

Lemma check_loop_extends (db : database) (tn : string) (thr : float)
    (items : list (string * pyval)) (acc regs : list regression) :
  check_loop db tn thr items acc = Ok regs ->
  exists extra, regs = acc ++ extra /\ Forall formattable extra.
Proof.
  revert acc. induction items as [|[name v] rest IH]; intros acc; simpl.
  - intros [= <-]. exists []. rewrite app_nil_r. split; [reflexivity | constructor].
  - destruct (is_number v); simpl; [|apply IH].
    destruct (get_baseline db tn name 5) as [[b|]|e]; simpl; [| apply IH | discriminate].
    destruct (classify tn name b v thr) as [[reg|]|e] eqn:C; simpl;
      [| apply IH | discriminate].
    intros H. apply IH in H as (extra & -> & Hf).
    exists (reg :: extra). rewrite <- app_assoc. split; [reflexivity|].
    constructor; [eapply classify_formattable; eassumption | assumption].
Qed.

Section RunFacts.

Variable args : arguments.
Variable time : nat -> float.

Lemma extends_same (st st' : run_state) :
  st_regressions st' = st_regressions st -> extends st st'.
Proof. intros E. exists []. rewrite app_nil_r. split; [assumption | constructor]. Qed.

Lemma extends_refl (st : run_state) : extends st st.
Proof. apply extends_same. reflexivity. Qed.

Lemma extends_trans (a b c : run_state) : extends a b -> extends b c -> extends a c.
Proof.
  intros (x & Hx & Fx) (y & Hy & Fy). exists (x ++ y).
  rewrite Hy, Hx, app_assoc. split; [reflexivity | apply Forall_app; tauto].
Qed.

Lemma new_shown_as (name : name_value) (reg : regression) :
  new (shown_as name reg) = new reg.
Proof. destruct name; reflexivity. Qed.

Lemma formattable_shown (name : name_value) (regs : list regression) :
  Forall formattable regs -> Forall formattable (map (shown_as name) regs).
Proof.
  intros H. apply Forall_map. eapply Forall_impl; [|exact H].
  intros reg. unfold formattable. rewrite new_shown_as. tauto.
Qed.

Lemma ingest_extends (st : run_state) (name : name_value) (value : pyval) :
  extends st (fst (ingest args time st name value)).
Proof.
  unfold ingest. destruct (bind_text name) as [tn|e]; [|apply extends_same; reflexivity].
  assert (G : forall items,
             extends st
               (fst (let (db, r) :=
                       add_measurement (st_db st) (time (st_ticks st)) tn
                                       (arg_commit args) items in
                     match r with
                     | Raise e =>
                         ({| st_db := db; st_committed := st_committed st;
                             st_ticks := S (st_ticks st);
                             st_regressions := st_regressions st |}, Raise e)
                     | Ok _ =>
                         match check_regression db tn items (arg_threshold args) with
                         | Raise e =>
                             ({| st_db := db; st_committed := db;
                                 st_ticks := S (st_ticks st);
                                 st_regressions := st_regressions st |}, Raise e)
                         | Ok regressions =>
                             ({| st_db := db; st_committed := db;
                                 st_ticks := S (st_ticks st);
                                 st_regressions :=
                                   st_regressions st ++ map (shown_as name) regressions |},
                              Ok tt)
                         end
                     end))).
  { intros items.
    destruct (add_measurement _ _ _ _ _) as [db [[]|e]];
      [|apply extends_same; reflexivity].
    unfold check_regression.
    destruct (check_loop _ _ _ _ _) as [regs|e] eqn:C;
      [|apply extends_same; reflexivity].
    apply check_loop_extends in C as (extra & -> & Hf).
    exists (map (shown_as name) extra).
    split; [reflexivity | apply formattable_shown, Hf]. }
  destruct value; try apply G;
    (destruct (insert_or_replace _ _ _ _ _) as [[db rid]|e];
     apply extends_same; reflexivity).
Qed.

Lemma process_entries_extends (entries : list entry) (st : run_state) :
  extends st (fst (process_entries args time st entries)).
Proof.
  revert st. induction entries as [|[b|e] rest IH]; intros st; simpl.
  - apply extends_refl.
  - destruct (e_name b) as [tn|]; [|apply extends_refl].
    pose proof (ingest_extends st tn
      (PyDict
         [("real_time"%string, get_default (e_real_time b) (PyInt 0));
          ("cpu_time"%string, get_default (e_cpu_time b) (PyInt 0));
          ("iterations"%string, get_default (e_iterations b) (PyInt 0))])) as H.
    destruct (ingest _ _ _ _ _) as [st1 [[]|e]]; simpl in *.
    + eapply extends_trans; [exact H | apply IH].
    + exact H.
  - apply extends_refl.
Qed.

Lemma process_file_extends (st : run_state) (f : artifact) :
  extends st (fst (process_file args time st f)).
Proof.
  unfold process_file. destruct (data f) as [e|entries|tn items].
  - apply extends_refl.
  - apply process_entries_extends.
  - apply ingest_extends.
Qed.

Lemma process_files_extends (files : list artifact) (st : run_state)
    (err : list string) :
  extends st (fst (process_files args time st err files))
  /\ exists more, snd (process_files args time st err files) = err ++ more.
Proof.
  revert st err. induction files as [|f rest IH]; intros st err; simpl.
  - split; [apply extends_refl | exists []; rewrite app_nil_r; reflexivity].
  - pose proof (process_file_extends st f) as H.
    destruct (process_file args time st f) as [st1 [[]|e]]; simpl in H.
    + destruct (IH st1 err) as [H1 H2]. split; [|assumption].
      eapply extends_trans; eassumption.
    + match goal with
      | |- context [process_files args time st1 ?err1 rest] =>
          destruct (IH st1 err1) as [H1 (more & H2)]
      end.
      split; [eapply extends_trans; eassumption|].
      eexists. rewrite H2, <- app_assoc. reflexivity.
Qed.

(** Processing a batch is processing its parts one after the other. *)
Lemma process_files_app (l1 l2 : list artifact) (st : run_state) (err : list string) :
  process_files args time st err (l1 ++ l2)
  = process_files args time (fst (process_files args time st err l1))
                  (snd (process_files args time st err l1)) l2.
Proof.
  revert st err. induction l1 as [|f rest IH]; intros st err; simpl.
  - reflexivity.
  - destruct (process_file args time st f) as [st1 [[]|e]]; apply IH.
Qed.

Lemma write_rows_ok (regs : list regression) (f : string) :
  Forall formattable regs -> snd (write_rows f regs) = Ok tt.
Proof.
  revert f. induction regs as [|reg rest IH]; intros f H; simpl.
  - reflexivity.
  - inversion H as [|? ? [x Hx] Hrest]; subst.
    unfold report_row, format_value.
    destruct (new reg); try discriminate; rewrite Hx; simpl; apply IH; assumption.
Qed.

Lemma generate_report_ok (regs : list regression) :
  Forall formattable regs -> snd (generate_report regs) = Ok tt.
Proof.
  intros H. unfold generate_report. destruct regs as [|reg rest]; [reflexivity|].
  pose proof (write_rows_ok (reg :: rest) (report_title ++ report_header ++ report_rule) H)
    as W.
  destruct (write_rows _ _) as [f [[]|e]]; [reflexivity | discriminate].
Qed.

(** A run over at least one file is the loop, then the report, then the
    exit code. *)
Lemma main_nonempty (db : database) (files : list artifact) (old : option string) :
  files <> [] ->
  let final := process_files args time (start db) [] files in
  let out := main args time db files old in
  out_db out = st_committed (fst final)
  /\ stderr out = snd final
  /\ output_file out = Some (fst (generate_report (st_regressions (fst final))))
  /\ exit_code out = Ok (match st_regressions (fst final) with [] => 0 | _ => 1 end).
Proof.
  intros Hne final out.
  assert (Hf : Forall formattable (st_regressions (fst final))).
  { destruct (process_files_extends files (start db) []) as [(extra & E & F) _].
    fold final in E. rewrite E. exact F. }
  apply generate_report_ok in Hf.
  unfold out, main. destruct files as [|f rest]; [congruence|].
  fold final. destruct final as [st err]. simpl in *.
  destruct (generate_report (st_regressions st)) as [content r]. simpl in Hf. subst r.
  destruct (st_regressions st); simpl; repeat split.
Qed.

End RunFacts.


(* ----------------------------------------------------------------- *)
(** ** A run without input files *)

(** C5, as the code has it. When the glob matches no artifact, a warning
    is printed, nothing goes to the diagnostic stream, the store is left as
    it was, the run returns 0, and no report is rendered: the file at the
    output destination stays as it was before the run, absent if there was
    none. *)
Theorem empty_glob_succeeds (args : arguments) (time : nat -> float) (db : database)
    (old : option string) :
  let out := main args time db [] old in
  exit_code out = Ok 0
  /\ stdout out = [("Warning: No benchmark files found matching " ++ arg_new args)%string]
  /\ stderr out = []
  /\ out_db out = db
  /\ output_file out = old.
Proof.
  intros out. unfold out, main. cbn [exit_code stdout stderr out_db output_file].
  repeat split.
Qed.

(** C5 as stated fails: without input files [main] returns before
    [generate_report]; no report file appears, and a report left by an
    earlier run stays as it is. *)
Lemma empty_glob_writes_no_report :
  output_file (main example_args example_time empty_database [] None) = None
  /\ output_file (main example_args example_time empty_database []
                       (Some ("# old report" ++ failure_marker)%string))
     = Some ("# old report" ++ failure_marker)%string.
Proof. split; reflexivity. Qed.

(* ----------------------------------------------------------------- *)
(** ** A metric without history *)

(** C6 fails on the code: [main] stores a measurement before it checks it,
    so a metric with no prior history is compared with a baseline that is
    its own stored value. A negative value is above 1.05 times itself and is
    reported, with a delta of -0.0. *)
Theorem first_sample_is_flagged :
  let payload := [("drift"%string, PyFloat (-10))] in
  let file := {| path := "results/drift.json"; stem := "drift";
                 data := Custom None (Some (PyDict payload)) |} in
  let finding := {| test := "drift"; metric := "drift"; baseline := (-10);
                    new := PyFloat (-10); regression_pct := (-0) |} in
  let db := fst (add_measurement empty_database 1000 "drift" "HEAD" payload) in
  let out := main example_args example_time empty_database [file] None in
  history empty_database "drift" "drift" 5 = []
  /\ get_baseline empty_database "drift" "drift" 5 = Ok None
  /\ get_baseline db "drift" "drift" 5 = Ok (Some (-10)%float)
  /\ check_regression db "drift" payload 0.05 = Ok [finding]
  /\ exit_code out = Ok 1
  /\ output_file out = Some (fst (generate_report [finding])).
Proof. repeat split; vm_compute; reflexivity. Qed.

(* ----------------------------------------------------------------- *)
(** ** The report *)

Lemma append_assoc (a b c : string) : ((a ++ b) ++ c = a ++ (b ++ c))%string.
Proof. induction a as [|x a IH]; simpl; [reflexivity | rewrite IH; reflexivity]. Qed.

Lemma append_nil_r (a : string) : (a ++ "" = a)%string.
Proof. induction a as [|x a IH]; simpl; [reflexivity | rewrite IH; reflexivity]. Qed.

Lemma length_append (a b : string) :
  String.length (a ++ b) = (String.length a + String.length b)%nat.
Proof. induction a as [|x a IH]; simpl; [reflexivity | rewrite IH; reflexivity]. Qed.

Lemma all_digits_append (a b : string) :
  all_digits (a ++ b) = all_digits a && all_digits b.
Proof.
  induction a as [|x a IH]; simpl; [reflexivity|].
  rewrite IH, andb_assoc. reflexivity.
Qed.

Lemma is_digit_digit (r : Z) : 0 <= r < 10 -> is_digit (digit r) = true.
Proof.
  intros H. unfold is_digit, digit.
  rewrite nat_ascii_embedding by lia.
  apply andb_true_iff. split; apply Nat.leb_le; lia.
Qed.

Lemma mod10_range (n : Z) : 0 <= n mod 10 < 10.
Proof. apply Z.mod_pos_bound. lia. Qed.

Lemma dec_digits_digits (fuel : nat) (n : Z) (acc : string) :
  all_digits acc = true -> all_digits (dec_digits fuel n acc) = true.
Proof.
  revert n acc. induction fuel as [|k IH]; intros n acc H; cbn [dec_digits]; [assumption|].
  assert (all_digits (String (digit (n mod 10)) acc) = true) as H'.
  { cbn [all_digits]. rewrite is_digit_digit by apply mod10_range. assumption. }
  destruct (n <? 10); [assumption | apply IH; assumption].
Qed.

Lemma dec_digits_nonempty (fuel : nat) (n : Z) (acc : string) :
  (fuel <> 0%nat \/ acc <> EmptyString) -> dec_digits fuel n acc <> EmptyString.
Proof.
  revert n acc. induction fuel as [|k IH]; intros n acc H; cbn [dec_digits].
  - destruct H; [congruence | assumption].
  - destruct (n <? 10); [discriminate|]. apply IH. right. discriminate.
Qed.

Lemma str_int_digits (n : Z) : all_digits (str_int n) = true /\ str_int n <> EmptyString.
Proof.
  unfold str_int. split.
  - apply dec_digits_digits. reflexivity.
  - apply dec_digits_nonempty. left. discriminate.
Qed.

Lemma frac_digits_shape (d : nat) (r : Z) :
  String.length (frac_digits d r) = d /\ all_digits (frac_digits d r) = true.
Proof.
  revert r. induction d as [|k IH]; intros r; cbn [frac_digits]; [split; reflexivity|].
  destruct (IH (r / 10)) as [L D].
  rewrite length_append, all_digits_append, L, D. cbn [String.length all_digits].
  rewrite is_digit_digit by apply mod10_range. split; [lia | reflexivity].
Qed.

(** The rounding is to the nearest multiple of [10^-d], ties to even: twice
    the distance from the scaled value to the chosen integer is at most one
    unit. *)
Lemma round_half_even_nearest (num den : Z) :
  0 < den ->
  let q := round_half_even num den in
  Z.abs (2 * (q * den - num)) <= den
  /\ (Z.abs (2 * (q * den - num)) = den -> Z.even q = true).
Proof.
  intros Hden q. unfold q, round_half_even.
  pose proof (Z.div_mod num den ltac:(lia)) as E.
  pose proof (Z.mod_pos_bound num den Hden) as B.
  destruct (Z.compare_spec (2 * (num mod den)) den) as [C|C|C].
  - destruct (Z.even (num / den)) eqn:Ev.
    + split; [nia | intros _; assumption].
    + split; [nia|]. intros _. rewrite Z.even_add, Ev. reflexivity.
  - split; nia.
  - split; nia.
Qed.

Lemma write_rows_join (regs : list regression) (f : string) :
  Forall formattable regs ->
  exists rows,
    write_rows f regs = ((f ++ join_rows rows)%string, Ok tt)
    /\ Forall2 (fun reg row =>
                  exists n,
                    format_value 3 (new reg) = Ok n
                    /\ row = row_text reg (format_f 3 (baseline reg)) n
                                      (format_f 1 (regression_pct reg)))
               regs rows.
Proof.
  revert f. induction regs as [|reg rest IH]; intros f H.
  - exists []. simpl. rewrite append_nil_r. split; [reflexivity | constructor].
  - inversion H as [|? ? [x Hx] Hrest]; subst.
    assert (Hn : format_value 3 (new reg) = Ok (format_f 3 x)).
    { unfold format_value. destruct (new reg); try discriminate; rewrite Hx; reflexivity. }
    simpl. unfold report_row. rewrite Hn. simpl.
    match goal with
    | |- context [write_rows (f ++ ?row)%string rest] =>
        destruct (IH (f ++ row)%string Hrest) as (rows & E & F2); exists (row :: rows)
    end.
    rewrite E. simpl. rewrite append_assoc. split; [reflexivity|].
    constructor; [|assumption].
    exists (format_f 3 x). split; [assumption | reflexivity].
Qed.


(* ----------------------------------------------------------------- *)
(** ** Booleans in a payload *)

Lemma py_float_as_int (v : pyval) : py_float (as_int v) = py_float v.
Proof. destruct v; reflexivity. Qed.

Lemma is_number_as_int (v : pyval) : is_number (as_int v) = is_number v.
Proof. destruct v; reflexivity. Qed.

Lemma py_gt_as_int (v : pyval) (f : float) : py_gt (as_int v) f = py_gt v f.
Proof. destruct v; reflexivity. Qed.

Lemma insert_metrics_as_int (items : list (string * pyval)) (rows : list metric_row)
    (rid : Z) :
  insert_metrics rows rid (payload_as_int items) = insert_metrics rows rid items.
Proof.
  revert rows. induction items as [|[name v] rest IH]; intros rows; simpl.
  - reflexivity.
  - rewrite is_number_as_int, py_float_as_int.
    destruct (is_number v); [|apply IH].
    destruct (py_float v) as [x|e]; [|reflexivity].
    destruct (sqlite_real x); [apply IH | reflexivity].
Qed.

Lemma classify_as_int (tn mn : string) (b : float) (v : pyval) (t : float) :
  classify tn mn b (as_int v) t
  = map_result (option_map finding_as_int) (classify tn mn b v t).
Proof.
  unfold classify, py_sub. rewrite py_gt_as_int, py_float_as_int.
  destruct (py_gt v _); [|reflexivity].
  destruct (py_float v) as [x|e]; simpl; [|reflexivity].
  destruct (py_div (x - b) b); reflexivity.
Qed.

Lemma check_loop_as_int (db : database) (tn : string) (thr : float)
    (items : list (string * pyval)) (acc : list regression) :
  check_loop db tn thr (payload_as_int items) (map finding_as_int acc)
  = map_result (map finding_as_int) (check_loop db tn thr items acc).
Proof.
  revert acc. induction items as [|[name v] rest IH]; intros acc; simpl.
  - reflexivity.
  - rewrite is_number_as_int. destruct (is_number v); simpl; [|apply IH].
    destruct (get_baseline db tn name 5) as [[b|]|e]; simpl; [|apply IH|reflexivity].
    rewrite classify_as_int.
    destruct (classify tn name b v thr) as [[reg|]|e]; simpl; [|apply IH|reflexivity].
    rewrite <- IH, map_app. reflexivity.
Qed.

Lemma insert_metrics_keeps (items : list (string * pyval)) (rows : list metric_row)
    (rid : Z) (m : metric_row) :
  In m rows -> In m (fst (insert_metrics rows rid items)).
Proof.
  intros H. rewrite insert_metrics_app. simpl. apply in_or_app. left. assumption.
Qed.

Lemma insert_metrics_bool (before after : list (string * pyval)) (name : string)
    (b : bool) (rows : list metric_row) (rid : Z) :
  snd (insert_metrics rows rid (before ++ (name, PyBool b) :: after)) = Ok tt ->
  In {| m_benchmark_id := rid; m_metric_name := name;
        m_value := if b then 1%float else 0%float; m_unit := None |}
     (fst (insert_metrics rows rid (before ++ (name, PyBool b) :: after))).
Proof.
  revert rows. induction before as [|[k v] rest IH]; intros rows.
  - cbn [app insert_metrics is_number].
    replace (py_float (PyBool b)) with (Ok (if b then 1%float else 0%float))
      by (destruct b; vm_compute; reflexivity).
    replace (sqlite_real (if b then 1%float else 0%float))
      with (Some (if b then 1%float else 0%float))
      by (destruct b; vm_compute; reflexivity).
    intros _. apply insert_metrics_keeps. apply in_or_app. right. left. reflexivity.
  - cbn [app insert_metrics].
    destruct (is_number v); [|apply IH].
    destruct (py_float v) as [x|e]; [|discriminate].
    destruct (sqlite_real x); [apply IH | discriminate].
Qed.

(** C10. A bool in a metrics payload is a number to the script: the test
    for numbers accepts it, [add_measurement] stores it as a sample of 1.0
    or 0.0, and [check_regression] classifies it as it classifies the int 1
    or 0, the finding carrying the bool as its new value. *)
Theorem bool_is_numeric :
  (forall b, is_number (PyBool b) = true
             /\ py_float (PyBool b) = Ok (if b then 1%float else 0%float))
  /\ (forall db ts t c name b before after,
        snd (add_measurement db ts t c (before ++ (name, PyBool b) :: after)) = Ok tt ->
        In {| m_benchmark_id := new_rowid (benchmarks db);
              m_metric_name := name;
              m_value := if b then 1%float else 0%float;
              m_unit := None |}
           (metrics (fst (add_measurement db ts t c (before ++ (name, PyBool b) :: after)))))
  /\ (forall db ts t c items,
        metrics (fst (add_measurement db ts t c (payload_as_int items)))
        = metrics (fst (add_measurement db ts t c items)))
  /\ (forall db t items thr,
        check_regression db t (payload_as_int items) thr
        = map_result (map finding_as_int) (check_regression db t items thr))
  /\ (let db0 := fst (add_measurement empty_database 1 "suite" "c1"
                        [("flaky"%string, PyFloat 0.5)]) in
      let db1 := fst (add_measurement db0 2 "suite" "c2"
                        [("flaky"%string, PyBool true)]) in
      check_regression db1 "suite" [("flaky"%string, PyBool true)] 0.05
      = Ok [{| test := "suite"; metric := "flaky"; baseline := 0.75;
               new := PyBool true; regression_pct := 33.333333333333329 |}]).
Proof.
  split.
  { intros b. split; [reflexivity | destruct b; vm_compute; reflexivity]. }
  split.
  { intros db ts t c name b before after.
    unfold add_measurement, insert_or_replace.
    destruct (sqlite_real ts) as [v|]; [|discriminate].
    cbn [benchmarks metrics].
    pose proof (insert_metrics_bool before after name b (metrics db)
                  (new_rowid (benchmarks db))) as H.
    destruct (insert_metrics _ _ _) as [rows r]. exact H. }
  split.
  { intros db ts t c items. unfold add_measurement, insert_or_replace.
    destruct (sqlite_real ts) as [v|]; [|reflexivity].
    cbn [benchmarks metrics]. rewrite insert_metrics_as_int.
    destruct (insert_metrics _ _ _). reflexivity. }
  split.
  { intros db t items thr. unfold check_regression.
    apply (check_loop_as_int db t thr items []). }
  vm_compute. reflexivity.
Qed.

Lemma bool_is_numeric_witness :
  In {| m_benchmark_id := 1; m_metric_name := "flaky"; m_value := 1%float; m_unit := None |}
     (metrics (fst (add_measurement empty_database 1 "suite" "c1"
                      ([("runs"%string, PyInt 3)] ++ ("flaky"%string, PyBool true) :: [])))).
Proof.
  apply (proj1 (proj2 bool_is_numeric) empty_database 1%float "suite"%string "c1"%string
               "flaky"%string true [("runs"%string, PyInt 3)] []).
  vm_compute. reflexivity.
Defined.

(* ================================================================= *)
(** * Further properties of the detector *)

(* ----------------------------------------------------------------- *)
(** ** Entries that are not numbers *)

Lemma insert_metrics_numeric (items : list (string * pyval)) (rows : list metric_row)
    (rid : Z) :
  insert_metrics rows rid (numeric_items items) = insert_metrics rows rid items.
Proof.
  revert rows. induction items as [|[name v] rest IH]; intros rows.
  - reflexivity.
  - cbn [numeric_items filter snd]. fold (numeric_items rest).
    destruct (is_number v) eqn:N; cbn [insert_metrics]; rewrite ?N; [|apply IH].
    destruct (py_float v) as [x|e]; [|reflexivity].
    destruct (sqlite_real x); [apply IH | reflexivity].
Qed.

Lemma check_loop_numeric (db : database) (tn : string) (thr : float)
    (items : list (string * pyval)) (acc : list regression) :
  check_loop db tn thr (numeric_items items) acc = check_loop db tn thr items acc.
Proof.
  revert acc. induction items as [|[name v] rest IH]; intros acc.
  - reflexivity.
  - cbn [numeric_items filter snd]. fold (numeric_items rest).
    destruct (is_number v) eqn:N; cbn [check_loop]; rewrite ?N; cbn [negb]; [|apply IH].
    destruct (get_baseline db tn name 5) as [[b|]|e]; cbn [bind]; [|apply IH|reflexivity].
    destruct (classify tn name b v thr) as [[reg|]|e]; cbn [bind];
      [apply IH | apply IH | reflexivity].
Qed.

(** X1. Entries of a payload that are not numbers are dropped without an
    error: [add_measurement] writes the same samples and returns the same
    result with or without them, and [check_regression] returns the same
    findings. *)
Theorem non_numeric_entries_are_ignored :
  (forall db ts t c items,
      metrics (fst (add_measurement db ts t c (numeric_items items)))
      = metrics (fst (add_measurement db ts t c items))
      /\ snd (add_measurement db ts t c (numeric_items items))
         = snd (add_measurement db ts t c items))
  /\ (forall db t items thr,
        check_regression db t (numeric_items items) thr
        = check_regression db t items thr).
Proof.
  split.
  - intros db ts t c items. unfold add_measurement, insert_or_replace.
    destruct (sqlite_real ts) as [v|]; [|split; reflexivity].
    cbn [benchmarks metrics]. rewrite insert_metrics_numeric.
    destruct (insert_metrics _ _ _). split; reflexivity.
  - intros db t items thr. apply check_loop_numeric.
Qed.

(* ----------------------------------------------------------------- *)
(** ** The samples of a write *)

Lemma insert_metrics_result (items : list (string * pyval)) (rows : list metric_row)
    (rid : Z) :
  snd (insert_metrics rows rid items) = Ok tt
  <-> Forall (fun kv => storable (snd kv)) (numeric_items items).
Proof.
  revert rows. induction items as [|[name v] rest IH]; intros rows.
  - split; [constructor | reflexivity].
  - cbn [numeric_items filter snd insert_metrics]. fold (numeric_items rest).
    destruct (is_number v); [|apply IH].
    destruct (py_float v) as [x|e] eqn:Ex.
    + destruct (sqlite_real x) as [y|] eqn:Ey.
      * rewrite IH. split.
        -- intros H. constructor; [exists x, y; split; assumption | assumption].
        -- intros H. inversion H; assumption.
      * cbn [snd]. split; [discriminate|].
        intros H. inversion H as [|? ? (x' & y' & Hx & Hy) _]; subst. cbn [snd] in Hx.
        rewrite Ex in Hx. injection Hx as <-. rewrite Ey in Hy. discriminate.
    + cbn [snd]. split; [discriminate|].
      intros H. inversion H as [|? ? (x' & y' & Hx & Hy) _]; subst. cbn [snd] in Hx.
      rewrite Ex in Hx. discriminate.
Qed.

Lemma samples_of_numeric (rid : Z) (items : list (string * pyval)) :
  snd (insert_metrics [] rid items) = Ok tt ->
  Forall2 (fun m kv =>
             m_benchmark_id m = rid
             /\ m_metric_name m = fst kv
             /\ exists x, py_float (snd kv) = Ok x /\ sqlite_real x = Some (m_value m))
          (samples_of rid items) (numeric_items items).
Proof.
  induction items as [|[name v] rest IH].
  - intros _. constructor.
  - unfold samples_of in *.
    cbn [numeric_items filter snd insert_metrics]. fold (numeric_items rest).
    destruct (is_number v); [|exact IH].
    destruct (py_float v) as [x|e] eqn:Ex; [|discriminate].
    destruct (sqlite_real x) as [y|] eqn:Ey; [|discriminate].
    rewrite (insert_metrics_app ([] ++ _)). cbn [fst snd app]. intros H.
    constructor; [|apply IH, H].
    cbn. repeat split. exists x. split; assumption.
Qed.

(** X2. With a timestamp that is a number, [add_measurement] succeeds
    exactly when every numeric entry converts to a float that is not a NaN;
    it then appends one sample per numeric entry, in the order of the
    payload, each under the rowid of the new record, with the name of the
    entry and its value as a float. *)
Theorem add_measurement_writes_numeric_entries (db : database) (ts : float)
    (t c : string) (items : list (string * pyval)) :
  not_nan ts ->
  (snd (add_measurement db ts t c items) = Ok tt
   <-> Forall (fun kv => storable (snd kv)) (numeric_items items))
  /\ (snd (add_measurement db ts t c items) = Ok tt ->
      exists samples,
        metrics (fst (add_measurement db ts t c items)) = metrics db ++ samples
        /\ Forall2 (fun m kv =>
                      m_benchmark_id m = new_rowid (benchmarks db)
                      /\ m_metric_name m = fst kv
                      /\ exists x, py_float (snd kv) = Ok x
                                   /\ sqlite_real x = Some (m_value m))
                   samples (numeric_items items)).
Proof.
  intros Hts. destruct (sqlite_real_some ts Hts) as [v Hv].
  assert (E : snd (add_measurement db ts t c items)
              = snd (insert_metrics [] (new_rowid (benchmarks db)) items)).
  { unfold add_measurement, insert_or_replace. rewrite Hv. cbn [benchmarks metrics].
    rewrite insert_metrics_app. reflexivity. }
  rewrite E. split; [apply insert_metrics_result|].
  intros H. exists (samples_of (new_rowid (benchmarks db)) items).
  split; [rewrite (add_measurement_db db ts v t c items Hv); reflexivity|].
  apply samples_of_numeric, H.
Qed.

Lemma add_measurement_writes_numeric_entries_witness :
  snd (add_measurement example_store 8 "BM_Sort" "c8"
         [("real_time"%string, PyInt 120); ("label"%string, PyStr "nightly");
          ("passed"%string, PyBool true)]) = Ok tt.
Proof.
  apply (add_measurement_writes_numeric_entries example_store 8 "BM_Sort" "c8"
           [("real_time"%string, PyInt 120); ("label"%string, PyStr "nightly");
            ("passed"%string, PyBool true)]).
  - reflexivity.
  - repeat constructor; eexists; eexists; split; vm_compute; reflexivity.
Defined.

(* ----------------------------------------------------------------- *)
(** ** What [check_regression] returns *)

Lemma check_loop_acc (db : database) (tn : string) (thr : float)
    (items : list (string * pyval)) (acc : list regression) :
  check_loop db tn thr items acc
  = map_result (app acc) (check_loop db tn thr items []).
Proof.
  revert acc. induction items as [|[name v] rest IH]; intros acc; cbn [check_loop].
  - cbn. rewrite app_nil_r. reflexivity.
  - destruct (is_number v); cbn [negb]; [|apply IH].
    destruct (get_baseline db tn name 5) as [[b|]|e]; cbn [bind]; [|apply IH|reflexivity].
    destruct (classify tn name b v thr) as [[reg|]|e]; cbn [bind];
      [| apply IH | reflexivity].
    rewrite (IH (acc ++ [reg])), (IH ([] ++ [reg])).
    destruct (check_loop db tn thr rest []) as [regs|e]; cbn; [|reflexivity].
    rewrite <- app_assoc. reflexivity.
Qed.

(** X3. The findings of a payload are the findings of its parts, one after
    the other, so they come in the order of the payload; an exception in an
    earlier part is the result, whatever the later part holds. *)
Theorem check_regression_app (db : database) (t : string)
    (items1 items2 : list (string * pyval)) (thr : float) :
  check_regression db t (items1 ++ items2) thr
  = match check_regression db t items1 thr with
    | Raise e => Raise e
    | Ok regs1 =>
        match check_regression db t items2 thr with
        | Raise e => Raise e
        | Ok regs2 => Ok (regs1 ++ regs2)
        end
    end.
Proof.
  unfold check_regression. generalize (@nil regression) at 1 2 as acc.
  induction items1 as [|[name v] rest IH]; intros acc; cbn [app check_loop].
  - rewrite check_loop_acc.
    destruct (check_loop db t thr items2 []); reflexivity.
  - destruct (is_number v); cbn [negb]; [|apply IH].
    destruct (get_baseline db t name 5) as [[b|]|e]; cbn [bind]; [|apply IH|reflexivity].
    destruct (classify t name b v thr) as [[reg|]|e]; cbn [bind];
      [apply IH | apply IH | reflexivity].
Qed.

Lemma classify_some (tn mn : string) (b : float) (v : pyval) (t : float)
    (reg : regression) :
  classify tn mn b v t = Ok (Some reg) ->
  py_gt v (b * (1 + t)) = true
  /\ PrimFloat.eqb b 0 = false
  /\ exists x, py_float v = Ok x
               /\ reg = {| test := tn; metric := mn; baseline := b; new := v;
                           regression_pct := ((x - b) / b * 100)%float |}.
Proof.
  unfold classify, py_sub, py_div.
  destruct (py_gt v _); [|discriminate].
  destruct (py_float v) as [x|e]; [|discriminate]. cbn [bind].
  destruct (PrimFloat.eqb b 0); [discriminate|]. cbn [bind].
  intros [= <-]. repeat split. exists x. split; reflexivity.
Qed.

(** X4. Every finding [check_regression] returns is a regression by the
    rule: it names the test that was checked and an entry of the payload
    whose value is a number, its baseline is the median baseline of that
    metric and is not zero, its new value exceeds baseline * (1 +
    threshold), and its delta is (new - baseline) / baseline * 100. *)
Theorem findings_are_regressions (db : database) (t : string)
    (items : list (string * pyval)) (thr : float) (regs : list regression) :
  check_regression db t items thr = Ok regs ->
  Forall (fun reg =>
            test reg = t
            /\ In (metric reg, new reg) items
            /\ is_number (new reg) = true
            /\ get_baseline db t (metric reg) 5 = Ok (Some (baseline reg))
            /\ PrimFloat.eqb (baseline reg) 0 = false
            /\ py_gt (new reg) (baseline reg * (1 + thr)) = true
            /\ exists x, py_float (new reg) = Ok x
                         /\ regression_pct reg
                            = ((x - baseline reg) / baseline reg * 100)%float)
         regs.
Proof.
  unfold check_regression. revert regs.
  induction items as [|[name v] rest IH]; intros regs; cbn [check_loop].
  - intros [= <-]. constructor.
  - assert (Hrest : forall regs',
               check_loop db t thr rest [] = Ok regs' ->
               Forall (fun reg =>
                         test reg = t
                         /\ In (metric reg, new reg) ((name, v) :: rest)
                         /\ is_number (new reg) = true
                         /\ get_baseline db t (metric reg) 5 = Ok (Some (baseline reg))
                         /\ PrimFloat.eqb (baseline reg) 0 = false
                         /\ py_gt (new reg) (baseline reg * (1 + thr)) = true
                         /\ exists x, py_float (new reg) = Ok x
                                      /\ regression_pct reg
                                         = ((x - baseline reg) / baseline reg * 100)%float)
                      regs').
    { intros regs' H. eapply Forall_impl; [|apply IH, H].
      intros reg (H1 & H2 & H3). repeat split; try tauto. right. assumption. }
    destruct (is_number v) eqn:N; cbn [negb]; [|apply Hrest].
    destruct (get_baseline db t name 5) as [[b|]|e] eqn:G; cbn [bind];
      [|apply Hrest|discriminate].
    destruct (classify t name b v thr) as [[reg|]|e] eqn:C; cbn [bind];
      [|apply Hrest|discriminate].
    rewrite check_loop_acc.
    destruct (check_loop db t thr rest []) as [regs'|e] eqn:L; [|discriminate].
    cbn. intros [= <-]. constructor; [|apply Hrest; reflexivity].
    apply classify_some in C as (Hgt & Hb & x & Hx & ->). cbn.
    repeat split; try assumption; [left; reflexivity|].
    exists x. split; [assumption | reflexivity].
Qed.

Lemma findings_are_regressions_witness :
  Forall (fun reg => test reg = "BM_Sort"%string
                     /\ py_gt (new reg) (baseline reg * (1 + 0.05)) = true)
         [{| test := "BM_Sort"; metric := "real_time"; baseline := 100;
             new := PyInt 120; regression_pct := 20 |}].
Proof.
  eapply Forall_impl;
    [|apply (findings_are_regressions example_store "BM_Sort"
               [("real_time"%string, PyInt 120)] 0.05); vm_compute; reflexivity].
  intros reg H. split; apply H.
Defined.

(* ----------------------------------------------------------------- *)
(** ** A test the store does not know *)

Lemma joined_unknown (db : database) (t n : string) :
  unknown_test db t -> joined db t n = [].
Proof.
  intros U. unfold joined.
  rewrite filter_none; [reflexivity|].
  intros [m b] Hin. apply in_join_on in Hin as (_ & Hb & _).
  unfold where_clause. cbn [fst snd].
  destruct (String.eqb_spec (b_test_name b) t) as [E|NE]; [|reflexivity].
  exfalso. exact (U b Hb E).
Qed.

(** X5. For a test of which the store holds no record, [get_baseline]
    returns [None] for every metric and [check_regression] returns no
    findings and raises nothing, whatever the payload holds. *)
Theorem unknown_test_has_no_findings (db : database) (t : string) :
  unknown_test db t ->
  (forall n window, get_baseline db t n window = Ok None)
  /\ (forall items thr, check_regression db t items thr = Ok []).
Proof.
  intros U.
  assert (G : forall n window, get_baseline db t n window = Ok None).
  { intros n window. unfold get_baseline, history. rewrite joined_unknown by assumption.
    unfold limit. destruct (window <? 0); [reflexivity|].
    rewrite firstn_nil. reflexivity. }
  split; [exact G|].
  intros items thr. unfold check_regression.
  induction items as [|[name v] rest IH]; cbn [check_loop]; [reflexivity|].
  destruct (is_number v); cbn [negb]; [|exact IH].
  rewrite G. cbn [bind]. exact IH.
Qed.

Lemma unknown_test_has_no_findings_witness :
  check_regression example_store "BM_Merge"
    [("real_time"%string, PyInt (10 ^ 400)); ("cpu_time"%string, PyFloat (-1))] 0.05
  = Ok [].
Proof.
  apply (unknown_test_has_no_findings example_store "BM_Merge").
  intros b Hb. vm_compute in Hb.
  repeat (destruct Hb as [<-|Hb]; [discriminate|]). contradiction.
Defined.

(* ----------------------------------------------------------------- *)
(** ** Other tests are not touched by a write *)

Lemma filter_filter_neg_key (t c t' : string) (rows : list benchmark_row) (p : benchmark_row -> bool) :
  t' <> t ->
  filter (fun b => p b && String.eqb (b_test_name b) t')
         (filter (fun b => negb (same_key t c b)) rows)
  = filter (fun b => p b && String.eqb (b_test_name b) t') rows.
Proof.
  intros Hne. induction rows as [|b rest IH]; cbn [filter]; [reflexivity|].
  destruct (same_key t c b) eqn:K; cbn [negb filter].
  - rewrite IH.
    apply same_key_iff in K. unfold key in K. injection K as Kt _.
    destruct (String.eqb_spec (b_test_name b) t') as [E|_];
      [congruence | rewrite andb_false_r; reflexivity].
  - rewrite IH. reflexivity.
Qed.

Lemma joined_matches (db : database) (t n : string) :
  joined db t n = flat_map (matches (benchmarks db) t n) (metrics db).
Proof.
  unfold joined, join_on. generalize (benchmarks db) as rows. intros rows.
  induction (metrics db) as [|m rest IH]; cbn [flat_map]; [reflexivity|].
  rewrite filter_app, map_app, IH. f_equal.
  unfold matches, where_clause. clear IH.
  destruct (String.eqb (m_metric_name m) n) eqn:N.
  - induction rows as [|b rows IH]; cbn [filter map]; [reflexivity|].
    destruct (b_id b =? m_benchmark_id m); cbn [filter map andb fst snd]; [|exact IH].
    rewrite N, andb_true_r.
    destruct (String.eqb (b_test_name b) t); cbn [map]; [rewrite IH; reflexivity | exact IH].
  - induction rows as [|b rows IH]; cbn [filter map]; [reflexivity|].
    destruct (b_id b =? m_benchmark_id m); cbn [filter map andb fst snd]; [|exact IH].
    rewrite N, andb_false_r. exact IH.
Qed.

Lemma matches_after_write (rows : list benchmark_row) (row : benchmark_row)
    (t c t' n : string) (m : metric_row) :
  t' <> t -> b_test_name row = t ->
  matches (filter (fun b => negb (same_key t c b)) rows ++ [row]) t' n m
  = matches rows t' n m.
Proof.
  intros Hne Hrow. unfold matches.
  destruct (String.eqb (m_metric_name m) n); [|reflexivity].
  rewrite filter_app, (filter_filter_neg_key t c t' rows) by assumption.
  cbn [filter]. rewrite Hrow.
  destruct (String.eqb_spec t t') as [E|_]; [congruence|].
  rewrite andb_false_r, app_nil_r. reflexivity.
Qed.

Lemma matches_fresh (rows : list benchmark_row) (t n : string) (m : metric_row) :
  m_benchmark_id m = new_rowid rows -> matches rows t n m = [].
Proof.
  intros Hid. unfold matches.
  destruct (String.eqb (m_metric_name m) n); [|reflexivity].
  rewrite filter_none; [reflexivity|].
  intros b Hb. apply new_rowid_gt in Hb.
  destruct (Z.eqb_spec (b_id b) (m_benchmark_id m)); [lia | reflexivity].
Qed.

Lemma flat_map_nil {A B : Type} (f : A -> list B) (l : list A) :
  (forall a, In a l -> f a = []) -> flat_map f l = [].
Proof.
  induction l as [|a rest IH]; intros H; cbn [flat_map]; [reflexivity|].
  rewrite (H a (or_introl eq_refl)), IH; [reflexivity|].
  intros x Hx. apply H. right. exact Hx.
Qed.

Lemma joined_other_test (db : database) (ts : float) (t c : string)
    (items : list (string * pyval)) (t' n : string) :
  t' <> t ->
  joined (fst (add_measurement db ts t c items)) t' n = joined db t' n.
Proof.
  intros Hne. destruct (sqlite_real ts) as [v|] eqn:Ev.
  2:{ rewrite add_measurement_nan by assumption. reflexivity. }
  rewrite (add_measurement_db db ts v t c items Ev), !joined_matches.
  cbn [benchmarks metrics]. rewrite flat_map_app.
  rewrite (flat_map_nil _ (samples_of _ _)).
  - rewrite app_nil_r. apply flat_map_ext. intros m.
    apply matches_after_write; [assumption | reflexivity].
  - intros m Hm. rewrite matches_after_write by (assumption || reflexivity).
    apply matches_fresh. apply samples_of_id in Hm. exact Hm.
Qed.

(** X6. Recording a measurement of one test leaves every other test as it
    was: the history and the baseline of each of its metrics, and the
    findings of any payload checked against it, are the same before and
    after the write, whether the write succeeds or raises. *)
Theorem write_leaves_other_tests (db : database) (ts : float) (t c : string)
    (items : list (string * pyval)) (t' : string) :
  t' <> t ->
  let db' := fst (add_measurement db ts t c items) in
  (forall n window, history db' t' n window = history db t' n window)
  /\ (forall n window, get_baseline db' t' n window = get_baseline db t' n window)
  /\ (forall payload thr,
        check_regression db' t' payload thr = check_regression db t' payload thr).
Proof.
  intros Hne db'.
  assert (H : forall n window, history db' t' n window = history db t' n window).
  { intros n window. unfold history, db'. rewrite joined_other_test by assumption.
    reflexivity. }
  assert (G : forall n window, get_baseline db' t' n window = get_baseline db t' n window).
  { intros n window. unfold get_baseline. rewrite H. reflexivity. }
  split; [exact H|]. split; [exact G|].
  intros payload thr. unfold check_regression. generalize (@nil regression) as acc.
  induction payload as [|[name v] rest IH]; intros acc; cbn [check_loop]; [reflexivity|].
  destruct (is_number v); cbn [negb]; [|apply IH].
  rewrite G. destruct (get_baseline db t' name 5) as [[b|]|e]; cbn [bind];
    [|apply IH|reflexivity].
  destruct (classify t' name b v thr) as [[reg|]|e]; cbn [bind];
    [apply IH | apply IH | reflexivity].
Qed.

Lemma write_leaves_other_tests_witness :
  get_baseline
    (fst (add_measurement example_store 8 "BM_Merge" "c8"
            [("real_time"%string, PyInt 7)]))
    "BM_Sort" "real_time" 5
  = get_baseline example_store "BM_Sort" "real_time" 5.
Proof.
  apply (write_leaves_other_tests example_store 8 "BM_Merge" "c8"
           [("real_time"%string, PyInt 7)] "BM_Sort").
  discriminate.
Defined.

(* ----------------------------------------------------------------- *)
(** ** The report and the exit code *)

Lemma substring_app (pre s post : string) :
  substring (String.length pre) (String.length s) (pre ++ s ++ post) = s.
Proof.
  induction pre as [|c pre IH]; cbn [String.length String.append substring].
  - induction s as [|c s IH]; cbn [String.length String.append substring].
    + destruct post; reflexivity.
    + rewrite IH. reflexivity.
  - exact IH.
Qed.

Lemma contains_index (token s : string) :
  token <> EmptyString -> contains token s -> index 0 token s <> None.
Proof.
  intros Hne (pre & post & ->) Hnone.
  apply (index_correct3 0 (String.length pre) token (pre ++ token ++ post) Hnone Hne);
    [lia | apply substring_app].
Qed.

Lemma success_marker_clean : ~ contains failure_token success_marker.
Proof.
  intros H. apply contains_index in H; [|discriminate].
  apply H. vm_compute. reflexivity.
Qed.

Lemma generate_report_marked (regs : list regression) :
  regs <> [] -> Forall formattable regs ->
  contains failure_token (fst (generate_report regs)).
Proof.
  intros Hne Hf. unfold generate_report. destruct regs as [|reg rest]; [congruence|].
  pose proof (write_rows_ok (reg :: rest) (report_title ++ report_header ++ report_rule) Hf) as W.
  destruct (write_rows _ _) as [f [[]|e]]; [|discriminate]. cbn [fst].
  exists (f ++ nl)%string, EmptyString. unfold failure_marker, failure_token.
  rewrite append_assoc, append_nil_r. reflexivity.
Qed.

(** X8. A run over at least one file never raises: it writes the report
    and returns 0 or 1. The two agree: it returns 0 exactly when the report
    is the success marker, which does not hold the failure token, and 1
    exactly when the report holds the failure token. *)
Theorem report_matches_exit_code (args : arguments) (time : nat -> float)
    (db : database) (files : list artifact) (old : option string) :
  files <> [] ->
  let out := main args time db files old in
  exists report,
    output_file out = Some report
    /\ (exit_code out = Ok 0 \/ exit_code out = Ok 1)
    /\ (exit_code out = Ok 0 <-> report = success_marker)
    /\ (exit_code out = Ok 1 <-> contains failure_token report).
Proof.
  intros Hne out.
  destruct (main_nonempty args time db files old Hne) as (_ & _ & Hout & Hcode).
  fold out in Hout, Hcode.
  set (final := process_files args time (start db) [] files) in *.
  assert (Hf : Forall formattable (st_regressions (fst final))).
  { destruct (process_files_extends args time files (start db) [])
      as [(extra & E & F) _].
    fold final in E. rewrite E. exact F. }
  exists (fst (generate_report (st_regressions (fst final)))).
  split; [exact Hout|]. rewrite Hcode.
  destruct (st_regressions (fst final)) as [|reg rest] eqn:R.
  - split; [left; reflexivity|]. split.
    + split; reflexivity.
    + split; [discriminate|]. intros C. exfalso. exact (success_marker_clean C).
  - assert (M : contains failure_token (fst (generate_report (reg :: rest)))).
    { apply generate_report_marked; [discriminate | exact Hf]. }
    split; [right; reflexivity|]. split.
    + split; [discriminate|]. intros E. rewrite E in M.
      exfalso. exact (success_marker_clean M).
    + split; [intros _; exact M | reflexivity].
Qed.

Lemma report_matches_exit_code_witness :
  exists report,
    output_file (main example_args example_time example_store
                      [example_first; example_broken; example_later] None)
    = Some report
    /\ (exit_code (main example_args example_time example_store
                        [example_first; example_broken; example_later] None) = Ok 0
        \/ exit_code (main example_args example_time example_store
                           [example_first; example_broken; example_later] None) = Ok 1).
Proof.
  destruct (report_matches_exit_code example_args example_time example_store
              [example_first; example_broken; example_later] None ltac:(discriminate))
    as (report & H1 & H2 & _).
  exists report. split; assumption.
Defined.

(* ----------------------------------------------------------------- *)
(** ** The entries of a multi-benchmark artifact *)

(** X9. The entries of an artifact are ingested one after the other until
    one raises: when the entries before a point are ingested without an
    exception, the rest is processed from the state they left; when one of
    them raises, the state it left and its exception are the result, and
    the entries behind it are not ingested. *)
Theorem entries_stop_at_first_failure (args : arguments) (time : nat -> float)
    (st : run_state) (pre post : list entry) :
  process_entries args time st (pre ++ post)
  = match process_entries args time st pre with
    | (st1, Raise e) => (st1, Raise e)
    | (st1, Ok _) => process_entries args time st1 post
    end.
Proof.
  revert st. induction pre as [|[b|e] rest IH]; intros st; cbn [app process_entries].
  - reflexivity.
  - destruct (e_name b) as [tn|]; [|reflexivity].
    destruct (ingest args time st tn _) as [st1 [[]|e]]; [apply IH | reflexivity].
  - reflexivity.
Qed.

(* ----------------------------------------------------------------- *)
(** ** The baseline is made of samples *)

Lemma nth_sorted_in (data : list float) (i : nat) :
  (i < List.length data)%nat -> In (nth i (sorted data) 0%float) data.
Proof.
  intros Hi. eapply Permutation_in; [apply Permutation_sym, sorted_perm|].
  apply nth_In. unfold sorted. rewrite sort_by_length. exact Hi.
Qed.

Lemma baseline_of_some (samples : list float) (m : float) :
  baseline_of samples = Ok (Some m) -> samples <> [] /\ m = middle (sorted samples).
Proof.
  destruct samples as [|x rest]; [discriminate|].
  unfold baseline_of. rewrite median_middle by discriminate.
  intros [= <-]. split; [discriminate | reflexivity].
Qed.

(** X11. A baseline is computed from observed values only: for an odd
    number of samples it is one of the samples, for an even number it is
    (a + b) / 2 for two of the samples; and there is a baseline exactly
    when there is a sample. *)
Theorem baseline_is_made_of_samples (samples : list float) :
  (baseline_of samples = Ok None <-> samples = [])
  /\ forall m,
       baseline_of samples = Ok (Some m) ->
       (Nat.odd (List.length samples) = true -> In m samples)
       /\ (Nat.even (List.length samples) = true ->
           exists a b, In a samples /\ In b samples /\ m = ((a + b) / 2)%float).
Proof.
  split.
  - destruct samples as [|x rest]; [split; reflexivity|].
    unfold baseline_of. rewrite median_middle by discriminate.
    split; discriminate.
  - intros m H. apply baseline_of_some in H as [Hne ->].
    set (k := List.length samples).
    assert (E : List.length (sorted samples) = k) by apply sort_by_length.
    assert (Hk : (0 < k)%nat).
    { unfold k. destruct samples; [congruence | cbn; lia]. }
    assert (Hhalf : (k / 2 < k)%nat) by (apply Nat.div_lt; lia).
    unfold middle. cbv zeta. rewrite E, <- Nat.negb_even.
    destruct (Nat.even k) eqn:Ev; cbn [negb]; split; try discriminate; intros _.
    + exists (nth (k / 2 - 1) (sorted samples) 0%float),
             (nth (k / 2) (sorted samples) 0%float).
      split; [apply nth_sorted_in; fold k; lia|].
      split; [apply nth_sorted_in; fold k; lia | reflexivity].
    + apply nth_sorted_in. fold k. exact Hhalf.
Qed.

Lemma baseline_is_made_of_samples_witness :
  In 100%float [105; 95; 110; 90; 100]%float.
Proof.
  apply (proj1 (proj2 (baseline_is_made_of_samples [105; 95; 110; 90; 100]%float)
                 100%float ltac:(vm_compute; reflexivity))).
  reflexivity.
Defined.

(* ----------------------------------------------------------------- *)
(** ** The sample a write adds to a history *)

Lemma sqlite_real_exact (x y : float) :
  sqlite_real x = Some y -> float_exact y = float_exact x.
Proof.
  unfold sqlite_real. destruct (PrimFloat.is_nan x); [discriminate|].
  destruct (PrimFloat.is_zero x) eqn:Z; intros [= <-]; [|reflexivity].
  unfold PrimFloat.is_zero, PrimFloat.zero in Z. rewrite eqb_exact in Z.
  unfold float_exact in *. rewrite Prim2SF_zero in *. cbn [sf_exact] in *.
  destruct (Prim2SF x) as [s|s| |s m e]; cbn [sf_exact x_compare] in *;
    try reflexivity; try (destruct s; discriminate); try discriminate.
  pose proof (Qscaled_pos m e) as P. exfalso.
  destruct s; cbv zeta in Z.
  - rewrite (Qcompare_neg_0 _ P) in Z. discriminate.
  - rewrite (Qcompare_pos_0 _ P) in Z. discriminate.
Qed.

Lemma payload_numeric_unique (items : list (string * pyval)) :
  NoDup (map fst items) -> NoDup (map fst (numeric_items items)).
Proof.
  induction items as [|[k v] rest IH]; cbn [numeric_items filter map fst snd];
    intros H; [constructor|].
  fold (numeric_items rest). apply NoDup_cons_iff in H as [Hk Hrest].
  destruct (is_number v); cbn [map fst]; [|apply IH, Hrest].
  apply NoDup_cons; [|apply IH, Hrest].
  intros Hin. apply Hk. apply in_map_iff in Hin as (kv & E & Hkv).
  apply in_map_iff. exists kv. split; [exact E|].
  apply filter_In in Hkv. apply Hkv.
Qed.

Section NamedSample.

Variable R : metric_row -> string * pyval -> Prop.
Hypothesis R_name : forall m kv, R m kv -> m_metric_name m = fst kv.

Lemma no_sample_named (n : string) (samples : list metric_row)
    (entries : list (string * pyval)) :
  Forall2 R samples entries -> ~ In n (map fst entries) ->
  filter (fun m => String.eqb (m_metric_name m) n) samples = [].
Proof.
  induction 1 as [|m kv samples entries Hm _ IH]; intros Hn; cbn [filter]; [reflexivity|].
  cbn [map In] in Hn.
  destruct (String.eqb_spec (m_metric_name m) n) as [E|_].
  - exfalso. apply Hn. left. rewrite <- (R_name m kv Hm). exact E.
  - apply IH. tauto.
Qed.

Lemma one_sample_named (n : string) (v : pyval) (samples : list metric_row)
    (entries : list (string * pyval)) :
  Forall2 R samples entries -> NoDup (map fst entries) -> In (n, v) entries ->
  exists m, filter (fun m => String.eqb (m_metric_name m) n) samples = [m] /\ R m (n, v).
Proof.
  induction 1 as [|m kv samples entries Hm Hrest IH]; intros Hnd Hin; [contradiction|].
  cbn [map] in Hnd. apply NoDup_cons_iff in Hnd as [Hfresh Hnd].
  cbn [filter]. destruct Hin as [->|Hin].
  - exists m. rewrite (R_name m _ Hm). cbn [fst]. rewrite String.eqb_refl.
    rewrite (no_sample_named n samples entries Hrest Hfresh). split; [reflexivity | exact Hm].
  - destruct (String.eqb_spec (m_metric_name m) n) as [E|_]; [|apply IH; assumption].
    exfalso. apply Hfresh. rewrite <- (R_name m kv Hm), E.
    apply in_map_iff. exists (n, v). split; [reflexivity | exact Hin].
Qed.

End NamedSample.

Lemma matches_filtered_nil (rows : list benchmark_row) (q : benchmark_row -> bool)
    (t n : string) (m : metric_row) :
  matches rows t n m = [] -> matches (filter q rows) t n m = [].
Proof.
  unfold matches. destruct (String.eqb (m_metric_name m) n); [|reflexivity].
  intros H. apply map_eq_nil in H. rewrite filter_none; [reflexivity|].
  intros b Hb. apply filter_In in Hb as [Hb _].
  destruct ((b_id b =? m_benchmark_id m) && String.eqb (b_test_name b) t) eqn:P;
    [|reflexivity].
  exfalso. assert (Hin : In b []) by (rewrite <- H; apply filter_In; split; assumption).
  contradiction.
Qed.

Lemma flat_map_nil_inv {A B : Type} (f : A -> list B) (l : list A) :
  flat_map f l = [] -> forall a, In a l -> f a = [].
Proof.
  induction l as [|x rest IH]; cbn [flat_map]; intros H a Ha; [contradiction|].
  apply app_eq_nil in H as [Hx Hrest].
  destruct Ha as [<-|Ha]; [exact Hx | apply IH; assumption].
Qed.

Lemma flat_map_agree {A B : Type} (f g : A -> list B) (l : list A) :
  (forall a, In a l -> f a = g a) -> flat_map f l = flat_map g l.
Proof.
  induction l as [|x rest IH]; cbn [flat_map]; intros H; [reflexivity|].
  rewrite (H x (or_introl eq_refl)), IH; [reflexivity|].
  intros a Ha. apply H. right. exact Ha.
Qed.

(** The rows of the query after a write that succeeded: the rows the
    records that were kept contribute, then the one of the new sample. *)
Lemma joined_after_write (db : database) (ts tsv : float) (t c n : string)
    (items : list (string * pyval)) (v : pyval) :
  store_ok db -> sqlite_real ts = Some tsv ->
  NoDup (map fst items) -> In (n, v) items -> is_number v = true ->
  snd (add_measurement db ts t c items) = Ok tt ->
  exists x y,
    py_float v = Ok x /\ sqlite_real x = Some y
    /\ joined (fst (add_measurement db ts t c items)) t n
       = flat_map (matches (filter (fun b => negb (same_key t c b)) (benchmarks db)) t n)
                  (metrics db)
         ++ [(tsv, y)].
Proof.
  intros Hok Hts Hnd Hin Hnum Hres.
  set (rid := new_rowid (benchmarks db)).
  assert (Hres' : snd (insert_metrics [] rid items) = Ok tt).
  { revert Hres. unfold add_measurement, insert_or_replace. rewrite Hts.
    cbn [benchmarks metrics]. rewrite insert_metrics_app. intros H. exact H. }
  pose proof (samples_of_numeric rid items Hres') as F2.
  assert (Hin' : In (n, v) (numeric_items items)).
  { apply filter_In. split; assumption. }
  destruct (one_sample_named _ (fun m kv (H : _ /\ _ /\ _) => proj1 (proj2 H))
              n v _ _ F2 (payload_numeric_unique items Hnd) Hin')
    as (m & Hm & _ & _ & x & Hx & Hy).
  cbn [snd] in Hx. exists x, (m_value m). split; [exact Hx|]. split; [exact Hy|].
  rewrite (add_measurement_db db ts tsv t c items Hts), joined_matches.
  cbn [benchmarks metrics]. fold rid. rewrite flat_map_app. f_equal.
  - apply flat_map_agree. intros m0 Hm0. unfold matches.
    destruct (String.eqb (m_metric_name m0) n); [|reflexivity].
    rewrite filter_app. cbn [filter b_id].
    destruct Hok as (_ & _ & _ & Hlt). rewrite Forall_forall in Hlt.
    specialize (Hlt m0 Hm0). cbv beta in Hlt. fold rid in Hlt.
    destruct (Z.eqb_spec rid (m_benchmark_id m0)) as [E|_]; [lia|].
    cbn [andb]. rewrite app_nil_r. reflexivity.
  - set (row := {| b_id := rid; b_test_name := t; b_commit_hash := c;
                   b_timestamp := tsv; b_metrics_json := PyDict items |}).
    assert (Each : forall m0, In m0 (samples_of rid items) ->
              matches (filter (fun b => negb (same_key t c b)) (benchmarks db) ++ [row]) t n m0
              = if String.eqb (m_metric_name m0) n then [(tsv, m_value m0)] else []).
    { intros m0 Hm0. unfold matches.
      destruct (String.eqb (m_metric_name m0) n); [|reflexivity].
      rewrite filter_app. rewrite filter_none.
      - cbn [filter app row b_id b_test_name]. rewrite (samples_of_id _ _ _ Hm0).
        rewrite Z.eqb_refl, String.eqb_refl. reflexivity.
      - intros b Hb. apply filter_In in Hb as [Hb _]. apply new_rowid_gt in Hb.
        rewrite (samples_of_id _ _ _ Hm0). fold rid in Hb.
        destruct (Z.eqb_spec (b_id b) rid); [lia | reflexivity]. }
    revert Each Hm. generalize (samples_of rid items) as samples.
    intros samples Each Hm.
    assert (G : flat_map
                  (matches (filter (fun b => negb (same_key t c b)) (benchmarks db) ++ [row]) t n)
                  samples
                = map (fun m0 => (tsv, m_value m0))
                      (filter (fun m0 => String.eqb (m_metric_name m0) n) samples)).
    { clear Hm. induction samples as [|m0 rest IH]; cbn [flat_map filter]; [reflexivity|].
      rewrite (Each m0 (or_introl eq_refl)), IH by (intros; apply Each; right; assumption).
      destruct (String.eqb (m_metric_name m0) n); reflexivity. }
    rewrite G, Hm. reflexivity.
Qed.

Lemma newest_stays_first (new : float * float) (old : list (float * float)) :
  (forall o, In o old -> PrimFloat.ltb (fst o) (fst new) = true) ->
  exists rest, order_by_timestamp_desc (old ++ [new]) = new :: rest.
Proof.
  intros Hold. unfold order_by_timestamp_desc, sort_by.
  rewrite fold_right_app. cbn [fold_right insert_by].
  induction old as [|o old IH]; cbn [fold_right].
  - exists []. reflexivity.
  - destruct IH as [rest ->]; [intros; apply Hold; right; assumption|].
    cbn [insert_by]. unfold newer at 1.
    rewrite (Hold o (or_introl eq_refl)).
    eexists. reflexivity.
Qed.

Lemma kept_rows_timestamps (db : database) (q : benchmark_row -> bool) (t n : string)
    (r : float * float) :
  In r (flat_map (matches (filter q (benchmarks db)) t n) (metrics db)) ->
  exists b, In b (benchmarks db) /\ b_test_name b = t /\ b_timestamp b = fst r.
Proof.
  intros H. apply in_flat_map in H as (m & _ & H). unfold matches in H.
  destruct (String.eqb (m_metric_name m) n); [|contradiction].
  apply in_map_iff in H as (b & <- & Hb).
  apply filter_In in Hb as [Hb P]. apply filter_In in Hb as [Hb _].
  apply andb_prop in P as [_ P]. apply String.eqb_eq in P.
  exists b. repeat split; assumption.
Qed.

(** X12. A value that was just recorded is what history returns first:
    after a write that succeeded, with a timestamp later than those of the
    records the store held of the test, the history of each numeric entry
    of the payload starts with the value of the entry as it was stored. *)
Theorem recorded_value_heads_history (db : database) (ts : float) (t c n : string)
    (items : list (string * pyval)) (v : pyval) (window : Z) :
  store_ok db -> not_nan ts ->
  (forall b, In b (benchmarks db) -> b_test_name b = t ->
             PrimFloat.ltb (b_timestamp b) ts = true) ->
  NoDup (map fst items) -> In (n, v) items -> is_number v = true ->
  snd (add_measurement db ts t c items) = Ok tt ->
  1 <= window ->
  exists x y rest,
    py_float v = Ok x /\ sqlite_real x = Some y
    /\ history (fst (add_measurement db ts t c items)) t n window = y :: rest.
Proof.
  intros Hok Hts Hlater Hnd Hin Hnum Hres Hw.
  destruct (sqlite_real_some ts Hts) as [tsv Htsv].
  destruct (joined_after_write db ts tsv t c n items v Hok Htsv Hnd Hin Hnum Hres)
    as (x & y & Hx & Hy & J).
  set (old := flat_map
                (matches (filter (fun b => negb (same_key t c b)) (benchmarks db)) t n)
                (metrics db)) in *.
  assert (Hold : forall o, In o old -> PrimFloat.ltb (fst o) (fst (tsv, y)) = true).
  { intros o Ho. apply kept_rows_timestamps in Ho as (b & Hb & Ht & <-).
    cbn [fst]. specialize (Hlater b Hb Ht).
    rewrite ltb_exact in *. rewrite (sqlite_real_exact ts tsv Htsv). exact Hlater. }
  destruct (newest_stays_first (tsv, y) old Hold) as [rest Hsort].
  exists x, y, (map snd (firstn (Z.to_nat window - 1) rest)).
  split; [exact Hx|]. split; [exact Hy|].
  unfold history. rewrite J, Hsort, limit_firstn by lia.
  destruct (Z.to_nat window) as [|k] eqn:Hk; [lia|].
  cbn [firstn map snd Nat.sub]. now rewrite Nat.sub_0_r.
Qed.

Lemma recorded_value_heads_history_witness :
  exists x y rest,
    py_float (PyInt 97) = Ok x /\ sqlite_real x = Some y
    /\ history
         (fst (add_measurement example_store 8 "BM_Sort" "c8"
                 [("real_time"%string, PyInt 97); ("label"%string, PyStr "fast")]))
         "BM_Sort" "real_time" 5
       = y :: rest.
Proof.
  apply (recorded_value_heads_history example_store 8 "BM_Sort" "c8" "real_time"
           [("real_time"%string, PyInt 97); ("label"%string, PyStr "fast")]
           (PyInt 97) 5).
  - apply store_ok_record_all, store_ok_empty.
  - reflexivity.
  - intros b Hb _. vm_compute in Hb.
    repeat (destruct Hb as [<-|Hb]; [reflexivity|]). contradiction.
  - repeat constructor; cbn [In]; intuition discriminate.
  - left. reflexivity.
  - reflexivity.
  - vm_compute. reflexivity.
  - lia.
Defined.

(* ----------------------------------------------------------------- *)
(** ** The first sample of a metric *)

Lemma first_rows (db : database) (ts tsv : float) (t c n : string)
    (items : list (string * pyval)) (v : pyval) :
  store_ok db -> sqlite_real ts = Some tsv -> joined db t n = [] ->
  NoDup (map fst items) -> In (n, v) items -> is_number v = true ->
  snd (add_measurement db ts t c items) = Ok tt ->
  exists x y,
    py_float v = Ok x /\ sqlite_real x = Some y
    /\ joined (fst (add_measurement db ts t c items)) t n = [(tsv, y)].
Proof.
  intros Hok Htsv Hnone Hnd Hin Hnum Hres.
  destruct (joined_after_write db ts tsv t c n items v Hok Htsv Hnd Hin Hnum Hres)
    as (x & y & Hx & Hy & J).
  exists x, y. split; [exact Hx|]. split; [exact Hy|].
  rewrite J, flat_map_nil; [reflexivity|].
  intros m Hm. apply matches_filtered_nil.
  rewrite joined_matches in Hnone. exact (flat_map_nil_inv _ _ Hnone m Hm).
Qed.

(** The baseline of a metric after its first sample. *)
Lemma first_sample_is_own_baseline_aux (db : database) (ts : float) (t c n : string)
    (items : list (string * pyval)) (v : pyval) :
  store_ok db -> not_nan ts -> joined db t n = [] ->
  NoDup (map fst items) -> In (n, v) items -> is_number v = true ->
  snd (add_measurement db ts t c items) = Ok tt ->
  exists x y,
    py_float v = Ok x /\ sqlite_real x = Some y
    /\ get_baseline (fst (add_measurement db ts t c items)) t n 5 = Ok (Some y).
Proof.
  intros Hok Hts Hnone Hnd Hin Hnum Hres.
  destruct (sqlite_real_some ts Hts) as [tsv Htsv].
  destruct (first_rows db ts tsv t c n items v Hok Htsv Hnone Hnd Hin Hnum Hres)
    as (x & y & Hx & Hy & J).
  exists x, y. split; [exact Hx|]. split; [exact Hy|].
  unfold get_baseline, history. rewrite J. reflexivity.
Qed.

(** X13. The first sample of a metric is its own baseline: when the store
    holds no sample of a test's metric, a write that succeeds leaves the
    history of each numeric entry of the payload with one value, the entry
    as it was stored, and that value is the baseline. *)
Theorem first_sample_is_own_baseline (db : database) (ts : float) (t c n : string)
    (items : list (string * pyval)) (v : pyval) (window : Z) :
  store_ok db -> not_nan ts -> joined db t n = [] ->
  NoDup (map fst items) -> In (n, v) items -> is_number v = true ->
  snd (add_measurement db ts t c items) = Ok tt ->
  1 <= window ->
  exists x y,
    py_float v = Ok x /\ sqlite_real x = Some y
    /\ history (fst (add_measurement db ts t c items)) t n window = [y]
    /\ get_baseline (fst (add_measurement db ts t c items)) t n window = Ok (Some y).
Proof.
  intros Hok Hts Hnone Hnd Hin Hnum Hres Hw.
  destruct (sqlite_real_some ts Hts) as [tsv Htsv].
  destruct (first_rows db ts tsv t c n items v Hok Htsv Hnone Hnd Hin Hnum Hres)
    as (x & y & Hx & Hy & J).
  assert (H : history (fst (add_measurement db ts t c items)) t n window = [y]).
  { unfold history. rewrite J, limit_firstn by lia.
    destruct (Z.to_nat window) as [|k] eqn:Hk; [lia|]. destruct k; reflexivity. }
  exists x, y. split; [exact Hx|]. split; [exact Hy|]. split; [exact H|].
  unfold get_baseline. rewrite H. reflexivity.
Qed.

Lemma first_sample_is_own_baseline_witness :
  exists x y,
    py_float (PyBool true) = Ok x /\ sqlite_real x = Some y
    /\ history
         (fst (add_measurement example_store 8 "BM_Sort" "c8"
                 [("passed"%string, PyBool true); ("real_time"%string, PyFloat 97)]))
         "BM_Sort" "passed" 5
       = [y]
    /\ get_baseline
         (fst (add_measurement example_store 8 "BM_Sort" "c8"
                 [("passed"%string, PyBool true); ("real_time"%string, PyFloat 97)]))
         "BM_Sort" "passed" 5
       = Ok (Some y).
Proof.
  apply (first_sample_is_own_baseline example_store 8 "BM_Sort" "c8" "passed"
           [("passed"%string, PyBool true); ("real_time"%string, PyFloat 97)]
           (PyBool true) 5).
  - apply store_ok_record_all, store_ok_empty.
  - reflexivity.
  - vm_compute. reflexivity.
  - repeat constructor; cbn [In]; intuition discriminate.
  - left. reflexivity.
  - reflexivity.
  - vm_compute. reflexivity.
  - lia.
Defined.

Lemma x_not_gt_le (v b c : xreal) :
  x_lt b v = false -> x_le b c = true -> x_lt c v = false.
Proof. x_cases. Qed.

(** A value that is not above [b] is not above anything [b] does not exceed. *)
Lemma py_not_gt_le (v : pyval) (b c : float) :
  py_gt v b = false -> PrimFloat.leb b c = true -> py_gt v c = false.
Proof.
  rewrite leb_exact.
  destruct v; simpl; try reflexivity; rewrite ?ltb_exact;
    intros H1 H2; eapply x_not_gt_le; eassumption.
Qed.

Lemma py_gt_exact (v : pyval) (b c : float) :
  float_exact b = float_exact c -> py_gt v b = py_gt v c.
Proof.
  intros E. destruct v; simpl; try reflexivity; rewrite ?ltb_exact, E; reflexivity.
Qed.

Lemma py_gt_nan (v : pyval) (c : float) : PrimFloat.is_nan c = true -> py_gt v c = false.
Proof.
  intros N.
  assert (E : float_exact c = XNaN).
  { destruct (float_exact c) eqn:F; [reflexivity | |];
      exfalso; assert (PrimFloat.is_nan c = false) as C
        by (apply is_nan_exact; rewrite F; discriminate);
      rewrite C in N; discriminate. }
  destruct v; simpl; try reflexivity; rewrite ?ltb_exact, E; reflexivity.
Qed.

(** A non-negative value measured against itself as it was stored. *)
Lemma own_baseline_not_flagged (t n : string) (v : pyval) (x y thr : float) :
  sqlite_real x = Some y -> PrimFloat.leb 0 x = true -> PrimFloat.leb 0 thr = true ->
  py_gt v x = false -> classify t n y v thr = Ok None.
Proof.
  intros Hy Hx Hthr Hv. pose proof (sqlite_real_exact x y Hy) as E.
  assert (Hy0 : PrimFloat.leb 0 y = true) by (rewrite leb_exact, E, <- leb_exact; exact Hx).
  assert (Hvy : py_gt v y = false) by (rewrite (py_gt_exact v y x E); exact Hv).
  unfold classify.
  destruct (mul_ge y (1 + thr) Hy0 (add_one_ge thr Hthr)) as [N|L].
  - rewrite (py_gt_nan v _ N). reflexivity.
  - rewrite (py_not_gt_le v y _ Hvy L). reflexivity.
Qed.

(** X14. A first run does not report non-negative measurements: when the
    store holds no sample of the metrics of a payload, the write succeeds,
    and each numeric entry converts to a non-negative float that the entry
    does not exceed (every float does so, and every int that float
    represents exactly), then the check that follows the write, for a
    non-negative threshold, returns no finding. *)
Theorem first_run_reports_nothing (db : database) (ts : float) (t c : string)
    (items : list (string * pyval)) (thr : float) :
  store_ok db -> not_nan ts -> NoDup (map fst items) ->
  (forall n v, In (n, v) items -> is_number v = true ->
     joined db t n = []
     /\ exists x, py_float v = Ok x /\ PrimFloat.leb 0 x = true /\ py_gt v x = false) ->
  snd (add_measurement db ts t c items) = Ok tt ->
  PrimFloat.leb 0 thr = true ->
  check_regression (fst (add_measurement db ts t c items)) t items thr = Ok [].
Proof.
  intros Hok Hts Hnd Hall Hres Hthr. unfold check_regression.
  assert (G : forall l, (forall kv, In kv l -> In kv items) ->
                check_loop (fst (add_measurement db ts t c items)) t thr l [] = Ok []).
  { induction l as [|[n v] rest IH]; intros Hsub; cbn [check_loop]; [reflexivity|].
    assert (Hrest : forall kv, In kv rest -> In kv items)
      by (intros kv Hkv; apply Hsub; right; exact Hkv).
    destruct (is_number v) eqn:Hnum; cbn [negb]; [|apply IH, Hrest].
    pose proof (Hsub (n, v) (or_introl eq_refl)) as Hin.
    destruct (Hall n v Hin Hnum) as (Hnone & x & Hx & Hx0 & Hv).
    destruct (first_sample_is_own_baseline_aux db ts t c n items v Hok Hts Hnone Hnd Hin
                Hnum Hres) as (x' & y & Hx' & Hy & B).
    rewrite Hx in Hx'. injection Hx' as <-.
    rewrite B. cbn [bind].
    rewrite (own_baseline_not_flagged t n v x y thr Hy Hx0 Hthr Hv). cbn [bind].
    apply IH, Hrest. }
  apply G. intros kv H. exact H.
Qed.

Lemma first_run_reports_nothing_witness :
  check_regression
    (fst (add_measurement example_store 8 "BM_Merge" "c8"
            [("real_time"%string, PyFloat 12.5); ("iterations"%string, PyInt 1000);
             ("label"%string, PyStr "merge")]))
    "BM_Merge"
    [("real_time"%string, PyFloat 12.5); ("iterations"%string, PyInt 1000);
     ("label"%string, PyStr "merge")]
    0.05
  = Ok [].
Proof.
  apply (first_run_reports_nothing example_store 8 "BM_Merge" "c8"
           [("real_time"%string, PyFloat 12.5); ("iterations"%string, PyInt 1000);
            ("label"%string, PyStr "merge")] 0.05).
  - apply store_ok_record_all, store_ok_empty.
  - reflexivity.
  - repeat constructor; cbn [In]; intuition discriminate.
  - intros n v [E|[E|[E|[]]]] Hnum; injection E as <- <-.
    + split; [vm_compute; reflexivity|].
      exists 12.5%float. repeat split; vm_compute; reflexivity.
    + split; [vm_compute; reflexivity|].
      exists 1000%float. repeat split; vm_compute; reflexivity.
    + discriminate.
  - vm_compute. reflexivity.
  - vm_compute. reflexivity.
Defined.

(* ================================================================= *)
(** * The query, the upsert, the run and the report *)

(* ----------------------------------------------------------------- *)
(** ** The rows of the query are the samples of the test and the metric *)

Lemma joined_samples (db : database) (t n : string) (ts v : float) :
  In (ts, v) (joined db t n) <-> is_sample_of db t n ts v.
Proof.
  unfold joined, is_sample_of. rewrite in_map_iff. split.
  - intros ([m b] & E & Hin). cbn [fst snd] in E. injection E as <- <-.
    apply filter_In in Hin as [Hin W]. apply in_join_on in Hin as (Hm & Hb & Hid).
    unfold where_clause in W. cbn [fst snd] in W. apply andb_prop in W as [Wt Wn].
    apply String.eqb_eq in Wt, Wn.
    exists m, b. repeat split; try assumption. symmetry. exact Hid.
  - intros (m & b & Hm & Hb & Hid & Ht & Hn & <- & <-).
    exists (m, b). split; [reflexivity|].
    apply filter_In. split; [apply in_join_on; repeat split; try assumption; symmetry; exact Hid|].
    unfold where_clause. cbn [fst snd]. rewrite Ht, Hn, !String.eqb_refl. reflexivity.
Qed.

Lemma at_most_one_found {A : Type} (p : A -> bool) (l : list A) :
  (List.length (filter p l) <= 1)%nat ->
  List.length (filter p l) = if existsb p l then 1%nat else 0%nat.
Proof.
  induction l as [|a rest IH]; cbn [filter existsb]; [reflexivity|].
  destruct (p a); cbn [orb List.length].
  - intros H. assert (E : List.length (filter p rest) = 0%nat) by lia.
    rewrite E. reflexivity.
  - exact IH.
Qed.

Lemma matches_length (db : database) (t n : string) (m : metric_row) :
  store_ok db ->
  List.length (matches (benchmarks db) t n m)
  = if String.eqb (m_metric_name m) n
       && existsb (fun b => (b_id b =? m_benchmark_id m) && String.eqb (b_test_name b) t)
                  (benchmarks db)
    then 1%nat else 0%nat.
Proof.
  intros (_ & Hid & _). unfold matches.
  destruct (String.eqb (m_metric_name m) n); cbn [andb]; [|reflexivity].
  rewrite length_map. apply at_most_one_found.
  apply (unique_column_at_most_one b_id); [exact Hid|].
  intros a b Ha Hb. apply andb_prop in Ha as [Ha _]. apply andb_prop in Hb as [Hb _].
  apply Z.eqb_eq in Ha, Hb. congruence.
Qed.

Lemma joined_length (db : database) (t n : string) :
  store_ok db -> List.length (joined db t n) = List.length (sample_rows db t n).
Proof.
  intros Hok. rewrite joined_matches. unfold sample_rows.
  induction (metrics db) as [|m rest IH]; cbn [flat_map filter]; [reflexivity|].
  rewrite length_app, IH, (matches_length db t n m Hok).
  destruct (_ && _); reflexivity.
Qed.

(* ----------------------------------------------------------------- *)
(** ** Rows with equal timestamps keep their order *)

Lemma same_time_not_newer (a b ts : float) :
  PrimFloat.eqb a ts = true -> PrimFloat.eqb b ts = true -> PrimFloat.ltb a b = false.
Proof.
  rewrite !eqb_exact, ltb_exact.
  generalize (float_exact a) (float_exact b) (float_exact ts). intros x y z.
  x_cases.
Qed.

Lemma at_time_insert (ts : float) (x : float * float) (l : list (float * float)) :
  at_time ts (insert_by newer x l)
  = if PrimFloat.eqb (fst x) ts then x :: at_time ts l else at_time ts l.
Proof.
  unfold at_time. induction l as [|h rest IH]; cbn [insert_by filter].
  - reflexivity.
  - destruct (newer h x) eqn:G; cbn [filter].
    + rewrite IH. destruct (PrimFloat.eqb (fst x) ts) eqn:Ex; [|reflexivity].
      destruct (PrimFloat.eqb (fst h) ts) eqn:Eh; [|reflexivity].
      unfold newer in G. rewrite (same_time_not_newer _ _ ts Ex Eh) in G. discriminate.
    + reflexivity.
Qed.

Lemma order_keeps_ties (ts : float) (l : list (float * float)) :
  at_time ts (order_by_timestamp_desc l) = at_time ts l.
Proof.
  unfold order_by_timestamp_desc, sort_by.
  induction l as [|x rest IH]; cbn [fold_right]; [reflexivity|].
  rewrite at_time_insert, IH. unfold at_time. cbn [filter]. reflexivity.
Qed.

(** C7. For a window size, history returns at most that many values: the
    values of the samples of the test and the metric with the latest
    timestamps, most recent first, and an empty sequence when there are no
    samples; the query never raises. The rows the query reads are the
    samples of the test and the metric, each once. Samples with the same
    timestamp, whose order the specification leaves open, come in the order
    they were written. The default baseline is computed from the five most
    recent samples whatever else the store holds. *)
Theorem history_window (db : database) (t n : string) (window : Z) :
  store_ok db -> 0 <= window ->
  let newest := order_by_timestamp_desc (joined db t n) in
  let taken := firstn (Z.to_nat window) newest in
  let left := skipn (Z.to_nat window) newest in
  (forall ts v, In (ts, v) (joined db t n) <-> is_sample_of db t n ts v)
  /\ List.length (joined db t n) = List.length (sample_rows db t n)
  /\ Permutation (joined db t n) newest
  /\ newest_first newest
  /\ (forall ts, at_time ts newest = at_time ts (joined db t n))
  /\ history db t n window = map snd taken
  /\ Z.of_nat (List.length (history db t n window)) <= window
  /\ (forall r r', In r taken -> In r' left -> fle (fst r') (fst r))
  /\ ((forall ts v, ~ is_sample_of db t n ts v) -> history db t n window = [])
  /\ get_baseline db t n 5 = baseline_of (map snd (firstn 5 newest))
  /\ exists b, get_baseline db t n 5 = Ok b.
Proof.
  intros Hok Hw newest taken left.
  assert (Hs : newest_first newest).
  { apply order_by_timestamp_desc_sorted, joined_timestamps, Hok. }
  assert (Hh : history db t n window = map snd taken).
  { unfold history. rewrite limit_firstn by assumption. reflexivity. }
  split; [apply joined_samples|].
  split; [apply joined_length, Hok|].
  split; [apply order_by_timestamp_desc_perm|].
  split; [exact Hs|].
  split; [intros ts; apply order_keeps_ties|].
  split; [exact Hh|].
  split.
  { rewrite Hh, length_map. unfold taken. rewrite length_firstn. lia. }
  split.
  { intros r r' Hr Hr'. unfold newest_first in Hs.
    rewrite <- (firstn_skipn (Z.to_nat window) newest) in Hs.
    apply (StronglySorted_app_inv _ _ _ Hs r r' Hr Hr'). }
  split.
  { intros Hnone. rewrite Hh. unfold taken, newest.
    destruct (joined db t n) as [|[ts v] rest] eqn:E.
    - cbn. rewrite firstn_nil. reflexivity.
    - exfalso. apply (Hnone ts v). apply joined_samples. rewrite E. left. reflexivity. }
  split; [reflexivity | apply baseline_of_ok].
Qed.

Lemma history_window_witness :
  store_ok example_store
  /\ history example_store "BM_Sort" "real_time" 5 = [105; 95; 110; 90; 100]%float
  /\ get_baseline example_store "BM_Sort" "real_time" 5 = Ok (Some 100%float)
  /\ Z.of_nat (List.length (history example_store "BM_Sort" "real_time" 5)) <= 5
  /\ history example_ties "BM_Sort" "real_time" 5 = [1; 2; 3; 4; 5]%float
  /\ get_baseline example_ties "BM_Sort" "real_time" 5 = Ok (Some 3%float).
Proof.
  assert (Hok : store_ok example_store).
  { apply store_ok_record_all, store_ok_empty. }
  split; [exact Hok|].
  split; [vm_compute; reflexivity|].
  split; [vm_compute; reflexivity|].
  split.
  { apply (history_window example_store "BM_Sort" "real_time" 5 Hok). lia. }
  split; vm_compute; reflexivity.
Defined.

(* ----------------------------------------------------------------- *)
(** ** How many values history returns *)

Lemma history_values (db : database) (t n : string) (window : Z) (v : float) :
  In v (history db t n window) -> exists ts, In (ts, v) (joined db t n).
Proof.
  unfold history. intros H. apply in_map_iff in H as ([ts v'] & E & Hin).
  cbn [snd] in E. subst v'. exists ts.
  assert (Hin' : In (ts, v) (order_by_timestamp_desc (joined db t n))).
  { unfold limit in Hin. destruct (window <? 0); [exact Hin|].
    rewrite <- (firstn_skipn (Z.to_nat window)). apply in_or_app. left. exact Hin. }
  eapply Permutation_in; [apply Permutation_sym, order_by_timestamp_desc_perm | exact Hin'].
Qed.

(** X10. History returns values of stored samples of the test and the
    metric only, and as many as the window allows: all of them when there
    are at most [window], else [window]; a negative window, which SQLite
    reads as no limit, returns all of them. When all are returned, the
    value of every sample of the test and the metric is among them. *)
Theorem history_length (db : database) (t n : string) (window : Z) :
  store_ok db ->
  List.length (history db t n window)
  = (if window <? 0 then List.length (sample_rows db t n)
     else Nat.min (Z.to_nat window) (List.length (sample_rows db t n)))
  /\ (forall v, In v (history db t n window) -> exists ts, is_sample_of db t n ts v)
  /\ (window < 0 \/ Z.of_nat (List.length (sample_rows db t n)) <= window ->
      forall ts v, is_sample_of db t n ts v -> In v (history db t n window)).
Proof.
  intros Hok. pose proof (joined_length db t n Hok) as L.
  split; [|split].
  - unfold history. rewrite length_map. unfold limit.
    destruct (window <? 0).
    + rewrite <- L. symmetry. apply Permutation_length, order_by_timestamp_desc_perm.
    + rewrite length_firstn, <- L. f_equal.
      symmetry. apply Permutation_length, order_by_timestamp_desc_perm.
  - intros v Hv. apply history_values in Hv as [ts Hin].
    exists ts. apply joined_samples, Hin.
  - intros Hall ts v Hs. apply joined_samples in Hs.
    unfold history. apply in_map_iff. exists (ts, v). split; [reflexivity|].
    assert (Hin : In (ts, v) (order_by_timestamp_desc (joined db t n))).
    { eapply Permutation_in; [apply order_by_timestamp_desc_perm | exact Hs]. }
    unfold limit. destruct (Z.ltb_spec window 0) as [_|Hw]; [exact Hin|].
    rewrite firstn_all2; [exact Hin|].
    rewrite <- (Permutation_length (order_by_timestamp_desc_perm (joined db t n))), L.
    lia.
Qed.

Lemma history_length_witness :
  List.length (history example_store "BM_Sort" "real_time" 5) = 5%nat
  /\ List.length (history example_store "BM_Sort" "real_time" (-1)) = 7%nat
  /\ List.length (history example_store "BM_Sort" "cpu_time" 5) = 0%nat.
Proof.
  assert (Hok : store_ok example_store) by apply store_ok_record_all, store_ok_empty.
  split; [|split].
  - rewrite (proj1 (history_length example_store "BM_Sort" "real_time" 5 Hok)).
    vm_compute. reflexivity.
  - rewrite (proj1 (history_length example_store "BM_Sort" "real_time" (-1) Hok)).
    vm_compute. reflexivity.
  - rewrite (proj1 (history_length example_store "BM_Sort" "cpu_time" 5 Hok)).
    vm_compute. reflexivity.
Defined.

(* ----------------------------------------------------------------- *)
(** ** Recording a pair twice *)

(** The rows of the query after a write with a timestamp that is a number:
    the rows of the records that were kept, then one per sample of the
    write with the name of the metric. *)
Lemma joined_write_rows (db : database) (ts tsv : float) (t c n : string)
    (items : list (string * pyval)) :
  store_ok db -> sqlite_real ts = Some tsv ->
  joined (fst (add_measurement db ts t c items)) t n
  = joined (without db t c) t n
    ++ map (fun m => (tsv, m_value m))
           (filter (fun m => String.eqb (m_metric_name m) n)
                   (samples_of (new_rowid (benchmarks db)) items)).
Proof.
  intros Hok Hts. set (rid := new_rowid (benchmarks db)).
  rewrite (add_measurement_db db ts tsv t c items Hts), !joined_matches.
  cbn [benchmarks metrics without]. fold rid. rewrite flat_map_app. f_equal.
  - apply flat_map_agree. intros m0 Hm0. unfold matches.
    destruct (String.eqb (m_metric_name m0) n); [|reflexivity].
    rewrite filter_app. cbn [filter b_id].
    destruct Hok as (_ & _ & _ & Hlt). rewrite Forall_forall in Hlt.
    specialize (Hlt m0 Hm0). cbv beta in Hlt. fold rid in Hlt.
    destruct (Z.eqb_spec rid (m_benchmark_id m0)) as [E|_]; [lia|].
    cbn [andb]. rewrite app_nil_r. reflexivity.
  - set (row := {| b_id := rid; b_test_name := t; b_commit_hash := c;
                   b_timestamp := tsv; b_metrics_json := PyDict items |}).
    assert (Each : forall m0, In m0 (samples_of rid items) ->
              matches (filter (fun b => negb (same_key t c b)) (benchmarks db) ++ [row]) t n m0
              = if String.eqb (m_metric_name m0) n then [(tsv, m_value m0)] else []).
    { intros m0 Hm0. unfold matches.
      destruct (String.eqb (m_metric_name m0) n); [|reflexivity].
      rewrite filter_app. rewrite filter_none.
      - cbn [filter app row b_id b_test_name]. rewrite (samples_of_id _ _ _ Hm0).
        rewrite Z.eqb_refl, String.eqb_refl. reflexivity.
      - intros b Hb. apply filter_In in Hb as [Hb _]. apply new_rowid_gt in Hb.
        rewrite (samples_of_id _ _ _ Hm0). fold rid in Hb.
        destruct (Z.eqb_spec (b_id b) rid); [lia | reflexivity]. }
    revert Each. generalize (samples_of rid items) as samples.
    induction samples as [|m0 rest IH]; intros Each; cbn [flat_map filter]; [reflexivity|].
    rewrite (Each m0 (or_introl eq_refl)), IH by (intros; apply Each; right; assumption).
    destruct (String.eqb (m_metric_name m0) n); reflexivity.
Qed.

Lemma filter_not_key_twice (t c : string) (rows : list benchmark_row) :
  filter (fun b => negb (same_key t c b)) (filter (fun b => negb (same_key t c b)) rows)
  = filter (fun b => negb (same_key t c b)) rows.
Proof.
  induction rows as [|b rest IH]; cbn [filter]; [reflexivity|].
  destruct (negb (same_key t c b)) eqn:K; cbn [filter]; [rewrite K, IH; reflexivity | exact IH].
Qed.

(** Once the record of a pair is deleted, a write for the pair has left
    nothing that the query can see. *)
Lemma write_leaves_no_trace (db : database) (ts : float) (t c n : string)
    (items : list (string * pyval)) :
  store_ok db ->
  joined (without (fst (add_measurement db ts t c items)) t c) t n
  = joined (without db t c) t n.
Proof.
  intros Hok. destruct (sqlite_real ts) as [tsv|] eqn:Hts.
  2:{ rewrite add_measurement_nan by assumption. reflexivity. }
  rewrite (add_measurement_db db ts tsv t c items Hts), !joined_matches.
  cbn [benchmarks metrics without].
  rewrite filter_app, filter_not_key_twice. cbn [filter].
  replace (same_key t c _) with true
    by (symmetry; apply same_key_iff; reflexivity).
  cbn [negb]. rewrite app_nil_r, flat_map_app.
  rewrite (flat_map_nil _ (samples_of _ _)); [apply app_nil_r|].
  intros m Hm. apply samples_of_id in Hm. unfold matches.
  destruct (String.eqb (m_metric_name m) n); [|reflexivity].
  rewrite filter_none; [reflexivity|].
  intros b Hb. apply filter_In in Hb as [Hb _]. apply new_rowid_gt in Hb.
  destruct (Z.eqb_spec (b_id b) (m_benchmark_id m)); [lia | reflexivity].
Qed.

Lemma add_measurement_result (db : database) (ts tsv : float) (t c : string)
    (items : list (string * pyval)) :
  sqlite_real ts = Some tsv ->
  snd (add_measurement db ts t c items)
  = snd (insert_metrics [] (new_rowid (benchmarks db)) items).
Proof.
  intros Hts. unfold add_measurement, insert_or_replace. rewrite Hts.
  cbn [benchmarks metrics]. rewrite insert_metrics_app. reflexivity.
Qed.

(** C3. Recording a (test, commit) pair twice leaves one Benchmark Record
    for the pair, with the timestamp and the metrics of the second write;
    every sequence of writes keeps at most one record per pair. When the
    second write succeeds, the samples of the record are the numeric
    entries of the second payload, one each, by name and value. History
    queries then see, for the pair, these samples only: the rows of a metric
    are those of the store without the pair, then the sample of the second
    write with the name of the metric; so a metric that only the first
    write held has no row of the pair, and in a store with no other commit
    of the test the history of a metric of the second payload is its one
    value. *)
Theorem upsert_replaces_record :
  store_ok empty_database
  /\ (forall db writes, store_ok db -> store_ok (record_all db writes))
  /\ (forall db t c, store_ok db -> (List.length (records db t c) <= 1)%nat)
  /\ (forall db ts1 ts2 t c payload1 payload2,
        store_ok db -> not_nan ts2 ->
        let db1 := fst (add_measurement db ts1 t c payload1) in
        let db2 := fst (add_measurement db1 ts2 t c payload2) in
        let written := snd (add_measurement db1 ts2 t c payload2) = Ok tt in
        exists row,
          records db2 t c = [row]
          /\ sqlite_real ts2 = Some (b_timestamp row)
          /\ b_metrics_json row = PyDict payload2
          /\ (forall m b, In (m, b) (join_on db2) -> same_key t c b = true ->
                          b = row /\ In m (samples_of (b_id row) payload2))
          /\ (forall m, In m (samples_of (b_id row) payload2) ->
                        In (m, row) (join_on db2))
          /\ (written ->
              Forall2 (fun m kv =>
                         m_benchmark_id m = b_id row
                         /\ m_metric_name m = fst kv
                         /\ exists x, py_float (snd kv) = Ok x
                                      /\ sqlite_real x = Some (m_value m))
                      (samples_of (b_id row) payload2) (numeric_items payload2))
          /\ (forall n,
                joined db2 t n
                = joined (without db t c) t n
                  ++ map (fun m => (b_timestamp row, m_value m))
                         (filter (fun m => String.eqb (m_metric_name m) n)
                                 (samples_of (b_id row) payload2)))
          /\ (forall n window,
                written -> ~ In n (map fst (numeric_items payload2)) ->
                history db2 t n window = history (without db t c) t n window)
          /\ (forall n v window,
                written -> NoDup (map fst payload2) ->
                In (n, v) payload2 -> is_number v = true -> 1 <= window ->
                joined (without db t c) t n = [] ->
                exists x y,
                  py_float v = Ok x /\ sqlite_real x = Some y
                  /\ history db2 t n window = [y])).
Proof.
  split; [exact store_ok_empty|].
  split; [intros db writes H; apply store_ok_record_all, H|].
  split; [exact records_le1|].
  intros db ts1 ts2 t c payload1 payload2 Hok Hts db1 db2 written.
  assert (Hok1 : store_ok db1) by apply store_ok_add, Hok.
  destruct (add_measurement_record db1 ts2 t c payload2 Hok1 Hts)
    as (row & Hrec & Hrow_ts & Hjson & Hsub & Hsup).
  fold db2 in Hrec, Hsub, Hsup.
  destruct (sqlite_real_some ts2 Hts) as [tsv Htsv].
  assert (Hrid : b_id row = new_rowid (benchmarks db1)).
  { pose proof (add_measurement_db db1 ts2 tsv t c payload2 Htsv) as E.
    cbv zeta in E. fold db2 in E. unfold records in Hrec. rewrite E in Hrec.
    cbn [benchmarks] in Hrec. rewrite filter_app in Hrec. cbn [filter] in Hrec.
    replace (same_key t c _) with true in Hrec
      by (symmetry; apply same_key_iff; reflexivity).
    rewrite filter_none in Hrec.
    - cbn [app] in Hrec. injection Hrec as <-. reflexivity.
    - intros a Ha. apply filter_In in Ha as [_ Ha].
      destruct (same_key t c a); [discriminate | reflexivity]. }
  assert (Hrts : b_timestamp row = tsv) by congruence.
  assert (J : forall n,
            joined db2 t n
            = joined (without db t c) t n
              ++ map (fun m => (b_timestamp row, m_value m))
                     (filter (fun m => String.eqb (m_metric_name m) n)
                             (samples_of (b_id row) payload2))).
  { intros n. unfold db2.
    rewrite (joined_write_rows db1 ts2 tsv t c n payload2 Hok1 Htsv).
    unfold db1. rewrite (write_leaves_no_trace db ts1 t c n payload1 Hok).
    fold db1. rewrite Hrid, Hrts. reflexivity. }
  assert (F2 : written ->
            Forall2 (fun m kv =>
                       m_benchmark_id m = b_id row
                       /\ m_metric_name m = fst kv
                       /\ exists x, py_float (snd kv) = Ok x
                                    /\ sqlite_real x = Some (m_value m))
                    (samples_of (b_id row) payload2) (numeric_items payload2)).
  { unfold written. rewrite (add_measurement_result db1 ts2 tsv t c payload2 Htsv), Hrid.
    apply samples_of_numeric. }
  exists row.
  split; [exact Hrec|]. split; [exact Hrow_ts|]. split; [exact Hjson|].
  split; [exact Hsub|]. split; [exact Hsup|]. split; [exact F2|]. split; [exact J|].
  split.
  - intros n window W Hn. unfold history. rewrite J.
    rewrite (no_sample_named _ (fun m kv (H : _ /\ _ /\ _) => proj1 (proj2 H))
               n _ _ (F2 W) Hn).
    cbn [map]. rewrite app_nil_r. reflexivity.
  - intros n v window W Hnd Hin Hnum Hw Hnone.
    assert (Hin' : In (n, v) (numeric_items payload2)).
    { apply filter_In. split; assumption. }
    destruct (one_sample_named _ (fun m kv (H : _ /\ _ /\ _) => proj1 (proj2 H))
                n v _ _ (F2 W) (payload_numeric_unique payload2 Hnd) Hin')
      as (m & Hm & _ & _ & x & Hx & Hy).
    cbn [snd] in Hx. exists x, (m_value m). split; [exact Hx|]. split; [exact Hy|].
    unfold history. rewrite J, Hnone, Hm. cbn [app map].
    rewrite limit_firstn by lia.
    destruct (Z.to_nat window) as [|k] eqn:Hk; [lia|]. destruct k; reflexivity.
Qed.

Lemma upsert_replaces_record_witness :
  let db1 := fst (add_measurement empty_database 1 "BM_Sort" "HEAD"
                    [("real_time"%string, PyInt 100); ("cpu_time"%string, PyInt 90)]) in
  let db2 := fst (add_measurement db1 2 "BM_Sort" "HEAD"
                    [("real_time"%string, PyInt 120)]) in
  (exists row,
     records db2 "BM_Sort" "HEAD" = [row]
     /\ sqlite_real 2 = Some (b_timestamp row)
     /\ b_metrics_json row = PyDict [("real_time"%string, PyInt 120)])
  /\ history db1 "BM_Sort" "real_time" 5 = [100%float]
  /\ history db1 "BM_Sort" "cpu_time" 5 = [90%float]
  /\ history db2 "BM_Sort" "real_time" 5 = [120%float]
  /\ history db2 "BM_Sort" "cpu_time" 5 = [].
Proof.
  intros db1 db2.
  destruct (proj2 (proj2 (proj2 upsert_replaces_record))
              empty_database 1%float 2%float "BM_Sort"%string "HEAD"%string
              [("real_time"%string, PyInt 100); ("cpu_time"%string, PyInt 90)]
              [("real_time"%string, PyInt 120)] store_ok_empty eq_refl)
    as (row & Hrec & Hts & Hjson & _ & _ & _ & _ & Hgone & Hone).
  fold db1 in Hrec, Hgone, Hone. fold db2 in Hrec, Hgone, Hone.
  split; [exists row; repeat split; assumption|].
  split; [vm_compute; reflexivity|].
  split; [vm_compute; reflexivity|].
  split.
  - destruct (Hone "real_time"%string (PyInt 120) 5 eq_refl) as (x & y & Hx & Hy & H).
    + repeat constructor. intros [].
    + left. reflexivity.
    + reflexivity.
    + lia.
    + reflexivity.
    + rewrite H. vm_compute in Hx. injection Hx as <-.
      vm_compute in Hy. injection Hy as <-. reflexivity.
  - rewrite (Hgone "cpu_time"%string 5 eq_refl).
    + reflexivity.
    + cbn. intros [H|[]]. discriminate.
Defined.

(* ----------------------------------------------------------------- *)
(** ** One measurement, one artifact, one batch *)

Section RunSteps.

Variable args : arguments.
Variable time : nat -> float.

(** A measurement that raises adds no finding and consumes its
    timestamp. What it wrote stays with the connection; it is committed only
    when it is the check that raised. *)
Lemma ingest_raises (st st' : run_state) (name : name_value) (value : pyval) (e : exn) :
  ingest args time st name value = (st', Raise e) ->
  st_regressions st' = st_regressions st
  /\ st_ticks st' = S (st_ticks st)
  /\ ((bind_text name = Raise e
       /\ st_db st' = st_db st /\ st_committed st' = st_committed st)
      \/ exists tn,
           bind_text name = Ok tn
           /\ ((exists items,
                  value = PyDict items
                  /\ add_measurement (st_db st) (time (st_ticks st)) tn
                                     (arg_commit args) items
                     = (st_db st', Raise e)
                  /\ st_committed st' = st_committed st)
               \/ (exists items,
                     value = PyDict items
                     /\ add_measurement (st_db st) (time (st_ticks st)) tn
                                        (arg_commit args) items
                        = (st_db st', Ok tt)
                     /\ check_regression (st_db st') tn items (arg_threshold args)
                        = Raise e
                     /\ st_committed st' = st_db st')
               \/ ((forall items, value <> PyDict items)
                   /\ st_committed st' = st_committed st
                   /\ match insert_or_replace (st_db st) tn (arg_commit args)
                                              (time (st_ticks st)) value with
                      | Raise e' => e = e' /\ st_db st' = st_db st
                      | Ok (db, _) =>
                          st_db st' = db
                          /\ e = AttributeError ("'" ++ type_name value
                                                 ++ "' object has no attribute 'items'")
                      end))).
Proof.
  unfold ingest. cbv zeta. destruct (bind_text name) as [tn|e0].
  2:{ intros [= <- <-]. cbn. split; [reflexivity|]. split; [reflexivity|]. left. auto. }
  destruct value as [| | | | | |items];
    try (destruct (insert_or_replace _ _ _ _ _) as [[db rid]|e0] eqn:R;
         intros [= <- <-]; cbn;
         (split; [reflexivity|]); (split; [reflexivity|]);
         right; exists tn; (split; [reflexivity|]); right; right;
         (split; [discriminate|]); (split; [reflexivity|]);
         rewrite R; split; reflexivity).
  destruct (add_measurement _ _ _ _ _) as [db [[]|e0]] eqn:A.
  2:{ intros [= <- <-]. cbn. split; [reflexivity|]. split; [reflexivity|].
      right. exists tn. split; [reflexivity|]. left. exists items. auto. }
  destruct (check_regression _ _ _ _) as [regs|e0] eqn:C; [discriminate|].
  intros [= <- <-]. cbn. split; [reflexivity|]. split; [reflexivity|].
  right. exists tn. split; [reflexivity|]. right. left. exists items. auto.
Qed.

(** A measurement that does not raise was written and committed, and adds
    the findings of its check. *)
Lemma ingest_returns (st st' : run_state) (name : name_value) (value : pyval) :
  ingest args time st name value = (st', Ok tt) ->
  exists tn items regs,
    bind_text name = Ok tn /\ value = PyDict items
    /\ add_measurement (st_db st) (time (st_ticks st)) tn (arg_commit args) items
       = (st_db st', Ok tt)
    /\ check_regression (st_db st') tn items (arg_threshold args) = Ok regs
    /\ st_regressions st' = st_regressions st ++ map (shown_as name) regs
    /\ st_committed st' = st_db st'
    /\ st_ticks st' = S (st_ticks st).
Proof.
  unfold ingest. destruct (bind_text name) as [tn|e0]; [|discriminate].
  destruct value as [| | | | | |items];
    try (destruct (insert_or_replace _ _ _ _ _) as [[db rid]|e0]; discriminate).
  destruct (add_measurement _ _ _ _ _) as [db [[]|e0]] eqn:A; [|discriminate].
  destruct (check_regression _ _ _ _) as [regs|e0] eqn:C; [|discriminate].
  intros [= <-]. cbn. exists tn, items, regs. repeat split; assumption.
Qed.

Lemma process_entries_app (pre post : list entry) (st : run_state) :
  process_entries args time st (pre ++ post)
  = match process_entries args time st pre with
    | (st1, Raise e) => (st1, Raise e)
    | (st1, Ok _) => process_entries args time st1 post
    end.
Proof.
  revert st. induction pre as [|[b|e] rest IH]; intros st; cbn [app process_entries];
    [reflexivity | | reflexivity].
  destruct (e_name b) as [tn|]; [|reflexivity].
  destruct (ingest args time st tn _) as [st1 [[]|e]]; [apply IH | reflexivity].
Qed.

(** The entries of an artifact that raises: the ones that went through,
    the one that raised, which adds no finding, and the ones behind it. *)
Lemma process_entries_raises (entries : list entry) (st st' : run_state) (e : exn) :
  process_entries args time st entries = (st', Raise e) ->
  exists done failing rest st1,
    entries = done ++ failing :: rest
    /\ process_entries args time st done = (st1, Ok tt)
    /\ process_entries args time st1 [failing] = (st', Raise e)
    /\ st_regressions st' = st_regressions st1.
Proof.
  revert st. induction entries as [|[b|e0] more IH]; intros st; cbn [process_entries].
  - discriminate.
  - destruct (e_name b) as [tn|] eqn:N.
    + destruct (ingest args time st tn _) as [st2 [[]|e2]] eqn:I.
      * intros H. destruct (IH st2 H) as (done & failing & rest & st1 & -> & D & F & R).
        exists (Object b :: done), failing, rest, st1.
        split; [reflexivity|]. split; [|split; assumption].
        cbn [process_entries]. rewrite N, I. exact D.
      * intros [= <- <-]. exists [], (Object b), more, st.
        split; [reflexivity|]. split; [reflexivity|]. split.
        -- cbn [process_entries]. rewrite N, I. reflexivity.
        -- apply (ingest_raises _ _ _ _ _ I).
    + intros [= <- <-]. exists [], (Object b), more, st.
      split; [reflexivity|]. split; [reflexivity|]. split; [|reflexivity].
      cbn [process_entries]. rewrite N. reflexivity.
  - intros [= <- <-]. exists [], (NotObject e0), more, st.
    repeat split; reflexivity.
Qed.

(** An entry that raises ends the artifact, whatever is behind it. *)
Lemma process_entries_stops (pre rest : list entry) (failing : entry)
    (st st1 st' : run_state) (e : exn) :
  process_entries args time st pre = (st1, Ok tt) ->
  process_entries args time st1 [failing] = (st', Raise e) ->
  process_entries args time st (pre ++ failing :: rest) = (st', Raise e).
Proof.
  intros Hpre Hfail. rewrite process_entries_app, Hpre.
  revert Hfail. cbn [process_entries]. destruct failing as [b|e0]; [|exact (fun H => H)].
  destruct (e_name b) as [tn|]; [|exact (fun H => H)].
  destruct (ingest args time st1 tn _) as [st2 [[]|e2]]; [discriminate | exact (fun H => H)].
Qed.

(** The state a batch ends in does not depend on what was on the
    diagnostic stream, and the batch only adds lines to it. *)
Lemma process_files_stderr (files : list artifact) (st : run_state) (err : list string) :
  process_files args time st err files
  = (fst (process_files args time st [] files),
     err ++ snd (process_files args time st [] files)).
Proof.
  revert st err. induction files as [|f rest IH]; intros st err; cbn [process_files].
  - rewrite app_nil_r. reflexivity.
  - destruct (process_file args time st f) as [st1 [[]|e]].
    + apply IH.
    + rewrite IH, (IH st1 ([] ++ _)). cbn [fst snd app].
      rewrite <- app_assoc. reflexivity.
Qed.

(** A batch with an artifact that cannot be read ends in the state of the
    batch without it, with one more line on the diagnostic stream. *)
Lemma process_files_unreadable (pre post : list artifact) (bad : artifact) (e : exn)
    (st : run_state) :
  data bad = Unreadable e ->
  let without_it := process_files args time st [] (pre ++ post) in
  let before := process_files args time st [] pre in
  let behind := process_files args time (fst before) [] post in
  process_files args time st [] (pre ++ bad :: post)
  = (fst without_it,
     snd before ++ ("Error processing " ++ path bad ++ ": " ++ exn_str e)%string
                :: snd behind)
  /\ snd without_it = snd before ++ snd behind.
Proof.
  intros Hbad without_it before behind. unfold without_it.
  rewrite !process_files_app. fold before. cbn [process_files].
  unfold process_file. rewrite Hbad.
  rewrite (process_files_stderr post (fst before) (snd before ++ _)).
  rewrite (process_files_stderr post (fst before) (snd before)).
  fold behind. cbn [fst snd]. rewrite <- app_assoc. split; reflexivity.
Qed.

(** What a run over at least one file prints. *)
Lemma main_stdout (db : database) (files : list artifact) (old : option string) :
  files <> [] ->
  stdout (main args time db files old)
  = match st_regressions (fst (process_files args time (start db) [] files)) with
    | [] => ["✅ No performance regressions detected"%string]
    | regs =>
        [("❌ Found " ++ str_int (Z.of_nat (List.length regs))
          ++ " performance regressions")%string]
    end.
Proof.
  intros Hne. set (final := process_files args time (start db) [] files).
  assert (Hf : Forall formattable (st_regressions (fst final))).
  { destruct (process_files_extends args time files (start db) []) as [(extra & E & F) _].
    fold final in E. rewrite E. exact F. }
  apply generate_report_ok in Hf.
  unfold main. destruct files as [|f rest]; [congruence|].
  fold final. destruct final as [st err]. cbn [fst snd] in *.
  destruct (generate_report (st_regressions st)) as [content r]. cbn [snd] in Hf. subst r.
  destruct (st_regressions st); reflexivity.
Qed.

End RunSteps.

(** C8, as the code has it. When processing one artifact of a batch
    raises, the exception is caught and a line goes to the diagnostic
    stream; the remaining artifacts are processed from the state the failing
    one left, their findings are added, and the run ends with the report and
    an exit code as usual. An artifact that cannot be opened or parsed, or
    is of the wrong shape, is skipped: the run ends as the run without it,
    but for the line on the diagnostic stream; when it is the only one, the
    report is the success marker and the exit code 0. An artifact that
    raises midway is not: the entries in front of the failing one were
    written, committed and checked, and their findings stay; the entry that
    raises ends the artifact, and the entries behind it are not processed.
    A measurement that raises adds no finding and consumes its timestamp;
    what it wrote stays with the connection and is committed with the next
    measurement that succeeds, or at once when it is the check that raised.
    A measurement that does not raise is written, committed and checked,
    and adds the findings of its check. *)
Theorem failure_is_isolated (args : arguments) (time : nat -> float) :
  (forall db pre bad post old st_bad e,
      let before := process_files args time (start db) [] pre in
      process_file args time (fst before) bad = (st_bad, Raise e) ->
      let message := ("Error processing " ++ path bad ++ ": " ++ exn_str e)%string in
      let after := process_files args time st_bad (snd before ++ [message]) post in
      let out := main args time db (pre ++ bad :: post) old in
      (exists more, stderr out = snd before ++ message :: more)
      /\ stderr out = snd after
      /\ extends (fst before) st_bad
      /\ extends st_bad (fst after)
      /\ out_db out = st_committed (fst after)
      /\ output_file out = Some (fst (generate_report (st_regressions (fst after))))
      /\ exit_code out = Ok (match st_regressions (fst after) with [] => 0 | _ => 1 end))
  /\ (forall st f e, data f = Unreadable e -> process_file args time st f = (st, Raise e))
  /\ (forall db pre bad post old e,
        data bad = Unreadable e -> pre ++ post <> [] ->
        let out := main args time db (pre ++ bad :: post) old in
        let out' := main args time db (pre ++ post) old in
        exit_code out = exit_code out'
        /\ out_db out = out_db out'
        /\ output_file out = output_file out'
        /\ stdout out = stdout out'
        /\ exists a b,
             stderr out' = a ++ b
             /\ stderr out
                = a ++ ("Error processing " ++ path bad ++ ": " ++ exn_str e)%string :: b)
  /\ (forall db bad old e,
        data bad = Unreadable e ->
        let out := main args time db [bad] old in
        exit_code out = Ok 0
        /\ out_db out = db
        /\ output_file out = Some success_marker
        /\ stderr out = [("Error processing " ++ path bad ++ ": " ++ exn_str e)%string])
  /\ (forall st entries st' e,
        process_entries args time st entries = (st', Raise e) ->
        exists done failing rest st1,
          entries = done ++ failing :: rest
          /\ process_entries args time st done = (st1, Ok tt)
          /\ process_entries args time st1 [failing] = (st', Raise e)
          /\ st_regressions st' = st_regressions st1)
  /\ (forall st pre failing rest st1 st' e,
        process_entries args time st pre = (st1, Ok tt) ->
        process_entries args time st1 [failing] = (st', Raise e) ->
        process_entries args time st (pre ++ failing :: rest) = (st', Raise e))
  /\ (forall st rest e, process_entries args time st (NotObject e :: rest) = (st, Raise e))
  /\ (forall st o rest,
        e_name o = None ->
        process_entries args time st (Object o :: rest) = (st, Raise (KeyError "name")))
  /\ (forall st name value st' e,
        ingest args time st name value = (st', Raise e) ->
        st_regressions st' = st_regressions st
        /\ st_ticks st' = S (st_ticks st)
        /\ ((bind_text name = Raise e
             /\ st_db st' = st_db st /\ st_committed st' = st_committed st)
            \/ exists tn,
                 bind_text name = Ok tn
                 /\ ((exists items,
                        value = PyDict items
                        /\ add_measurement (st_db st) (time (st_ticks st)) tn
                                           (arg_commit args) items
                           = (st_db st', Raise e)
                        /\ st_committed st' = st_committed st)
                     \/ (exists items,
                           value = PyDict items
                           /\ add_measurement (st_db st) (time (st_ticks st)) tn
                                              (arg_commit args) items
                              = (st_db st', Ok tt)
                           /\ check_regression (st_db st') tn items (arg_threshold args)
                              = Raise e
                           /\ st_committed st' = st_db st')
                     \/ ((forall items, value <> PyDict items)
                         /\ st_committed st' = st_committed st
                         /\ match insert_or_replace (st_db st) tn (arg_commit args)
                                                    (time (st_ticks st)) value with
                            | Raise e' => e = e' /\ st_db st' = st_db st
                            | Ok (db, _) =>
                                st_db st' = db
                                /\ e = AttributeError
                                         ("'" ++ type_name value
                                          ++ "' object has no attribute 'items'")
                            end))))
  /\ (forall st name value st',
        ingest args time st name value = (st', Ok tt) ->
        exists tn items regs,
          bind_text name = Ok tn /\ value = PyDict items
          /\ add_measurement (st_db st) (time (st_ticks st)) tn (arg_commit args) items
             = (st_db st', Ok tt)
          /\ check_regression (st_db st') tn items (arg_threshold args) = Ok regs
          /\ st_regressions st' = st_regressions st ++ map (shown_as name) regs
          /\ st_committed st' = st_db st'
          /\ st_ticks st' = S (st_ticks st)).
Proof.
  split; [|split; [|split; [|split; [|split; [|split; [|split; [|split; [|split]]]]]]]].
  - intros db pre bad post old st_bad e before Hbad message after out.
    assert (Hrun : process_files args time (start db) [] (pre ++ bad :: post) = after).
    { rewrite process_files_app. fold before. cbn [process_files]. rewrite Hbad.
      reflexivity. }
    assert (Hne : pre ++ bad :: post <> []).
    { intros E. apply app_eq_nil in E as [_ E]. discriminate. }
    destruct (main_nonempty args time db _ old Hne) as (Hdb & Herr & Hout & Hcode).
    rewrite Hrun in Hdb, Herr, Hout, Hcode. fold out in Hdb, Herr, Hout, Hcode.
    split.
    { rewrite Herr.
      destruct (process_files_extends args time post st_bad (snd before ++ [message]))
        as [_ (more & Hmore)].
      fold after in Hmore. rewrite Hmore, <- app_assoc. exists more. reflexivity. }
    split; [exact Herr|].
    split.
    { pose proof (process_file_extends args time (fst before) bad) as H.
      rewrite Hbad in H. exact H. }
    split; [apply process_files_extends|].
    repeat split; assumption.
  - intros st f e Hf. unfold process_file. rewrite Hf. reflexivity.
  - intros db pre bad post old e Hbad Hne out out'.
    assert (Hne' : pre ++ bad :: post <> []).
    { intros E. apply app_eq_nil in E as [_ E]. discriminate. }
    destruct (main_nonempty args time db _ old Hne') as (Hdb & Herr & Hout & Hcode).
    destruct (main_nonempty args time db _ old Hne) as (Hdb' & Herr' & Hout' & Hcode').
    fold out in Hdb, Herr, Hout, Hcode. fold out' in Hdb', Herr', Hout', Hcode'.
    destruct (process_files_unreadable args time pre post bad e (start db) Hbad)
      as [Hrun Hrun'].
    rewrite Hrun in Hdb, Herr, Hout, Hcode. cbn [fst snd] in Hdb, Herr, Hout, Hcode.
    assert (Hstd : stdout out = stdout out').
    { unfold out, out'. rewrite !main_stdout by assumption. rewrite Hrun. reflexivity. }
    split; [congruence|]. split; [congruence|]. split; [congruence|].
    split; [exact Hstd|].
    eexists _, _. split; [rewrite Herr'; exact Hrun' | exact Herr].
  - intros db bad old e Hbad out. unfold out, main. cbn [process_files].
    unfold process_file. rewrite Hbad. cbn. repeat split.
  - intros st entries st' e. apply process_entries_raises.
  - intros st pre failing rest st1 st' e. apply process_entries_stops.
  - reflexivity.
  - intros st o rest Hname. cbn [process_entries]. rewrite Hname. reflexivity.
  - intros st name value st' e. apply ingest_raises.
  - intros st name value st'. apply ingest_returns.
Qed.

Lemma failure_is_isolated_witness :
  let out := main example_args example_time example_store
                  ([example_first] ++ example_broken :: [example_later]) None in
  (exists more,
     stderr out
     = [] ++ "Error processing results/b.json: Expecting value: line 1 column 1 (char 0)"%string
          :: more)
  /\ exit_code out = Ok 1.
Proof.
  pose proof (proj1 (failure_is_isolated example_args example_time) example_store
                [example_first] example_broken [example_later] None _ _ eq_refl) as H.
  cbv zeta in H. destruct H as (Hin & _ & _ & _ & _ & _ & Hcode).
  split; [exact Hin|].
  rewrite Hcode. vm_compute. reflexivity.
Defined.

(** C8 as stated fails: an artifact that raises midway is not skipped. The
    first entry of the artifact below is written, committed and reported;
    the second has no name. The run over this artifact alone ends with one
    line on the diagnostic stream, a finding, the failure marker and exit
    code 1, and the store keeps the record of the first entry. An artifact
    whose metrics are an array raises after its record replaced the one of
    the pair; the run that ends there leaves the store as it was. *)
Lemma failing_artifact_is_not_skipped :
  let out := main example_args example_time example_store [example_partial] None in
  let out' := main example_args example_time example_store [example_array] None in
  stderr out = ["Error processing results/p.json: 'name'"%string]
  /\ exit_code out = Ok 1
  /\ output_file out
     = Some (report_title ++ report_header ++ report_rule
             ++ "| BM_Sort | real_time | 105.000 | 150.000 | +42.9% |" ++ nl
             ++ failure_marker)%string
  /\ map b_timestamp (records (out_db out) "BM_Sort" "HEAD") = [1000%float]
  /\ history (out_db out) "BM_Sort" "real_time" 5 = [150; 105; 95; 110; 90]%float
  /\ stderr out'
     = ["Error processing results/q.json: 'list' object has no attribute 'items'"%string]
  /\ exit_code out' = Ok 0
  /\ out_db out' = example_store.
Proof.
  intros out out'.
  split; [vm_compute; reflexivity|].
  split; [vm_compute; reflexivity|].
  repeat split; vm_compute; reflexivity.
Qed.

(* ----------------------------------------------------------------- *)
(** ** A run keeps the constraints of the schema *)

Lemma store_ok_replace (db db' : database) (ts : float) (t c : string) (v : pyval)
    (rid : Z) :
  store_ok db -> insert_or_replace db t c ts v = Ok (db', rid) -> store_ok db'.
Proof.
  intros (Hkey & Hid & Hts & Hm). unfold insert_or_replace.
  destruct (sqlite_real ts) as [tsv|] eqn:E; [|discriminate].
  intros [= <- _].
  set (rows := filter (fun b => negb (same_key t c b)) (benchmarks db)).
  assert (Hsub : forall b, In b rows -> In b (benchmarks db) /\ key b <> (t, c)).
  { intros b Hb. apply filter_In in Hb as [Hb Hk]. split; [assumption|].
    intros K. apply same_key_iff in K. rewrite K in Hk. discriminate. }
  unfold store_ok. cbn [benchmarks metrics].
  split; [|split; [|split]].
  - rewrite map_app. apply NoDup_snoc; [apply filter_keeps_unique; assumption|].
    simpl. intros Hin. apply in_map_iff in Hin as (b & Hb & Hi).
    apply Hsub in Hi. tauto.
  - rewrite map_app. apply NoDup_snoc; [apply filter_keeps_unique; assumption|].
    cbn [map b_id]. intros Hin. apply in_map_iff in Hin as (b & Hb & Hi).
    apply Hsub in Hi as [Hi _]. apply new_rowid_gt in Hi. lia.
  - apply Forall_app. split.
    + rewrite Forall_forall in *. intros b Hb. apply Hts, Hsub, Hb.
    + constructor; [|constructor]. simpl. eapply sqlite_real_not_nan; eassumption.
  - rewrite new_rowid_app. cbn [b_id].
    eapply Forall_impl; [|exact Hm]. cbv beta. intros m Hlt. lia.
Qed.

Lemma unique_pairs_records (db : database) :
  NoDup (map key (benchmarks db)) <-> one_record_per_pair db.
Proof.
  unfold one_record_per_pair, records. generalize (benchmarks db) as rows. intros rows.
  split.
  - intros Hnd t c. apply (unique_column_at_most_one key); [exact Hnd|].
    intros a b Ha Hb. apply same_key_iff in Ha, Hb. congruence.
  - induction rows as [|a rest IH]; intros H; cbn [map]; constructor.
    + intros Hin. apply in_map_iff in Hin as (b & K & Hb).
      specialize (H (b_test_name a) (b_commit_hash a)). cbn [filter] in H.
      replace (same_key _ _ a) with true in H
        by (symmetry; apply same_key_iff; reflexivity).
      assert (Hb' : In b (filter (same_key (b_test_name a) (b_commit_hash a)) rest)).
      { apply filter_In. split; [exact Hb | apply same_key_iff, K]. }
      destruct (filter _ rest); [contradiction | cbn [List.length] in H; lia].
    + apply IH. intros t c. specialize (H t c). cbn [filter] in H.
      destruct (same_key t c a); cbn [List.length] in H; lia.
Qed.

Lemma unique_pairs_replace (db db' : database) (ts : float) (t c : string) (v : pyval)
    (rid : Z) :
  NoDup (map key (benchmarks db)) -> insert_or_replace db t c ts v = Ok (db', rid) ->
  NoDup (map key (benchmarks db')).
Proof.
  intros Hkey. unfold insert_or_replace.
  destruct (sqlite_real ts) as [tsv|]; [|discriminate].
  intros [= <- _]. cbn [benchmarks].
  rewrite map_app. apply NoDup_snoc; [apply filter_keeps_unique; assumption|].
  cbn [map]. intros Hin.
  apply in_map_iff in Hin as (b & K & Hb). apply filter_In in Hb as [_ Hb].
  change (key b = (t, c)) in K.
  apply same_key_iff in K. rewrite K in Hb. discriminate.
Qed.

Lemma unique_pairs_add (db : database) (ts : float) (t c : string)
    (items : list (string * pyval)) :
  NoDup (map key (benchmarks db)) ->
  NoDup (map key (benchmarks (fst (add_measurement db ts t c items)))).
Proof.
  intros Hkey. unfold add_measurement.
  destruct (insert_or_replace db t c ts (PyDict items)) as [[db1 rid]|e] eqn:R;
    [|exact Hkey].
  apply unique_pairs_replace in R; [|exact Hkey].
  destruct (insert_metrics _ _ _). exact R.
Qed.

(** What holds of the store a run opens, and is kept by the two statements
    that write to it, holds of the store as the connection sees it and as
    it is committed, all along the run. *)
Section RunInvariant.

Variable args : arguments.
Variable time : nat -> float.
Variable P : database -> Prop.

Hypothesis P_replace :
  forall db db' ts t c v rid,
    P db -> insert_or_replace db t c ts v = Ok (db', rid) -> P db'.
Hypothesis P_add :
  forall db ts t c items, P db -> P (fst (add_measurement db ts t c items)).

Lemma ingest_keeps (st : run_state) (name : name_value) (value : pyval) :
  P (st_db st) /\ P (st_committed st) ->
  P (st_db (fst (ingest args time st name value)))
  /\ P (st_committed (fst (ingest args time st name value))).
Proof.
  intros [H Hc]. unfold ingest.
  destruct (bind_text name) as [tn|e]; [|split; assumption].
  destruct value as [| | | | | |items];
    try (destruct (insert_or_replace _ _ _ _ _) as [[db rid]|e] eqn:R;
         [apply P_replace in R; [|exact H] | ]; split; assumption).
  pose proof (P_add (st_db st) (time (st_ticks st)) tn (arg_commit args) items H) as H'.
  destruct (add_measurement _ _ _ _ _) as [db [[]|e]]; cbn [fst] in H';
    [|split; assumption].
  destruct (check_regression _ _ _ _); split; exact H'.
Qed.

Lemma process_entries_keeps (entries : list entry) (st : run_state) :
  P (st_db st) /\ P (st_committed st) ->
  P (st_db (fst (process_entries args time st entries)))
  /\ P (st_committed (fst (process_entries args time st entries))).
Proof.
  revert st. induction entries as [|[b|e] rest IH]; intros st H; cbn [process_entries].
  - exact H.
  - destruct (e_name b) as [tn|]; [|exact H].
    match goal with
    | |- context [ingest args time st tn ?items] =>
        pose proof (ingest_keeps st tn items H) as H';
        destruct (ingest args time st tn items) as [st1 [[]|e]]
    end; cbn [fst] in H'; [apply IH, H' | exact H'].
  - exact H.
Qed.

Lemma process_file_keeps (st : run_state) (f : artifact) :
  P (st_db st) /\ P (st_committed st) ->
  P (st_db (fst (process_file args time st f)))
  /\ P (st_committed (fst (process_file args time st f))).
Proof.
  intros H. unfold process_file. destruct (data f) as [e|entries|tn items].
  - exact H.
  - apply process_entries_keeps, H.
  - apply ingest_keeps, H.
Qed.

Lemma process_files_keeps (files : list artifact) (st : run_state) (err : list string) :
  P (st_db st) /\ P (st_committed st) ->
  P (st_db (fst (process_files args time st err files)))
  /\ P (st_committed (fst (process_files args time st err files))).
Proof.
  revert st err. induction files as [|f rest IH]; intros st err H; cbn [process_files].
  - exact H.
  - pose proof (process_file_keeps st f H) as H'.
    destruct (process_file args time st f) as [st1 [[]|e]]; cbn [fst] in H'; apply IH, H'.
Qed.

Lemma main_keeps (db : database) (files : list artifact) (old : option string) :
  P db -> P (out_db (main args time db files old)).
Proof.
  intros H. destruct files as [|f rest]; [exact H|].
  destruct (main_nonempty args time db (f :: rest) old ltac:(discriminate)) as (-> & _).
  apply process_files_keeps. split; exact H.
Qed.

End RunInvariant.

(** X7. A run leaves the store consistent: when the store [main] opens
    holds at most one record per test and commit, so does the store the run
    leaves on disk, whatever the artifacts hold and whichever of them fail;
    and when the store it opens satisfies all the constraints of the schema
    (that one, distinct rowids, timestamps that are numbers, samples under
    rowids that were given out), so does the store it leaves. *)
Theorem run_keeps_store_consistent (args : arguments) (time : nat -> float)
    (db : database) (files : list artifact) (old : option string) :
  let out := main args time db files old in
  (one_record_per_pair db -> one_record_per_pair (out_db out))
  /\ (store_ok db -> store_ok (out_db out)).
Proof.
  intros out. split.
  - intros H. apply unique_pairs_records. apply unique_pairs_records in H.
    apply (main_keeps args time (fun d => NoDup (map key (benchmarks d)))); [| |exact H].
    + intros d d' ts t c v rid. apply unique_pairs_replace.
    + intros d ts t c items. apply unique_pairs_add.
  - apply (main_keeps args time store_ok).
    + intros d d' ts t c v rid. apply store_ok_replace.
    + intros d ts t c items. apply store_ok_add.
Qed.

Lemma run_keeps_store_consistent_witness :
  one_record_per_pair
    (out_db (main example_args example_time example_store
                  [example_first; example_partial; example_array; example_later] None)).
Proof.
  apply (run_keeps_store_consistent example_args example_time example_store
           [example_first; example_partial; example_array; example_later] None).
  apply unique_pairs_records. vm_compute. repeat constructor; cbn; intuition discriminate.
Defined.

(* ----------------------------------------------------------------- *)
(** ** The numerals of the report *)

Lemma digit_value (r : Z) :
  0 <= r < 10 -> Z.of_nat (nat_of_ascii (digit r)) - 48 = r.
Proof.
  intros H. unfold digit. rewrite nat_ascii_embedding by lia. lia.
Qed.

Lemma digits_value_app (a b : string) (acc : Z) :
  digits_value (a ++ b) acc = digits_value b (digits_value a acc).
Proof.
  revert acc. induction a as [|c a IH]; intros acc; cbn [String.append digits_value].
  - reflexivity.
  - apply IH.
Qed.

Lemma dec_digits_value (fuel : nat) (n : Z) (acc : string) :
  0 <= n < 10 ^ Z.of_nat fuel ->
  digits_value (dec_digits fuel n acc) 0 = digits_value acc n.
Proof.
  revert n acc. induction fuel as [|k IH]; intros n acc Hn; cbn [dec_digits].
  - change (10 ^ Z.of_nat 0) with 1 in Hn. replace n with 0 by lia. reflexivity.
  - assert (E : digits_value (String (digit (n mod 10)) acc) (n / 10)
                = digits_value acc n).
    { cbn [digits_value]. rewrite digit_value by apply mod10_range.
      f_equal. pose proof (Z.div_mod n 10 ltac:(lia)). lia. }
    destruct (Z.ltb_spec n 10) as [Hlt|Hge].
    + rewrite <- E. cbn [digits_value]. rewrite Z.div_small by lia. reflexivity.
    + rewrite IH; [exact E|].
      rewrite Nat2Z.inj_succ, Z.pow_succ_r in Hn by lia.
      split; [apply Z.div_pos; lia | apply Z.div_lt_upper_bound; lia].
Qed.

Lemma str_int_value (n : Z) : 0 <= n -> digits_value (str_int n) 0 = n.
Proof.
  intros Hn. unfold str_int. rewrite dec_digits_value; [reflexivity|].
  split; [assumption|].
  destruct (Z.eq_dec n 0) as [->|Hnz]; [reflexivity|].
  pose proof (Z.log2_spec n ltac:(lia)) as [_ U].
  pose proof (Z.log2_nonneg n) as L.
  rewrite Nat2Z.inj_succ, Z2Nat.id by assumption.
  eapply Z.lt_le_trans; [exact U|].
  apply Z.pow_le_mono_l. lia.
Qed.

Lemma frac_digits_value (d : nat) (r acc : Z) :
  0 <= r < 10 ^ Z.of_nat d ->
  digits_value (frac_digits d r) acc = acc * 10 ^ Z.of_nat d + r.
Proof.
  revert r. induction d as [|k IH]; intros r Hr; cbn [frac_digits].
  - change (10 ^ Z.of_nat 0) with 1 in *. cbn [digits_value]. lia.
  - rewrite Nat2Z.inj_succ, Z.pow_succ_r in * by lia.
    rewrite digits_value_app, IH.
    + cbn [digits_value]. rewrite digit_value by apply mod10_range.
      pose proof (Z.div_mod r 10 ltac:(lia)). lia.
    + split; [apply Z.div_pos; lia | apply Z.div_lt_upper_bound; lia].
Qed.

Lemma fixed_numeral (d : nat) (n : Z) (s : bool) :
  0 <= n -> numeral (S d) s n (sign_str s ++ fixed (S d) n).
Proof.
  intros Hn.
  assert (P : 0 < 10 ^ Z.of_nat (S d)) by (apply Z.pow_pos_nonneg; lia).
  exists (str_int (n / 10 ^ Z.of_nat (S d))),
         (frac_digits (S d) (n mod 10 ^ Z.of_nat (S d))).
  destruct (str_int_digits (n / 10 ^ Z.of_nat (S d))) as [D N].
  destruct (frac_digits_shape (S d) (n mod 10 ^ Z.of_nat (S d))) as [L F].
  split; [destruct s; reflexivity|].
  repeat (split; [assumption|]).
  rewrite digits_value_app, str_int_value by (apply Z.div_pos; lia).
  rewrite frac_digits_value by (apply Z.mod_pos_bound; lia).
  pose proof (Z.div_mod n (10 ^ Z.of_nat (S d)) ltac:(lia)). lia.
Qed.

Lemma round_half_even_nonneg (num den : Z) :
  0 <= num -> 0 < den -> 0 <= round_half_even num den.
Proof.
  intros Hn Hd. unfold round_half_even.
  pose proof (Z.div_pos num den Hn Hd).
  destruct (_ ?= _); [destruct (Z.even _)| |]; lia.
Qed.

Lemma scaled_nonneg (m : positive) (e : Z) (d : nat) : 0 <= scaled m e d.
Proof.
  unfold scaled. destruct (Z.leb_spec 0 e).
  - assert (0 <= 2 ^ e) by (apply Z.pow_nonneg; lia).
    assert (0 <= 10 ^ Z.of_nat d) by (apply Z.pow_nonneg; lia). nia.
  - apply round_half_even_nonneg.
    + assert (0 <= 10 ^ Z.of_nat d) by (apply Z.pow_nonneg; lia). nia.
    + apply Z.pow_pos_nonneg; lia.
Qed.

Lemma inject_Z_pos (z : Z) : 0 < z -> (0 < inject_Z z)%Q.
Proof. intros H. unfold Qlt, inject_Z. cbn. lia. Qed.

(** The integer that is rendered is the value times 10^d, rounded to the
    nearest integer. *)
Lemma scaled_nearest (m : positive) (e : Z) (d : nat) :
  (Qabs (inject_Z (scaled m e d) / inject_Z (10 ^ Z.of_nat d)
         - inject_Z (Zpos m) * Qpower 2 e)
   <= half_unit d)%Q.
Proof.
  set (D := 10 ^ Z.of_nat d).
  assert (PD : 0 < D) by (apply Z.pow_pos_nonneg; lia).
  assert (PDq : (0 < inject_Z D)%Q) by (apply inject_Z_pos, PD).
  assert (Hhalf : (0 <= half_unit d)%Q).
  { unfold half_unit. fold D. apply Qle_shift_div_l.
    - apply inject_Z_pos. lia.
    - rewrite Qmult_0_l. discriminate. }
  unfold scaled. fold D. destruct (Z.leb_spec 0 e) as [He|He].
  - assert (E : (inject_Z (Zpos m * 2 ^ e * D) / inject_Z D
               - inject_Z (Zpos m) * Qpower 2 e == 0)%Q).
    { rewrite !inject_Z_mult, (Zpower_Qpower 2 e He).
      change (inject_Z 2) with 2%Q. field. intros Z. rewrite Z in PDq. discriminate. }
    rewrite E. exact Hhalf.
  - set (den := 2 ^ (- e)).
    assert (Pden : 0 < den) by (apply Z.pow_pos_nonneg; lia).
    assert (Pdq : (0 < inject_Z den)%Q) by (apply inject_Z_pos, Pden).
    destruct (round_half_even_nearest (Zpos m * D) den Pden) as [Hn _].
    cbv zeta in Hn. set (n := round_half_even (Zpos m * D) den) in *.
    assert (Epow : (Qpower 2 e == / inject_Z den)%Q).
    { replace e with (- - e) at 1 by lia. rewrite Qpower_opp.
      unfold den. rewrite (Zpower_Qpower 2 (- e)) by lia. reflexivity. }
    rewrite Epow. unfold half_unit. fold D.
    apply Qabs_Qle_condition.
    apply Z.abs_le in Hn as [Hlo0 Hhi0].
    assert (Hlo : (inject_Z (- den) <= inject_Z (2 * (n * den + - (Zpos m * D))))%Q)
      by (rewrite <- Zle_Qle; lia).
    assert (Hhi : (inject_Z (2 * (n * den + - (Zpos m * D))) <= inject_Z den)%Q)
      by (rewrite <- Zle_Qle; lia).
    clear Hlo0 Hhi0.
    rewrite inject_Z_opp in Hlo.
    rewrite inject_Z_mult, inject_Z_plus, inject_Z_opp, !inject_Z_mult in Hlo, Hhi.
    rewrite inject_Z_mult. change (inject_Z 2) with 2%Q in *.
    revert Hlo Hhi PDq Pdq.
    generalize (inject_Z n) (inject_Z D) (inject_Z den) (inject_Z (Zpos m)).
    intros N Dq E M Hlo Hhi PDq Pdq.
    assert (HD : ~ (Dq == 0)%Q) by (intros Z; rewrite Z in PDq; discriminate).
    assert (HE : ~ (E == 0)%Q) by (intros Z; rewrite Z in Pdq; discriminate).
    assert (P : (0 < 2 * Dq * E)%Q).
    { apply Qmult_lt_0_compat; [|assumption].
      apply Qmult_lt_0_compat; [reflexivity | assumption]. }
    split.
    + apply (Qmult_le_r _ _ (2 * Dq * E)); [exact P|].
      setoid_replace (- (1 / (2 * Dq)) * (2 * Dq * E))%Q with (- E)%Q by (field; assumption).
      setoid_replace ((N / Dq - M * / E) * (2 * Dq * E))%Q
        with (2 * (N * E + - (M * Dq)))%Q by (field; split; assumption).
      exact Hlo.
    + apply (Qmult_le_r _ _ (2 * Dq * E)); [exact P|].
      setoid_replace (1 / (2 * Dq) * (2 * Dq * E))%Q with E by (field; assumption).
      setoid_replace ((N / Dq - M * / E) * (2 * Dq * E))%Q
        with (2 * (N * E + - (M * Dq)))%Q by (field; split; assumption).
      exact Hhi.
Qed.

Lemma format_f_numeral (d : nat) (x : float) (v : Q) :
  float_exact x = XFin v ->
  exists neg n,
    numeral (S d) neg n (format_f (S d) x)
    /\ (Qabs (decimal_value (S d) neg n - v) <= half_unit (S d))%Q.
Proof.
  unfold float_exact, format_f.
  destruct (Prim2SF x) as [s|s| |s m e]; cbn [sf_exact]; try discriminate; intros [= <-].
  - exists s, 0. split; [apply fixed_numeral; lia|].
    unfold decimal_value, half_unit.
    assert (Z : (inject_Z 0 / inject_Z (10 ^ Z.of_nat (S d)) == 0)%Q) by reflexivity.
    assert (H : (0 <= 1 / inject_Z (2 * 10 ^ Z.of_nat (S d)))%Q).
    { apply Qle_shift_div_l.
      - apply inject_Z_pos. assert (0 < 10 ^ Z.of_nat (S d)) by (apply Z.pow_pos_nonneg; lia).
        lia.
      - rewrite Qmult_0_l. discriminate. }
    destruct s; cbv zeta; rewrite Z; exact H.
  - exists s, (scaled m e (S d)). split; [apply fixed_numeral, scaled_nonneg|].
    pose proof (scaled_nearest m e (S d)) as H.
    unfold decimal_value. cbv zeta. destruct s; [|exact H].
    match goal with
    | |- (Qabs ?a <= _)%Q =>
        match type of H with
        | (Qabs ?b <= _)%Q =>
            setoid_replace a with (- b)%Q by ring
        end
    end.
    rewrite Qabs_opp. exact H.
Qed.

Lemma format_f_minus (d : nat) (x : float) :
  PrimFloat.ltb x 0 = true -> exists rest, format_f d x = ("-" ++ rest)%string.
Proof.
  rewrite ltb_exact. unfold float_exact, format_f. rewrite Prim2SF_zero.
  destruct (Prim2SF x) as [s|s| |s m e]; cbn [sf_exact].
  - discriminate.
  - destruct s; [intros _; eexists; reflexivity | discriminate].
  - discriminate.
  - destruct s; [intros _; eexists; reflexivity|].
    unfold x_lt, x_compare. rewrite (Qcompare_pos_0 _ (Qscaled_pos m e)). discriminate.
Qed.

(** C9, as the code has it. Rendering no findings writes the success
    marker. Rendering findings writes the title and the table head, then
    one row per finding in the order of the findings, each with the test,
    the metric, the baseline, the new value and the delta, then the failure
    marker; the findings [check_regression] returns can all be rendered. A
    number that is finite is rendered as a decimal numeral with three
    decimals (baseline and new value) or one (delta), which denotes the
    value rounded to that many decimals: it is within half a unit of the
    last decimal of the exact value. An infinity is rendered as inf or
    -inf, and what is not a number as nan. The delta comes behind a plus
    sign that is part of the row, and keeps its own sign: a negative delta
    is rendered with a minus sign behind the plus sign. *)
Theorem report_layout :
  generate_report [] = (success_marker, Ok tt)
  /\ (forall regs,
        regs <> [] -> Forall formattable regs ->
        exists rows,
          generate_report regs
          = ((report_title ++ report_header ++ report_rule
              ++ join_rows rows ++ failure_marker)%string, Ok tt)
          /\ Forall2 (fun reg row =>
                        exists x,
                          py_float (new reg) = Ok x
                          /\ row = row_text reg (format_f 3 (baseline reg))
                                            (format_f 3 x)
                                            (format_f 1 (regression_pct reg)))
                     regs rows)
  /\ (forall db t items thr regs,
        check_regression db t items thr = Ok regs -> Forall formattable regs)
  /\ (forall d x v,
        float_exact x = XFin v ->
        exists neg n,
          numeral (S d) neg n (format_f (S d) x)
          /\ (Qabs (decimal_value (S d) neg n - v) <= half_unit (S d))%Q)
  /\ (forall d x s,
        float_exact x = XInf s ->
        format_f d x = ((if s then "-" else "") ++ "inf")%string)
  /\ (forall d x, float_exact x = XNaN -> format_f d x = "nan"%string)
  /\ (forall d x,
        PrimFloat.ltb x 0 = true -> exists rest, format_f d x = ("-" ++ rest)%string).
Proof.
  split; [reflexivity|].
  split.
  { intros regs Hne Hf.
    destruct (write_rows_join regs (report_title ++ report_header ++ report_rule) Hf)
      as (rows & E & F2).
    exists rows. split.
    - unfold generate_report. destruct regs as [|reg rest]; [congruence|].
      rewrite E. rewrite !append_assoc. reflexivity.
    - eapply Forall2_impl; [|exact F2]. cbv beta.
      intros reg row (n & Hn & ->). unfold format_value in Hn.
      destruct (new reg) eqn:Ev; try discriminate;
        (destruct (py_float _) as [x|e] eqn:Ex; [|discriminate]);
        injection Hn as <-; exists x; split; reflexivity. }
  split.
  { intros db t items thr regs H. unfold check_regression in H.
    apply check_loop_extends in H as (extra & -> & Hf). exact Hf. }
  split; [intros d x v; apply format_f_numeral|].
  split.
  { intros d x s. unfold float_exact, format_f.
    destruct (Prim2SF x) as [s0|s0| |s0 m e]; cbn [sf_exact]; try discriminate.
    intros [= <-]. destruct s0; reflexivity. }
  split.
  { intros d x. unfold float_exact, format_f.
    destruct (Prim2SF x) as [s0|s0| |s0 m e]; cbn [sf_exact]; try discriminate.
    reflexivity. }
  intros d x. apply format_f_minus.
Qed.

Lemma report_layout_witness :
  exists rows,
    generate_report
      [{| test := "BM_Sort"; metric := "real_time"; baseline := 100;
          new := PyFloat 105.01; regression_pct := 5.0100000000000051 |}]
    = ((report_title ++ report_header ++ report_rule
        ++ join_rows rows ++ failure_marker)%string, Ok tt)
    /\ rows = ["| BM_Sort | real_time | 100.000 | 105.010 | +5.0% |" ++ nl]%string.
Proof.
  destruct (proj1 (proj2 report_layout)
              [{| test := "BM_Sort"; metric := "real_time"; baseline := 100;
                  new := PyFloat 105.01; regression_pct := 5.0100000000000051 |}])
    as (rows & E & F2).
  - discriminate.
  - repeat constructor. exists 105.01%float. reflexivity.
  - exists rows. split; [exact E|].
    inversion F2 as [|reg row regs' rows' (x & Hx & Hrow) Hrest]; subst.
    inversion Hrest; subst. cbn [new] in Hx. injection Hx as <-.
    vm_compute. reflexivity.
Defined.

(** C9 as stated fails: the delta is not always positive. With a baseline
    of -100 a new value of 50 is above baseline * (1 + threshold), and the
    delta (50 - -100) / -100 * 100 is -150: the row shows +-150.0%. The
    store below holds three samples of -100; after the measurement of 50
    the baseline is still -100, and the check returns that finding. With a
    baseline of minus infinity the delta is not a number and the row shows
    +nan%. *)
Lemma negative_delta_behind_plus_sign :
  classify "t" "m" (-100) (PyFloat 50) 0.05 = Ok (Some example_negative)
  /\ (let db := fst (add_measurement example_below_zero 4 "t" "c4"
                       [("m"%string, PyFloat 50)]) in
      get_baseline db "t" "m" 5 = Ok (Some (-100)%float)
      /\ check_regression db "t" [("m"%string, PyFloat 50)] 0.05 = Ok [example_negative])
  /\ generate_report [example_negative]
     = ((report_title ++ report_header ++ report_rule
         ++ "| t | m | -100.000 | 50.000 | +-150.0% |" ++ nl
         ++ failure_marker)%string, Ok tt)
  /\ (exists pct,
        classify "t" "m" neg_infinity (PyFloat 5) 0.05
        = Ok (Some {| test := "t"; metric := "m"; baseline := neg_infinity;
                      new := PyFloat 5; regression_pct := pct |})
        /\ PrimFloat.is_nan pct = true
        /\ generate_report [{| test := "t"; metric := "m"; baseline := neg_infinity;
                               new := PyFloat 5; regression_pct := pct |}]
           = ((report_title ++ report_header ++ report_rule
               ++ "| t | m | -inf | 5.000 | +nan% |" ++ nl
               ++ failure_marker)%string, Ok tt)).
Proof.
  split; [vm_compute; reflexivity|].
  split; [split; vm_compute; reflexivity|].
  split; [vm_compute; reflexivity|].
  eexists. split; [vm_compute; reflexivity|].
  split; vm_compute; reflexivity.
Qed.
